(** * QuatNet_OBB: quaternion layers, data pipeline and trainer

    A shallow embedding of the parts of the repository that its
    specification talks about:

    - [Torch]: the tensor operations of the external tensor library that
      the quaternion layers call (row-major tensors, [permute], [reshape],
      [view], [expand], 2D pooling), with scalars idealised as exact
      rationals;
    - [QuaternionDropout], [QuaternionAvgPool], [QuaternionMaxPool]: the
      quaternion structural layers;
    - [QuaternionBasicBlock], [QResNet34], [QuaternionDenseNet],
      [QuaternionCIFAR10]: the dropout-rate schedule and the final stage
      of the forward passes;
    - [NumpyRandom] and [Data]: the legacy shuffle, [Cutout] and
      [MultiAugmentDataset];
    - [Trainer]: the trainer of engine/trainer.py;
    - [MetricsLogger], [L1Regularization], [Interrupt], the seeding
      functions, the plain [ResNet34] and the statistics of [train_epoch]
      and [evaluate].

    Python exceptions are values of [exn]; a call that may raise returns a
    [result]. *)

From Stdlib Require Import List Arith ZArith QArith Qminmax Qabs Lia Lqa Bool Permutation.
From stdpp Require Import gmap strings pretty.
Import ListNotations.

(** ** Python exceptions *)

Inductive exn : Type :=
| AssertionError
| ValueError
| RuntimeError
| AttributeError
| IndexError
| KeyError
| TypeError
| ZeroDivisionError.

Inductive result (A : Type) : Type :=
| Ok (a : A)
| Raise (e : exn).
Arguments Ok {A} a.
Arguments Raise {A} e.

Definition rbind {A B : Type} (r : result A) (k : A -> result B) : result B :=
  match r with
  | Ok a => k a
  | Raise e => Raise e
  end.

Notation "'let*' x ':=' r 'in' k" := (rbind r (fun x => k))
  (at level 10, x pattern, r at level 100, k at level 200).

(** Python's [a < b] on the rational idealisation of floats. *)
Definition Qlt_bool (a b : Q) : bool := negb (Qle_bool b a).

(** ** The tensor library (external collaborator) *)

Module Torch.

(** A tensor is a shape and its elements in row-major order. *)
Record tensor (A : Type) : Type := Tensor { shape : list nat; storage : list A }.
Arguments Tensor {A} shape storage.
Arguments shape {A} t.
Arguments storage {A} t.

Definition numel (s : list nat) : nat := fold_right Nat.mul 1 s.

(** Row-major offset of a multi-index, and its inverse. *)
Fixpoint ravel (s idx : list nat) : nat :=
  match s, idx with
  | _ :: s', i :: idx' => i * numel s' + ravel s' idx'
  | _, _ => 0
  end.

Fixpoint unravel (s : list nat) (n : nat) : list nat :=
  match s with
  | [] => []
  | _ :: s' => (n / numel s') :: unravel s' (n mod numel s')
  end.

Definition in_range (s idx : list nat) : Prop := Forall2 (fun d i => i < d) s idx.

Definition wf {A} (t : tensor A) : Prop := length (storage t) = numel (shape t).

Section Ops.
Context {A : Type} (dflt : A).

(** [t[idx]] for an in-range multi-index. *)
Definition get (t : tensor A) (idx : list nat) : A :=
  nth (ravel (shape t) idx) (storage t) dflt.

(** The tensor of shape [s] whose element at [idx] is [f idx]. *)
Definition tabulate (s : list nat) (f : list nat -> A) : tensor A :=
  Tensor s (map (fun n => f (unravel s n)) (seq 0 (numel s))).

Fixpoint index_of (k : nat) (l : list nat) : nat :=
  match l with
  | [] => 0
  | x :: l' => if x =? k then 0 else S (index_of k l')
  end.

(** [t.permute(dims)]: axis [i] of the result is axis [dims[i]] of [t]. *)
Definition unpermute (dims idx : list nat) : list nat :=
  map (fun k => nth (index_of k dims) idx 0) (seq 0 (length dims)).

Definition permute (t : tensor A) (dims : list nat) : tensor A :=
  tabulate (map (fun d => nth d (shape t) 0) dims)
           (fun idx => get t (unpermute dims idx)).

(** [t.reshape(s)] and [t.view(s)] with explicit sizes: the same
    elements in the same row-major order under a new shape.  Strides
    are not modelled: every tensor is held in logical order, so [view]
    and [reshape] coincide. *)
Definition reshape (t : tensor A) (s : list nat) : result (tensor A) :=
  if numel s =? numel (shape t) then Ok (Tensor s (storage t))
  else Raise RuntimeError.

Definition view (t : tensor A) (s : list nat) : result (tensor A) := reshape t s.

(** [t.view(a, -1, b)]: the size written [-1] is inferred. *)
Definition view_infer (t : tensor A) (pre post : list nat) : result (tensor A) :=
  let known := numel pre * numel post in
  let n := numel (shape t) in
  if known =? 0 then Raise RuntimeError
  else if n mod known =? 0 then Ok (Tensor (pre ++ (n / known) :: post) (storage t))
  else Raise RuntimeError.

(** [t.unsqueeze(dim)] *)
Definition unsqueeze (t : tensor A) (dim : nat) : tensor A :=
  Tensor (firstn dim (shape t) ++ 1 :: skipn dim (shape t)) (storage t).

Fixpoint expandable (s s' : list nat) : bool :=
  match s, s' with
  | [], [] => true
  | d :: r, d' :: r' => ((d =? d') || (d =? 1)) && expandable r r'
  | _, _ => false
  end.

Fixpoint broadcast_index (s idx : list nat) : list nat :=
  match s, idx with
  | d :: r, i :: idx' => (if d =? 1 then 0 else i) :: broadcast_index r idx'
  | _, _ => []
  end.

(** [t.expand(s')]: axes of size 1 are repeated. *)
Definition expand (t : tensor A) (s' : list nat) : result (tensor A) :=
  if expandable (shape t) s'
  then Ok (tabulate s' (fun idx => get t (broadcast_index (shape t) idx)))
  else Raise RuntimeError.

(** [t.select(dim, k)], written [t[:, :, k]] for [dim = 2]. *)
Definition select (t : tensor A) (dim k : nat) : tensor A :=
  tabulate (firstn dim (shape t) ++ skipn (S dim) (shape t))
           (fun idx => get t (firstn dim idx ++ k :: skipn dim idx)).

(** The [H x W] plane at batch entry [n], channel [c] of a 4D tensor. *)
Definition plane (t : tensor A) (n c H W : nat) : list (list A) :=
  map (fun h => map (fun w => get t [n; c; h; w]) (seq 0 W)) (seq 0 H).

(** A 2D pooling of a 4D tensor [(N, C, H, W)]: the library first checks
    the sizes, [accepts C H W], and raises a runtime error on those it
    refuses; [plane_op H W] then maps every plane on its own to a plane of
    the size [out_hw H W]. *)
Definition spatial_pool (accepts : nat -> nat -> nat -> bool)
           (out_hw : nat -> nat -> nat * nat)
           (plane_op : nat -> nat -> list (list A) -> list (list A))
           (t : tensor A) : result (tensor A) :=
  match shape t with
  | [N; C; H; W] =>
      if accepts C H W then
        let '(Ho, Wo) := out_hw H W in
        Ok (tabulate [N; C; Ho; Wo]
              (fun idx => match idx with
                          | [n; c; i; j] =>
                              nth j (nth i (plane_op H W (plane t n c H W)) []) dflt
                          | _ => dflt
                          end))
      else Raise RuntimeError
  | _ => Raise RuntimeError
  end.

End Ops.

Definition shape_eqb (s s' : list nat) : bool :=
  (length s =? length s') && forallb (fun p => fst p =? snd p) (combine s s').

(** Elementwise [x * mask] of a rational tensor and a boolean tensor of
    the same shape ([True] counts as 1, [False] as 0). *)
Definition mul_mask (x : tensor Q) (m : tensor bool) : result (tensor Q) :=
  if shape_eqb (shape x) (shape m)
  then Ok (Tensor (shape x)
             (map (fun p => (fst p * (if snd p : bool then 1 else 0))%Q)
                  (combine (storage x) (storage m))))
  else Raise RuntimeError.

(** Elementwise [x * y] of two tensors of the same shape. *)
Definition mul (x y : tensor Q) : result (tensor Q) :=
  if shape_eqb (shape x) (shape y)
  then Ok (Tensor (shape x)
             (map (fun p => (fst p * snd p)%Q) (combine (storage x) (storage y))))
  else Raise RuntimeError.

(** [m.expand_as(t)]: missing leading axes count as axes of size 1. *)
Definition expand_as (m t : tensor Q) : result (tensor Q) :=
  let lead := repeat 1 (length (shape t) - length (shape m)) in
  expand 0%Q (Tensor (lead ++ shape m) (storage m)) (shape t).

(** [x / c] for a scalar [c]. *)
Definition div_scalar (x : tensor Q) (c : Q) : tensor Q :=
  Tensor (shape x) (map (fun a => (a / c)%Q) (storage x)).

(** [u > p] elementwise. *)
Definition gt_scalar (u : tensor Q) (p : Q) : tensor bool :=
  Tensor (shape u) (map (fun a => Qlt_bool p a) (storage u)).

(** [torch.rand(s)]: the next [numel s] draws of the generator, given as
    the stream [rnd] of uniform samples. *)
Definition rand (rnd : nat -> Q) (s : list nat) : tensor Q :=
  Tensor s (map rnd (seq 0 (numel s))).

(** *** Pooling kernels on exact rationals *)

Definition Qsum (l : list Q) : Q := fold_right Qplus 0%Q l.

Definition Qmax_list (l : list Q) : Q :=
  match l with
  | [] => 0%Q
  | a :: l' => fold_left Qmax l' a
  end.

Definition Qnat (n : nat) : Q := inject_Z (Z.of_nat n).

(** The pooling functions refuse a tensor whose channel axis or one of
    whose spatial axes is empty; the batch axis may be empty. *)
Definition nonempty_planes (C H W : nat) : bool := (0 <? C) && (0 <? H) && (0 <? W).

(** [F.adaptive_avg_pool2d(x, (1, 1))]: the mean of every plane. *)
Definition adaptive_avg_1x1 (H W : nat) (p : list (list Q)) : list (list Q) :=
  [[ (Qsum (concat p) / Qnat (H * W))%Q ]].

Definition adaptive_avg_pool2d_1x1 : tensor Q -> result (tensor Q) :=
  spatial_pool 0%Q nonempty_planes (fun _ _ => (1, 1)) adaptive_avg_1x1.

(** The size checks of the windowed poolings: a positive window and
    stride, a padding of at most half the window, no empty channel or
    spatial axis, and a window that fits the padded plane (so that the
    output is not empty). *)
Definition window_fits (k s pad : nat) (C H W : nat) : bool :=
  (0 <? k) && (0 <? s) && (pad <=? k / 2) && nonempty_planes C H W
  && (k <=? H + 2 * pad) && (k <=? W + 2 * pad).

(** Output size of a window of size [k] moved by [s] over [n + 2 * pad]
    positions (floor mode), for the sizes that pass [window_fits]. *)
Definition pool_out (k s pad n : nat) : nat := (n + 2 * pad - k) / s + 1.

(** The entries of the [k x k] window with top-left corner
    [(r0 - pad, c0 - pad)] that lie inside the plane. *)
Definition window (H W pad k r0 c0 : nat) (p : list (list Q)) : list Q :=
  flat_map (fun di =>
    flat_map (fun dj =>
      let r := r0 + di in
      let c := c0 + dj in
      if (pad <=? r) && (r - pad <? H) && (pad <=? c) && (c - pad <? W)
      then [nth (c - pad) (nth (r - pad) p []) 0%Q]
      else [])
    (seq 0 k))
  (seq 0 k).

Definition avg_plane (k s H W : nat) (p : list (list Q)) : list (list Q) :=
  map (fun i => map (fun j => (Qsum (window H W 0 k (i * s) (j * s) p) / Qnat (k * k))%Q)
                    (seq 0 (pool_out k s 0 W)))
      (seq 0 (pool_out k s 0 H)).

(** [F.avg_pool2d(x, kernel_size=k, stride=s)]; [stride=None] means
    [stride = kernel_size]. *)
Definition avg_pool2d (k : nat) (stride : option nat) : tensor Q -> result (tensor Q) :=
  let s := match stride with Some s => s | None => k end in
  spatial_pool 0%Q (window_fits k s 0)
               (fun H W => (pool_out k s 0 H, pool_out k s 0 W)) (avg_plane k s).

Definition max_plane (k s pad H W : nat) (p : list (list Q)) : list (list Q) :=
  map (fun i => map (fun j => Qmax_list (window H W pad k (i * s) (j * s) p))
                    (seq 0 (pool_out k s pad W)))
      (seq 0 (pool_out k s pad H)).

(** [nn.MaxPool2d(kernel_size=k, stride=s, padding=pad)] *)
Definition max_pool2d (k s pad : nat) : tensor Q -> result (tensor Q) :=
  spatial_pool 0%Q (window_fits k s pad)
               (fun H W => (pool_out k s pad H, pool_out k s pad W)) (max_plane k s pad).

End Torch.

(** ** Quaternion structural layers *)

(** [QuaternionDropout]: [p] is the drop probability, [training] the mode
    flag every module carries. *)
Module QuaternionDropout.
Import Torch.

Record t : Type := Build { p : Q; training : bool }.

(** The mask of one forward call: [torch.rand(B, C, H, W) > self.p]. *)
Definition draw_mask (self : t) (rnd : nat -> Q) (B C H W : nat) : tensor bool :=
  gt_scalar (rand rnd [B; C; H; W]) (p self).

Definition forward (self : t) (rnd : nat -> Q) (x : tensor Q) : result (tensor Q) :=
  if negb (training self) || Qeq_bool (p self) 0 then Ok x
  else
    match shape x with
    | [B; C; Qn; H; W] =>
        if Qn =? 4 then
          let mask := draw_mask self rnd B C H W in
          let* mask := expand false (unsqueeze mask 2) [B; C; Qn; H; W] in
          let* xm := mul_mask x mask in
          Ok (div_scalar xm (1 - p self))
        else Raise AssertionError
    | _ => Raise ValueError
    end.
End QuaternionDropout.

(** [pooled.shape[-2:]] unpacked into two names. *)
Definition last_two (s : list nat) : result (nat * nat) :=
  match rev s with
  | w :: h :: _ => Ok (h, w)
  | _ => Raise ValueError
  end.

(** The body shared by the two pooling layers: move the component axis
    next to the batch axis, merge the two, pool every plane, and undo. *)
Definition pool_components (pool : Torch.tensor Q -> result (Torch.tensor Q))
           (x : Torch.tensor Q) : result (Torch.tensor Q) :=
  match Torch.shape x with
  | [B; C; Qn; H; W] =>
      if Qn =? 4 then
        let* x_reshaped := Torch.reshape (Torch.permute 0%Q x [0; 2; 1; 3; 4]) [B * Qn; C; H; W] in
        let* pooled := pool x_reshaped in
        let* hw := last_two (Torch.shape pooled) in
        let '(H_out, W_out) := hw in
        let* v := Torch.view pooled [B; Qn; C; H_out; W_out] in
        Ok (Torch.permute 0%Q v [0; 2; 1; 3; 4])
      else Raise AssertionError
  | _ => Raise ValueError
  end.

Module QuaternionAvgPool.
Record t : Type := Build { kernel_size : option nat; stride : option nat }.

(** The pooling chosen by [forward]: global when [kernel_size] is [None]. *)
Definition pooling (self : t) : Torch.tensor Q -> result (Torch.tensor Q) :=
  match kernel_size self with
  | None => Torch.adaptive_avg_pool2d_1x1
  | Some k => Torch.avg_pool2d k (stride self)
  end.

Definition forward (self : t) (x : Torch.tensor Q) : result (Torch.tensor Q) :=
  pool_components (pooling self) x.
End QuaternionAvgPool.

Module QuaternionMaxPool.
(** [self.pool = nn.MaxPool2d(kernel_size, stride, padding)] *)
Record t : Type := Build { kernel_size : nat; stride : nat; padding : nat }.

Definition pool (self : t) : Torch.tensor Q -> result (Torch.tensor Q) :=
  Torch.max_pool2d (kernel_size self) (stride self) (padding self).

Definition forward (self : t) (x : Torch.tensor Q) : result (Torch.tensor Q) :=
  pool_components (pool self) x.
End QuaternionMaxPool.

(** ** Model architectures *)

(** [NUM_CLASSES = 10], the module-level configuration constant. *)
Definition NUM_CLASSES : nat := 10.

(** Python's [l[i]] for [0 <= i]. *)
Definition py_getitem {A} (l : list A) (i : nat) : result A :=
  match nth_error l i with
  | Some a => Ok a
  | None => Raise IndexError
  end.

(** Python's [min(a, b)]: the first argument unless the second is smaller. *)
Definition py_min (a b : Q) : Q := if Qlt_bool b a then b else a.

Module QuaternionBasicBlock.

(** [dropout1] and [dropout2] are a [QuaternionDropout] when the rate is
    positive and [nn.Identity()] otherwise; assigning [.p] to an identity
    module only stores the attribute. *)
Inductive dropout_module : Type :=
| Dropout (d : QuaternionDropout.t)
| Identity (p_attr : option Q).

(** Of a block, only the two dropout modules matter to the schedule; the
    convolutions and normalisations are external layers. *)
Record t : Type := Build { dropout1 : dropout_module; dropout2 : dropout_module }.

Definition make_dropout (dropout_rate : Q) : dropout_module :=
  if Qlt_bool 0 dropout_rate
  then Dropout (QuaternionDropout.Build dropout_rate true)
  else Identity None.

Definition __init__ (dropout_rate : Q) : t :=
  Build (make_dropout dropout_rate) (make_dropout dropout_rate).

(** [module.p = r] *)
Definition set_p (m : dropout_module) (r : Q) : dropout_module :=
  match m with
  | Dropout d => Dropout (QuaternionDropout.Build r (QuaternionDropout.training d))
  | Identity _ => Identity (Some r)
  end.

(** [module.p] *)
Definition get_p (m : dropout_module) : option Q :=
  match m with
  | Dropout d => Some (QuaternionDropout.p d)
  | Identity a => a
  end.

End QuaternionBasicBlock.

Module QResNet34.

Record t : Type := Build {
  dropout_initial : list Q;      (* self.dropout_rates['initial'] *)
  dropout_increment : Q;         (* self.dropout_rates['increment'] *)
  current_rates : list Q;
  conv2_x : list QuaternionBasicBlock.t;
  conv3_x : list QuaternionBasicBlock.t;
  conv4_x : list QuaternionBasicBlock.t;
  conv5_x : list QuaternionBasicBlock.t;
  classifier_dropout_p : Q;      (* self.classifier[3].p *)
  classifier_out_features : nat  (* QDense(512, num_classes * 4) *)
}.

Definition _make_layer (rates : list Q) (num_blocks dropout_idx : nat)
  : result (list QuaternionBasicBlock.t) :=
  let* r := py_getitem rates dropout_idx in
  Ok (QuaternionBasicBlock.__init__ r
        :: map (fun _ => QuaternionBasicBlock.__init__ r) (seq 1 (num_blocks - 1))).

Definition initial_rates : list Q := [1 # 10; 15 # 100; 2 # 10; 2 # 10; 25 # 100].

Definition __init__ (num_classes : nat) : result t :=
  let rates := initial_rates in
  let* c2 := _make_layer rates 3 0 in
  let* c3 := _make_layer rates 4 1 in
  let* c4 := _make_layer rates 6 2 in
  let* c5 := _make_layer rates 3 3 in
  Ok (Build initial_rates (5 # 100) rates c2 c3 c4 c5 (3 # 10) (num_classes * 4)).

(** [for i in range(len(rates)): rates[i] = min(0.5, rates[i] + inc)] *)
Definition bump_rates (inc : Q) (rates : list Q) : result (list Q) :=
  fold_left
    (fun acc i =>
       let* rs := acc in
       let* r := py_getitem rs i in
       Ok (<[i := py_min (1 # 2) (r + inc)]> rs))
    (seq 0 (length rates)) (Ok rates).

Fixpoint _update_block_dropout (rates : list Q) (block : list QuaternionBasicBlock.t)
         (rate_idx : nat) : result (list QuaternionBasicBlock.t) :=
  match block with
  | [] => Ok []
  | layer :: rest =>
      let* r1 := py_getitem rates rate_idx in
      let* r2 := py_getitem rates rate_idx in
      let layer' :=
        QuaternionBasicBlock.Build
          (QuaternionBasicBlock.set_p (QuaternionBasicBlock.dropout1 layer) r1)
          (QuaternionBasicBlock.set_p (QuaternionBasicBlock.dropout2 layer) r2) in
      let* rest' := _update_block_dropout rates rest rate_idx in
      Ok (layer' :: rest')
  end.

Definition update_dropout_rates (self : t) : result t :=
  let* rates := bump_rates (dropout_increment self) (current_rates self) in
  let* c2 := _update_block_dropout rates (conv2_x self) 0 in
  let* c3 := _update_block_dropout rates (conv3_x self) 1 in
  let* c4 := _update_block_dropout rates (conv4_x self) 2 in
  let* c5 := _update_block_dropout rates (conv5_x self) 3 in
  let* r4 := py_getitem rates 4 in
  Ok (Build (dropout_initial self) (dropout_increment self) rates c2 c3 c4 c5 r4
            (classifier_out_features self)).

(** [forward]: [layers] stands for [conv1 ... conv5_x], [gap] and
    [classifier], which are built from layers defined outside these
    sources; what follows the classifier is the code of [forward]. *)
Definition forward (layers : Torch.tensor Q -> result (Torch.tensor Q))
           (x : Torch.tensor Q) : result (Torch.tensor Q) :=
  let* x := layers x in
  let* batch_size := py_getitem (Torch.shape x) 0 in
  let* x := Torch.view x [batch_size; NUM_CLASSES; 4] in
  Ok (Torch.select 0%Q x 2 0).

End QResNet34.

Module QuaternionDenseNet.

(** [forward] after [self.fc]: [layers] stands for everything up to and
    including the classifier head. *)
Definition forward (layers : Torch.tensor Q -> result (Torch.tensor Q))
           (x : Torch.tensor Q) : result (Torch.tensor Q) :=
  let* out := layers x in
  let* batch_size := py_getitem (Torch.shape out) 0 in
  let* out := Torch.view_infer out [batch_size] [4] in
  Ok (Torch.select 0%Q out 2 0).

End QuaternionDenseNet.

Module QuaternionCIFAR10.

Definition forward (layers : Torch.tensor Q -> result (Torch.tensor Q))
           (x : Torch.tensor Q) : result (Torch.tensor Q) :=
  let* x := layers x in
  let* batch_size := py_getitem (Torch.shape x) 0 in
  let* x := Torch.view x [batch_size; NUM_CLASSES; 4] in
  Ok (Torch.select 0%Q x 2 0).

(** [pool_spatial_only], with [self.pool = nn.MaxPool2d(2, 2, padding=1)]. *)
Definition pool_spatial_only (x : Torch.tensor Q) : result (Torch.tensor Q) :=
  pool_components (Torch.max_pool2d 2 2 1) x.

End QuaternionCIFAR10.

(** ** The legacy generator of the numerical library (external)

    [np.random.RandomState(seed)] is the Mersenne Twister MT19937 seeded
    from an integer, and [RandomState.shuffle] on a Python list is the
    Fisher-Yates loop over masked rejection sampling. *)

Module NumpyRandom.
Local Open Scope Z_scope.

Definition u32 (z : Z) : Z := Z.land z 4294967295.

Record RandomState : Type := Build { key : list Z; pos : nat }.

Fixpoint seed_key (n : nat) (i : Z) (seed : Z) : list Z :=
  match n with
  | O => []
  | S n' => seed :: seed_key n' (i + 1) (u32 (1812433253 * Z.lxor seed (Z.shiftr seed 30) + i + 1))
  end.

Definition seed (s : Z) : RandomState := Build (seed_key 624 0 (u32 s)) 624.

Definition word (k : list Z) (i : nat) : Z := nth (i mod 624) k 0.

(** One in-place pass over the 624 words of the state. *)
Definition regenerate (k : list Z) : list Z :=
  fold_left
    (fun k i =>
       let y := Z.lor (Z.land (word k i) 2147483648) (Z.land (word k (i + 1)) 2147483647) in
       let v := Z.lxor (Z.lxor (word k (i + 397)) (Z.shiftr y 1))
                       (if Z.odd y then 2567483615 else 0) in
       <[i := v]> k)
    (seq 0 624) k.

Definition temper (y : Z) : Z :=
  let y := Z.lxor y (Z.shiftr y 11) in
  let y := Z.lxor y (Z.land (Z.shiftl y 7) 2636928640) in
  let y := Z.lxor y (Z.land (Z.shiftl y 15) 4022730752) in
  Z.lxor y (Z.shiftr y 18).

Definition next_uint32 (st : RandomState) : Z * RandomState :=
  let st := if (624 <=? pos st)%nat then Build (regenerate (key st)) 0 else st in
  (temper (word (key st) (pos st)), Build (key st) (S (pos st))).

(** The smallest mask [2^k - 1] that covers [max]. *)
Definition mask_of (max : Z) : Z := Z.ones (Z.log2 max + 1).

(** [random_interval(max)]: a draw in [[0, max]]; [fuel] bounds the
    rejection loop and [None] means it was not enough. *)
Fixpoint random_interval (fuel : nat) (max : Z) (st : RandomState)
  : option (Z * RandomState) :=
  if max =? 0 then Some (0, st)
  else
    match fuel with
    | O => None
    | S fuel' =>
        let '(r, st') := next_uint32 st in
        let value := Z.land r (mask_of max) in
        if value <=? max then Some (value, st') else random_interval fuel' max st'
    end.

(** [for i in reversed(range(1, n)): j = random_interval(i); x[i], x[j] = x[j], x[i]] *)
Fixpoint shuffle_from (i : nat) (x : list nat) (st : RandomState) : option (list nat) :=
  match i with
  | O => Some x
  | S i' =>
      match random_interval 64 (Z.of_nat i) st with
      | None => None
      | Some (j, st') =>
          let xi := nth i x 0%nat in
          let xj := nth (Z.to_nat j) x 0%nat in
          shuffle_from i' (<[Z.to_nat j := xi]> (<[i := xj]> x)) st'
      end
  end.

Definition shuffle (st : RandomState) (x : list nat) : option (list nat) :=
  shuffle_from (length x - 1) x st.

(** [np.random.seed(s)] accepts the seeds from 0 to [2^32 - 1] only. *)
Definition checked_seed (s : Z) : result RandomState :=
  if (0 <=? s) && (s <? 2 ^ 32) then Ok (seed s) else Raise ValueError.

End NumpyRandom.

(** ** Data pipeline *)

Inductive policy : Type := Weak | Strong.

(** Python's [l[i]] for any integer [i]: negative indices count from the end. *)
Definition py_getitem_z {A} (l : list A) (i : Z) : result A :=
  let n := Z.of_nat (length l) in
  if (0 <=? i)%Z then py_getitem l (Z.to_nat i)
  else if (- n <=? i)%Z then py_getitem l (Z.to_nat (n + i))
  else Raise IndexError.

Module Data.
Section Pipeline.

(** The state of the global generator of the tensor library, with
    [torch.manual_seed] and [torch.randint(low, high, (1,))]. *)
Variable generator : Type.
Variable manual_seed : Z -> generator.
Variable randint : Z -> Z -> generator -> Z * generator.

(** Images and labels of the base dataset, and the transforms of the
    vision library; its random transforms draw from the global
    generator. *)
Variable pil_image : Type.
Variable label : Type.
Variable RandomCrop : pil_image -> generator -> pil_image * generator.
Variable RandomHorizontalFlip : pil_image -> generator -> pil_image * generator.
Variable AutoAugment : pil_image -> generator -> pil_image * generator.
Variable ToTensor : pil_image -> Torch.tensor Q.
Variable Normalize : Torch.tensor Q -> Torch.tensor Q.

(** [np.random.RandomState(seed).shuffle] *)
Variable rng_shuffle : Z -> list nat -> list nat.

(** *** Cutout *)

Record Cutout : Type := BuildCutout { n_holes : nat; length : Z }.

Definition clamp (v lo hi : Z) : Z := Z.min (Z.max v lo) hi.

(** [mask[y1:y2, x1:x2] = 0.] *)
Definition zero_patch (h w : nat) (y1 y2 x1 x2 : Z) (mask : Torch.tensor Q) : Torch.tensor Q :=
  Torch.tabulate [h; w]
    (fun idx =>
       match idx with
       | [i; j] =>
           let i' := Z.of_nat i in
           let j' := Z.of_nat j in
           if ((y1 <=? i') && (i' <? y2) && (x1 <=? j') && (j' <? x2))%Z
           then 0%Q else Torch.get 0%Q mask [i; j]
       | _ => 0%Q
       end).

Fixpoint cut_holes (n : nat) (len : Z) (h w : nat) (mask : Torch.tensor Q) (g : generator)
  : Torch.tensor Q * generator :=
  match n with
  | O => (mask, g)
  | S n' =>
      let '(y, g) := randint 0 (Z.of_nat h) g in
      let '(x, g) := randint 0 (Z.of_nat w) g in
      let y1 := clamp (y - len / 2) 0 (Z.of_nat h) in
      let y2 := clamp (y + len / 2) 0 (Z.of_nat h) in
      let x1 := clamp (x - len / 2) 0 (Z.of_nat w) in
      let x2 := clamp (x + len / 2) 0 (Z.of_nat w) in
      cut_holes n' len h w (zero_patch h w y1 y2 x1 x2 mask) g
  end.

(** [Cutout.__call__]: the generator state is saved before the draws and
    restored after them. *)
Definition Cutout_call (self : Cutout) (img : Torch.tensor Q) (g : generator)
  : result (Torch.tensor Q * generator) :=
  let* h := py_getitem (Torch.shape img) 1 in
  let* w := py_getitem (Torch.shape img) 2 in
  let state := g in
  let mask := Torch.tabulate [h; w] (fun _ => 1%Q) in
  let '(mask, _) := cut_holes (n_holes self) (length self) h w mask g in
  let* mask := Torch.expand_as mask img in
  let* img := Torch.mul img mask in
  Ok (img, state).

(** *** The three transform pipelines *)

Definition strong_transform (image : pil_image) (g : generator)
  : result (Torch.tensor Q * generator) :=
  let '(image, g) := RandomCrop image g in
  let '(image, g) := RandomHorizontalFlip image g in
  let '(image, g) := AutoAugment image g in
  Cutout_call (BuildCutout 1 16) (Normalize (ToTensor image)) g.

Definition weak_transform (image : pil_image) (g : generator)
  : result (Torch.tensor Q * generator) :=
  let '(image, g) := RandomCrop image g in
  let '(image, g) := RandomHorizontalFlip image g in
  Ok (Normalize (ToTensor image), g).

Definition test_transform (image : pil_image) : Torch.tensor Q :=
  Normalize (ToTensor image).

(** *** MultiAugmentDataset *)

Record MultiAugmentDataset : Type := BuildDataset {
  dataset : list (pil_image * label);
  augmentations_per_image : nat;
  train : bool;
  indices : option (list nat)   (* set by the constructor only when training *)
}.

Definition __init__ (dataset : list (pil_image * label)) (augmentations_per_image : nat)
           (train : bool) (seed : Z) : MultiAugmentDataset :=
  BuildDataset dataset augmentations_per_image train
    (if train
     then Some (rng_shuffle seed
                  (flat_map (fun idx => repeat idx augmentations_per_image)
                            (seq 0 (List.length dataset))))
     else None).

Definition __len__ (self : MultiAugmentDataset) : nat :=
  if train self then List.length (dataset self) * augmentations_per_image self
  else List.length (dataset self).

(** The branch taken by [__getitem__] in training mode:
    [index % self.augmentations_per_image == 0]. *)
Definition policy_of (self : MultiAugmentDataset) (index : Z) : result policy :=
  if (augmentations_per_image self =? 0)%nat then Raise ZeroDivisionError
  else if (index mod Z.of_nat (augmentations_per_image self) =? 0)%Z then Ok Weak
  else Ok Strong.

Definition __getitem__ (self : MultiAugmentDataset) (index : Z) (g : generator)
  : result ((Torch.tensor Q * label) * generator) :=
  if train self then
    let* idxs := match indices self with Some l => Ok l | None => Raise AttributeError end in
    let* real_idx := py_getitem_z idxs index in
    let* sample := py_getitem (dataset self) real_idx in
    let '(image, lbl) := sample in
    let g := manual_seed index in
    let* pol := policy_of self index in
    let* tg := match pol with
               | Weak => weak_transform image g
               | Strong => strong_transform image g
               end in
    Ok ((fst tg, lbl), snd tg)
  else
    let* sample := py_getitem_z (dataset self) index in
    let '(image, lbl) := sample in
    Ok ((test_transform image, lbl), g).

End Pipeline.

Arguments BuildDataset {pil_image label} dataset augmentations_per_image train indices.
Arguments dataset {pil_image label} m.
Arguments augmentations_per_image {pil_image label} m.
Arguments train {pil_image label} m.
Arguments indices {pil_image label} m.
Arguments __init__ {pil_image label} rng_shuffle dataset augmentations_per_image train seed.
Arguments __len__ {pil_image label} self.
Arguments policy_of {pil_image label} self index.
Arguments __getitem__ {generator} manual_seed randint {pil_image label}
          RandomCrop RandomHorizontalFlip AutoAugment ToTensor Normalize self index g.

End Data.

(** The shuffle of the dataset constructor, as the legacy generator of the
    numerical library computes it. *)
Definition numpy_shuffle (seed : Z) (l : list nat) : list nat :=
  match NumpyRandom.shuffle (NumpyRandom.seed seed) l with
  | Some l' => l'
  | None => l
  end.

(** ** engine/trainer.py *)

(** Python values held in attributes, CSV cells and dictionaries.  The
    collaborators of the trainer (model, optimizer, data loaders, ...) are
    opaque objects. *)
Inductive value : Type :=
| VNone
| VBool (b : bool)
| VInt (z : Z)
| VFloat (q : Q)
| VStr (s : string)
| VObject (name : string).

(** [os.path.join(a, b)] for a relative [b]. *)
Definition path_join (a b : string) : string :=
  if decide (a = EmptyString) then b
  else if String.eqb (String.substring (String.length a - 1) 1 a) "/" then (a +:+ b)
  else (a +:+ "/" +:+ b).

(** The four terms returned by the loss function. *)
Record losses : Type := Losses { box_loss : Q; dfl_loss : Q; cls_loss : Q; quat_loss : Q }.

(** What [torch.save] writes for a checkpoint: the entries that the
    trainer computes itself, the state dictionaries being opaque. *)
Record checkpoint : Type := Checkpoint { ck_epoch : Z; ck_best_map : Q }.

(** The files the trainer writes, and the calls of [torch.save] in the
    order they were made. *)
Record world : Type := World {
  csv_files : gmap string (list (list value));
  saved : list (string * checkpoint)
}.

(** What one training run does to its collaborators, in order. *)
Inductive event : Type :=
| EmptyCache
| ZeroGrad
| Backward (loss : Q)     (* self.scaler.scale(loss).backward() *)
| Unscale
| ClipGradNorm (max_norm : Q)
| ScalerStep
| ScalerUpdate
| SchedulerStep
| PrintError (batch_idx : nat).

Module Trainer.

(** A trainer is the dictionary of its instance attributes. *)
Record t : Type := Build { attrs : gmap string value }.

Definition getattr (self : t) (name : string) : result value :=
  match attrs self !! name with
  | Some v => Ok v
  | None => Raise AttributeError
  end.

Definition setattr (self : t) (name : string) (v : value) : t :=
  Build (<[name := v]> (attrs self)).

Definition as_float (v : value) : result Q :=
  match v with
  | VFloat q => Ok q
  | VInt z => Ok (inject_Z z)
  | _ => Raise TypeError
  end.

Definition as_str (v : value) : result string :=
  match v with
  | VStr s => Ok s
  | _ => Raise TypeError
  end.

(** [__init__]: [scheduler] is [VNone] or an object. *)
Definition __init__ (model train_dataloader val_dataloader optimizer scheduler scaler
                       loss_fn metrics device : value)
           (save_dir : string) (grad_clip_val : Q) (visualize : bool) (vis_batch_freq : Z) : t :=
  let log_dir := path_join save_dir "logs" in
  Build (<["best_epoch" := VInt 0]>
        (<["best_map" := VFloat 0]>
        (<["train_log" := VStr (path_join log_dir "train_log.txt")]>
        (<["log_dir" := VStr log_dir]>
        (<["vis_batch_freq" := VInt vis_batch_freq]>
        (<["visualize" := VBool visualize]>
        (<["grad_clip_val" := VFloat grad_clip_val]>
        (<["save_dir" := VStr save_dir]>
        (<["device" := device]>
        (<["metrics" := metrics]>
        (<["loss_fn" := loss_fn]>
        (<["scaler" := scaler]>
        (<["scheduler" := scheduler]>
        (<["optimizer" := optimizer]>
        (<["val_dataloader" := val_dataloader]>
        (<["train_dataloader" := train_dataloader]>
        (<["model" := model]> ∅))))))))))))))))).

(** *** train_one_epoch *)

(** [total_loss = box_loss + 0.5 * dfl_loss + cls_loss + 0.1 * quat_loss] *)
Definition total_loss (l : losses) : Q :=
  (box_loss l + (1 # 2) * dfl_loss l + cls_loss l + (1 # 10) * quat_loss l)%Q.

Definition zero_metrics : gmap string Q :=
  <["quat_loss" := 0%Q]> (<["cls_loss" := 0%Q]> (<["dfl_loss" := 0%Q]>
    (<["box_loss" := 0%Q]> (<["total_loss" := 0%Q]> ∅)))).

(** [epoch_metrics[k] += v] *)
Definition add_metric (k : string) (v : Q) (m : gmap string Q) : result (gmap string Q) :=
  match m !! k with
  | Some a => Ok (<[k := (a + v)%Q]> m)
  | None => Raise KeyError
  end.

Definition update_metrics (l : losses) (m : gmap string Q) : result (gmap string Q) :=
  let* m := add_metric "total_loss" (total_loss l) m in
  let* m := add_metric "box_loss" (box_loss l) m in
  let* m := add_metric "dfl_loss" (dfl_loss l) m in
  let* m := add_metric "cls_loss" (cls_loss l) m in
  add_metric "quat_loss" (quat_loss l) m.

(** The body of the [try] block for one batch when no call other than
    the forward pass raises.  [outcome] is what moving the batch to the
    device, the forward pass and [self.loss_fn] give: the four losses, or
    the exception one of them raised.  [train_batch_run] below has the
    failures of the other calls of the block. *)
Definition train_batch (self : t) (outcome : result losses) (m : gmap string Q)
  : result (gmap string Q) * list event :=
  match outcome with
  | Raise e => (Raise e, [EmptyCache; ZeroGrad])
  | Ok l =>
      let total := total_loss l in
      let ev1 := [EmptyCache; ZeroGrad; Backward total] in
      match (let* v := getattr self "grad_clip_val" in as_float v) with
      | Raise e => (Raise e, ev1)
      | Ok clip =>
          let ev2 := if Qlt_bool 0 clip then [Unscale; ClipGradNorm clip] else [] in
          let ev3 := [ScalerStep; ScalerUpdate] in
          match getattr self "scheduler" with
          | Raise e => (Raise e, ev1 ++ ev2 ++ ev3)
          | Ok sch =>
              let ev4 := match sch with VNone => [] | _ => [SchedulerStep] end in
              (update_metrics l m, ev1 ++ ev2 ++ ev3 ++ ev4)
          end
      end
  end.

(** The loop over the batches: an exception is printed with the batch
    index and raised again, which ends the epoch. *)
Fixpoint train_batches (self : t) (batch_idx : nat) (outcomes : list (result losses))
         (m : gmap string Q) : result (gmap string Q) * list event :=
  match outcomes with
  | [] => (Ok m, [])
  | o :: rest =>
      match train_batch self o m with
      | (Raise e, ev) => (Raise e, ev ++ [PrintError batch_idx])
      | (Ok m', ev) =>
          let '(r, ev') := train_batches self (S batch_idx) rest m' in
          (r, ev ++ ev')
      end
  end.

Definition train_one_epoch (self : t) (outcomes : list (result losses))
  : result (gmap string Q) * list event :=
  match train_batches self 0 outcomes zero_metrics with
  | (Raise e, ev) => (Raise e, ev)
  | (Ok m, ev) =>
      let num_batches := List.length outcomes in
      if (num_batches =? 0)%nat then (Raise ZeroDivisionError, ev)
      else (Ok ((fun v => (v / inject_Z (Z.of_nat num_batches))%Q) <$> m), ev)
  end.

(** *** The CSV log *)

Definition csv_header : list value :=
  [VStr "epoch"; VStr "batch"; VStr "total_loss"; VStr "box_loss"; VStr "dfl_loss";
   VStr "quat_loss"].

(** [open(self.csv_file, 'w')] truncates the file and the header is its
    only row. *)
Definition _initialize_csv (self : t) (w : world) : result world :=
  let* f := getattr self "csv_file" in
  let* f := as_str f in
  Ok (World (<[f := [csv_header]]> (csv_files w)) (saved w)).

(** [open(self.csv_file, 'a')] creates the file when it is missing and
    writes after its last row. *)
Definition _log_to_csv (self : t) (epoch batch total_loss box_loss dfl_loss quat_loss : value)
           (w : world) : result world :=
  let* f := getattr self "csv_file" in
  let* f := as_str f in
  let old := default [] (csv_files w !! f) in
  Ok (World (<[f := old ++ [[epoch; batch; total_loss; box_loss; dfl_loss; quat_loss]]]>
               (csv_files w))
            (saved w)).

(** *** Checkpoints *)

Definition torch_save (ck : checkpoint) (path : string) (w : world) : world :=
  World (csv_files w) (saved w ++ [(path, ck)]).

Definition checkpoint_path (save_dir : string) (epoch : Z) : string :=
  path_join save_dir ("checkpoint_epoch_" +:+ pretty epoch +:+ ".pth").

Definition best_path (save_dir : string) : string := path_join save_dir "best_model.pth".

Definition save_checkpoint (self : t) (epoch : Z) (is_best : bool) (w : world) : result world :=
  let* _ := getattr self "model" in
  let* _ := getattr self "optimizer" in
  let* _ := getattr self "scheduler" in
  let* _ := getattr self "scaler" in
  let* b := getattr self "best_map" in
  let* b := as_float b in
  let ck := Checkpoint epoch b in
  let* d := getattr self "save_dir" in
  let* d := as_str d in
  let w := torch_save ck (checkpoint_path d epoch) w in
  Ok (if is_best then torch_save ck (best_path d) w else w).

(** [validate_and_save]: the class defines no method [validate], so
    [self.validate] is found only when it was assigned on the instance;
    [val_metrics] is what the call then returns. *)
Definition validate_and_save (self : t) (val_metrics : gmap string Q) (epoch : Z) (w : world)
  : result (t * world) :=
  let* _ := getattr self "validate" in
  let* v := match val_metrics !! "map50" with Some v => Ok v | None => Raise KeyError end in
  let* b := getattr self "best_map" in
  let* b := as_float b in
  let* sw :=
    if Qlt_bool b v then
      let self := setattr self "best_map" (VFloat v) in
      let self := setattr self "best_epoch" (VInt epoch) in
      let* w := save_checkpoint self epoch true w in
      Ok (self, w)
    else Ok (self, w) in
  let '(self, w) := sw in
  if (epoch mod 10 =? 0)%Z then
    let* w := save_checkpoint self epoch false w in
    Ok (self, w)
  else Ok (self, w).

(** Validation after each of the epochs [epoch, epoch + 1, ...], one
    [map50] value per epoch, as long as no call raises. *)
Fixpoint validate_epochs (self : t) (epoch : Z) (map50s : list Q) (w : world)
  : result (t * world) :=
  match map50s with
  | [] => Ok (self, w)
  | v :: rest =>
      let* sw := validate_and_save self (<["map50" := v]> ∅) epoch w in
      validate_epochs (fst sw) (epoch + 1) rest (snd sw)
  end.

(** *** train_one_epoch, with a failure at any call of the [try] block *)

(** The calls that the [try] block makes for one batch, in order:
    [CForward] stands for moving the batch to the device, the forward pass
    and the loss function, [CItem] for the [.item()] calls that update the
    running sums, [CSetPostfix] for the update of the progress bar. *)
Inductive call : Type :=
| CEmptyCache | CZeroGrad | CForward | CBackward | CUnscale | CClipGradNorm
| CScalerStep | CScalerUpdate | CSchedulerStep | CItem | CSetPostfix.

Definition call_eqb (a b : call) : bool :=
  match a, b with
  | CEmptyCache, CEmptyCache | CZeroGrad, CZeroGrad | CForward, CForward
  | CBackward, CBackward | CUnscale, CUnscale | CClipGradNorm, CClipGradNorm
  | CScalerStep, CScalerStep | CScalerUpdate, CScalerUpdate
  | CSchedulerStep, CSchedulerStep | CItem, CItem | CSetPostfix, CSetPostfix => true
  | _, _ => false
  end.

(** What the collaborators do on one batch: the losses that the loss
    function returns, and the call that raises, if one does, with its
    exception. *)
Record batch_run : Type := BatchRun { run_losses : losses; run_raises : option (call * exn) }.

Definition raises_at (r : batch_run) (c : call) : option exn :=
  match run_raises r with
  | Some (c', e) => if call_eqb c c' then Some e else None
  | None => None
  end.

(** Make the call [c], which leaves the events [ev] in the trace also
    when it raises, and go on with [k] when it returns. *)
Definition call_then (r : batch_run) (c : call) (ev : list event)
           (k : result (gmap string Q) * list event) : result (gmap string Q) * list event :=
  match raises_at r c with
  | Some e => (Raise e, ev)
  | None => (fst k, ev ++ snd k)
  end.

(** The body of the [try] block for batch [batch_idx]. *)
Definition train_batch_run (self : t) (batch_idx : nat) (r : batch_run) (m : gmap string Q)
  : result (gmap string Q) * list event :=
  let total := total_loss (run_losses r) in
  call_then r CEmptyCache [EmptyCache] (
  call_then r CZeroGrad [ZeroGrad] (
  call_then r CForward [] (
  call_then r CBackward [Backward total] (
  match (let* v := getattr self "grad_clip_val" in as_float v) with
  | Raise e => (Raise e, [])
  | Ok clip =>
      (if Qlt_bool 0 clip
       then fun k => call_then r CUnscale [Unscale]
                       (call_then r CClipGradNorm [ClipGradNorm clip] k)
       else fun k => k) (
      call_then r CScalerStep [ScalerStep] (
      call_then r CScalerUpdate [ScalerUpdate] (
      match getattr self "scheduler" with
      | Raise e => (Raise e, [])
      | Ok sch =>
          (match sch with
           | VNone => fun k => k
           | _ => fun k => call_then r CSchedulerStep [SchedulerStep] k
           end) (
          call_then r CItem [] (
          match update_metrics (run_losses r) m with
          | Raise e => (Raise e, [])
          | Ok m' =>
              if batch_idx mod 10 =? 0 then call_then r CSetPostfix [] (Ok m', [])
              else (Ok m', [])
          end))
      end)))
  end)))).

Fixpoint train_batches_run (self : t) (batch_idx : nat) (runs : list batch_run)
         (m : gmap string Q) : result (gmap string Q) * list event :=
  match runs with
  | [] => (Ok m, [])
  | r :: rest =>
      match train_batch_run self batch_idx r m with
      | (Raise e, ev) => (Raise e, ev ++ [PrintError batch_idx])
      | (Ok m', ev) =>
          let '(res, ev') := train_batches_run self (S batch_idx) rest m' in
          (res, ev ++ ev')
      end
  end.

Definition train_one_epoch_run (self : t) (runs : list batch_run)
  : result (gmap string Q) * list event :=
  match train_batches_run self 0 runs zero_metrics with
  | (Raise e, ev) => (Raise e, ev)
  | (Ok m, ev) =>
      let num_batches := List.length runs in
      if (num_batches =? 0)%nat then (Raise ZeroDivisionError, ev)
      else (Ok ((fun v => (v / inject_Z (Z.of_nat num_batches))%Q) <$> m), ev)
  end.

(** The run in which only the forward pass or the loss function may
    raise, as [train_batch] has it. *)
Definition run_of (l0 : losses) (outcome : result losses) : batch_run :=
  match outcome with
  | Ok l => BatchRun l None
  | Raise e => BatchRun l0 (Some (CForward, e))
  end.

End Trainer.

(** ** Vocabulary of the properties *)

(** A fresh [QResNet34] after [n] calls of [update_dropout_rates]. *)
Fixpoint after_updates (num_classes n : nat) : result QResNet34.t :=
  match n with
  | O => QResNet34.__init__ num_classes
  | S n' => let* m := after_updates num_classes n' in QResNet34.update_dropout_rates m
  end.

(** Every block of a stage carries the rate [r] in both dropout modules. *)
Definition stage_has_rate (r : Q) (stage : list QuaternionBasicBlock.t) : Prop :=
  Forall (fun l => QuaternionBasicBlock.get_p (QuaternionBasicBlock.dropout1 l) = Some r
                   /\ QuaternionBasicBlock.get_p (QuaternionBasicBlock.dropout2 l) = Some r)
         stage.

(** The schedule invariant: five rates, none above one half, the
    configured increment, and the 3 + 4 + 6 + 3 residual blocks. *)
Definition schedule_inv (m : QResNet34.t) : Prop :=
  length (QResNet34.current_rates m) = 5
  /\ QResNet34.dropout_increment m = 5 # 100
  /\ Forall (fun r => (r <= 1 # 2)%Q) (QResNet34.current_rates m)
  /\ length (QResNet34.conv2_x m) = 3 /\ length (QResNet34.conv3_x m) = 4
  /\ length (QResNet34.conv4_x m) = 6 /\ length (QResNet34.conv5_x m) = 3.

(** The attributes that [validate_and_save] and [save_checkpoint] read:
    the best metric so far is [b], the save directory is [d], and a
    [validate] has been assigned on the instance. *)
Definition ready (self : Trainer.t) (b : Q) (d : string) : Prop :=
  Trainer.attrs self !! "best_map" = Some (VFloat b)
  /\ Trainer.attrs self !! "save_dir" = Some (VStr d)
  /\ is_Some (Trainer.attrs self !! "model")
  /\ is_Some (Trainer.attrs self !! "optimizer")
  /\ is_Some (Trainer.attrs self !! "scheduler")
  /\ is_Some (Trainer.attrs self !! "scaler")
  /\ is_Some (Trainer.attrs self !! "validate").

(** The calls of [torch.save] that one [validate_and_save] at epoch [e]
    adds when the best metric so far is [b] and validation gives [v]. *)
Definition expected_saves (d : string) (b v : Q) (e : Z) : list (string * checkpoint) :=
  (if Qlt_bool b v
   then [(Trainer.checkpoint_path d e, Checkpoint e v); (Trainer.best_path d, Checkpoint e v)]
   else [])
  ++ (if (e mod 10 =? 0)%Z
      then [(Trainer.checkpoint_path d e, Checkpoint e (if Qlt_bool b v then v else b))]
      else []).

(** The best value seen so far: the initial 0.0 or one of the values
    seen, and at least as large as all of them. *)
Definition best_so_far (b : Q) (seen : list Q) : Prop :=
  (b = 0%Q \/ In b seen) /\ (0 <= b)%Q /\ Forall (fun v => (v <= b)%Q) seen.

(** The epochs of the checkpoints saved as the best model. *)
Definition best_epochs (d : string) (w : world) : list Z :=
  map (fun pc => ck_epoch (snd pc))
      (List.filter (fun pc => String.eqb (fst pc) (Trainer.best_path d)) (saved w)).

(** The epochs of all calls of [torch.save] on a per-epoch checkpoint file. *)
Definition checkpoint_epochs (d : string) (w : world) : list Z :=
  map (fun pc => ck_epoch (snd pc))
      (List.filter (fun pc => negb (String.eqb (fst pc) (Trainer.best_path d))) (saved w)).

(** The losses handed to [backward], in order. *)
Definition backward_losses (ev : list event) : list Q :=
  flat_map (fun e => match e with Backward q => [q] | _ => [] end) ev.

(** The batches before the first one that raised. *)
Fixpoint ok_prefix (outcomes : list (result losses)) : list losses :=
  match outcomes with
  | Ok l :: rest => l :: ok_prefix rest
  | _ => []
  end.

(** The calls of [torch.save] of a run of validations that starts at
    epoch [e] with best metric [b]. *)
Fixpoint expected_run (d : string) (b : Q) (e : Z) (map50s : list Q) : list (string * checkpoint) :=
  match map50s with
  | [] => []
  | v :: rest =>
      expected_saves d b v e ++ expected_run d (if Qlt_bool b v then v else b) (e + 1) rest
  end.

(** The five running sums of [train_one_epoch] are present. *)
Definition has_metric_keys (m : gmap string Q) : Prop :=
  is_Some (m !! "total_loss") /\ is_Some (m !! "box_loss") /\ is_Some (m !! "dfl_loss")
  /\ is_Some (m !! "cls_loss") /\ is_Some (m !! "quat_loss").

(** ** Sample inputs *)

Definition dropout_half : QuaternionDropout.t := QuaternionDropout.Build (1 # 2) true.

Definition alternating_draws (n : nat) : Q := if Nat.even n then 3 # 4 else 1 # 4.

Definition sample_1x1x4x1x2 : Torch.tensor Q :=
  Torch.Tensor [1; 1; 4; 1; 2] [1; 2; 3; 4; 5; 6; 7; 8]%Q.

Definition sample_1x1x4x2x2 : Torch.tensor Q :=
  Torch.Tensor [1; 1; 4; 2; 2] [1; 2; 3; 4; 8; 7; 6; 5; 0; 9; 0; 9; 2; 2; 2; 2]%Q.


(** A classifier head that returns [num_classes * 4] zeros for each of
    the [B] images, whatever its input. *)
Definition zero_head (B num_classes : nat) (_ : Torch.tensor Q) : result (Torch.tensor Q) :=
  Ok (Torch.Tensor [B; num_classes * 4] (repeat 0%Q (B * (num_classes * 4)))).

(** The value a call returns to its caller, without the generator state
    it leaves behind. *)
Definition returned {A G : Type} (r : result (A * G)) : result A :=
  match r with
  | Ok (a, _) => Ok a
  | Raise e => Raise e
  end.

(** The policies given to the occurrences of base sample [b], in the
    order of their augmented indices. *)
Definition policies_of_base {pil_image label : Type}
           (self : Data.MultiAugmentDataset pil_image label) (b : nat) : list (result policy) :=
  flat_map
    (fun i => match Data.indices self with
              | Some idxs =>
                  if decide (nth_error idxs i = Some b) then [Data.policy_of self (Z.of_nat i)]
                  else []
              | None => []
              end)
    (seq 0 (Data.__len__ self)).

(** A base dataset of two samples: images 0 and 1 with labels 0 and 1. *)
Definition two_samples : list (nat * nat) := [(0, 0); (1, 1)].

(** A one-channel image of two rows and two columns, and a generator
    that counts its draws and always returns the lower bound. *)
Definition sample_image : Torch.tensor Q := Torch.Tensor [1; 2; 2] [1; 2; 3; 4]%Q.

Definition lowest_draw (low high : Z) (g : nat) : Z * nat := (low, S g).

(** A tensor conversion that gives [sample_image] for every image. *)
Definition constant_image (_ : nat) : Torch.tensor Q := sample_image.

(** The sizes [(C, H, W)] that the 2D pooling of a layer accepts. *)
Definition avg_pool_accepts (self : QuaternionAvgPool.t) (C H W : nat) : bool :=
  match QuaternionAvgPool.kernel_size self with
  | None => Torch.nonempty_planes C H W
  | Some k =>
      Torch.window_fits k (match QuaternionAvgPool.stride self with Some s => s | None => k end)
                        0 C H W
  end.

Definition max_pool_accepts (self : QuaternionMaxPool.t) (C H W : nat) : bool :=
  Torch.window_fits (QuaternionMaxPool.kernel_size self) (QuaternionMaxPool.stride self)
                    (QuaternionMaxPool.padding self) C H W.

(** Component [k] of the result of a layer: [y[:, :, k]] when the layer
    returned [y], and the exception it raised otherwise. *)
Definition slice_result (k : nat) (r : result (Torch.tensor Q)) : result (Torch.tensor Q) :=
  match r with
  | Ok y => Ok (Torch.select 0%Q y 2 k)
  | Raise e => Raise e
  end.

(** The uniform draw that [torch.rand(B, C, H, W)] puts at position
    [(b, c, h, w)]: the draws fill the tensor in row-major order. *)
Definition draw_at (rnd : nat -> Q) (B C H W b c h w : nat) : Q :=
  rnd (Torch.ravel [B; C; H; W] [b; c; h; w]).


(** A mask of zeros and ones. *)
Definition binary_mask (h w : nat) (mask : Torch.tensor Q) : Prop :=
  Torch.shape mask = [h; w] /\ Torch.wf mask
  /\ forall i j, i < h -> j < w ->
       Torch.get 0%Q mask [i; j] = 0%Q \/ Torch.get 0%Q mask [i; j] = 1%Q.

(** ** Metrics, regularisation, seeding and the interrupt handler *)

(** Python's [sub in s] on strings. *)
Fixpoint contains (sub s : string) : bool :=
  String.prefix sub s
  || match s with
     | EmptyString => false
     | String _ s' => contains sub s'
     end.

(** [dict.get]-like lookup in the items of a dictionary, in order. *)
Fixpoint assoc {V : Type} (k : string) (items : list (string * V)) : option V :=
  match items with
  | [] => None
  | (k', v) :: rest => if String.eqb k' k then Some v else assoc k rest
  end.

Module MetricsLogger.

(** [self.metrics]: a list of values per metric name. *)
Record t : Type := Build { save_dir : string; metrics : gmap string (list Q) }.

Definition __init__ (save_dir : string) : t :=
  Build save_dir
    (<["test_reg_loss" := []]> (<["train_reg_loss" := []]> (<["test_loss" := []]>
      (<["train_loss" := []]> (<["test_acc" := []]> (<["train_acc" := []]> ∅)))))).

(** [update]: [epoch_metrics] is given by its items in iteration order. *)
Definition update (self : t) (epoch_metrics : list (string * Q)) : t :=
  fold_left
    (fun self kv =>
       match metrics self !! fst kv with
       | Some l => Build (save_dir self) (<[fst kv := l ++ [snd kv]]> (metrics self))
       | None => self
       end)
    epoch_metrics self.

(** [plot]: the four series are drawn against
    [range(1, len(self.metrics['train_acc']) + 1)]; the plotting library
    raises a value error when a series has another length.  The result is
    the number of epochs on the axis. *)
Definition plot (self : t) : result nat :=
  let series k := match metrics self !! k with Some l => Ok l | None => Raise KeyError end in
  let* train_acc := series "train_acc" in
  let epochs := length train_acc in
  let* test_acc := series "test_acc" in
  if negb (length test_acc =? epochs) then Raise ValueError else
  let* train_loss := series "train_loss" in
  if negb (length train_loss =? epochs) then Raise ValueError else
  let* test_loss := series "test_loss" in
  if negb (length test_loss =? epochs) then Raise ValueError else
  Ok epochs.

End MetricsLogger.

(** The dictionary that [main] hands to [metrics_logger.update]. *)
Definition main_epoch_metrics (r : Q * Q * Q * Q) : list (string * Q) :=
  let '(train_acc, test_acc, train_loss, test_loss) := r in
  [("train_acc", train_acc); ("test_acc", test_acc);
   ("train_loss", train_loss); ("test_loss", test_loss)].

(** The logger of [main] after the epochs whose results are [history]. *)
Definition logger_after (save_dir : string) (history : list (Q * Q * Q * Q)) : MetricsLogger.t :=
  fold_left (fun lg r => MetricsLogger.update lg (main_epoch_metrics r)) history
            (MetricsLogger.__init__ save_dir).

Module L1Regularization.

Record t : Type := Build { l1_lambda : Q }.

(** [torch.sum(torch.abs(param))] *)
Definition abs_sum (param : Torch.tensor Q) : Q := Torch.Qsum (map Qabs (Torch.storage param)).

(** [__call__]: [named_parameters] is [model.named_parameters()]. *)
Definition __call__ (self : t) (named_parameters : list (string * Torch.tensor Q)) : Q :=
  let l1_reg :=
    fold_left
      (fun l1_reg np => if negb (contains "bias" (fst np)) then (l1_reg + abs_sum (snd np))%Q
                        else l1_reg)
      named_parameters 0%Q in
  (l1_lambda self * l1_reg)%Q.

End L1Regularization.

(** [seed_worker]: the three generators a worker seeds, from
    [torch.initial_seed()]. *)
Record seeded : Type := Seeded { np_state : NumpyRandom.RandomState; random_seed : Z; torch_seed : Z }.

Definition seed_worker (initial_seed : Z) : result seeded :=
  let worker_seed := (initial_seed mod 2 ^ 32)%Z in
  let* np := NumpyRandom.checked_seed worker_seed in
  Ok (Seeded np worker_seed worker_seed).

(** [torch.manual_seed(seed)] accepts the seeds from [-2^63] to
    [2^64 - 1] and raises a runtime error on any other. *)
Definition torch_seed_in_range (seed : Z) : bool :=
  ((- 2 ^ 63 <=? seed) && (seed <? 2 ^ 64))%Z.

(** [set_random_seeds], for its generators: the tensor library is seeded
    first, the numerical library after it. *)
Definition set_random_seeds (seed : Z) : result seeded :=
  if negb (torch_seed_in_range seed) then Raise RuntimeError else
  let* np := NumpyRandom.checked_seed seed in
  Ok (Seeded np seed seed).

Module Interrupt.

Inductive action : Type := ClosePbar | CloseTrainPbar | CloseTestPbar | CloseWriter | SaveCheckpoint.

Inductive event : Type :=
| Attempt (a : action)
| PrintError (block : nat)
| PrintSaved
| SysExit (code : Z).

(** One guarded call inside a [try] block: the events it leaves, and
    whether it returned ([true]) or raised ([false]). *)
Definition guarded (present : bool) (a : action) (raises : action -> bool)
  : list event * bool :=
  if present then ([Attempt a], negb (raises a)) else ([], true).

(** [handle_keyboard_interrupt]: [globals] holds the module-level names
    that are bound, [raises] tells which of the calls raise. *)
Definition handle_keyboard_interrupt (globals : gset string) (raises : action -> bool)
  : list event :=
  let has name := bool_decide (name ∈ globals) in
  let block1 :=
    let '(e1, ok1) := guarded (has "pbar") ClosePbar raises in
    if negb ok1 then e1 ++ [PrintError 1] else
    let '(e2, ok2) := guarded (has "train_pbar") CloseTrainPbar raises in
    if negb ok2 then e1 ++ e2 ++ [PrintError 1] else
    let '(e3, ok3) := guarded (has "test_pbar") CloseTestPbar raises in
    if negb ok3 then e1 ++ e2 ++ e3 ++ [PrintError 1] else e1 ++ e2 ++ e3 in
  let block2 :=
    let '(e, ok) := guarded (has "writer") CloseWriter raises in
    if negb ok then e ++ [PrintError 2] else e in
  let block3 :=
    let '(e, ok) := guarded (has "model" && has "optimizer") SaveCheckpoint raises in
    if negb ok then e ++ [PrintError 3]
    else if has "model" && has "optimizer" then e ++ [PrintSaved] else e in
  block1 ++ block2 ++ block3 ++ [SysExit 0].

End Interrupt.

(** ** The plain ResNet34 *)

Module BasicBlock.

Inductive shortcut_module : Type :=
| IdentityShortcut
| Projection (in_channels out_channels stride : nat).

(** Of a block: the channels and stride of [conv1] and the shortcut. *)
Record t : Type := Build {
  in_channels : nat;
  out_channels : nat;
  stride : nat;
  shortcut : shortcut_module
}.

Definition __init__ (in_channels out_channels stride : nat) : t :=
  Build in_channels out_channels stride
    (if negb (stride =? 1) || negb (in_channels =? out_channels)
     then Projection in_channels out_channels stride
     else IdentityShortcut).

End BasicBlock.

Module ResNet34.

Definition _make_layer (in_channels out_channels blocks stride : nat) : list BasicBlock.t :=
  BasicBlock.__init__ in_channels out_channels stride
    :: map (fun _ => BasicBlock.__init__ out_channels out_channels 1) (seq 1 (blocks - 1)).

(** The four stages of [__init__], in forward order, and the input size
    of the final linear layer. *)
Record t : Type := Build {
  layer1 : list BasicBlock.t;
  layer2 : list BasicBlock.t;
  layer3 : list BasicBlock.t;
  layer4 : list BasicBlock.t;
  fc_in_features : nat
}.

Definition __init__ : t :=
  Build (_make_layer 64 64 3 1) (_make_layer 64 128 4 2)
        (_make_layer 128 256 6 2) (_make_layer 256 512 3 2) 512.

End ResNet34.

(** A sequence of blocks fits together when each block takes the channels
    the one before it gives; [chain c blocks] is the number of channels
    after the blocks on an input of [c] channels. *)
Fixpoint chain (c : nat) (blocks : list BasicBlock.t) : option nat :=
  match blocks with
  | [] => Some c
  | b :: rest => if BasicBlock.in_channels b =? c then chain (BasicBlock.out_channels b) rest
                 else None
  end.

(** ** The classification loop *)

(** What the model and the criterion give on one batch: the loss, the
    class scores (a 2D tensor, by rows) and the targets (a 1D tensor of
    class indices). *)
Record batch_result : Type := BatchResult { loss : Q; outputs : list (list Q); targets : list Z }.

(** The index of the first maximal value of a row. *)
Fixpoint argmax_from (best : Q) (best_i i : nat) (row : list Q) : nat :=
  match row with
  | [] => best_i
  | a :: rest => if Qlt_bool best a then argmax_from a i (S i) rest
                 else argmax_from best best_i (S i) rest
  end.

(** The tensor library refuses to reduce an axis without entries. *)
Definition argmax (row : list Q) : result nat :=
  match row with
  | [] => Raise IndexError
  | a :: rest => Ok (argmax_from a 0 1 rest)
  end.

(** [_, predicted = outputs.max(1)] *)
Fixpoint max1 (outputs : list (list Q)) : result (list nat) :=
  match outputs with
  | [] => Ok []
  | row :: rest =>
      let* p := argmax row in
      let* ps := max1 rest in
      Ok (p :: ps)
  end.

(** The positions at which a prediction equals the target. *)
Definition hits (predicted : list nat) (targets : list Z) : nat :=
  length (List.filter (fun pt => (Z.of_nat (fst pt) =? snd pt)%Z) (combine predicted targets)).

(** [predicted.eq(targets).sum().item()]: two 1D tensors of the same
    length are compared entry by entry, a tensor of one entry is compared
    with every entry of the other one, and any other pair of lengths is
    refused. *)
Definition count_eq (predicted : list nat) (targets : list Z) : result nat :=
  if length predicted =? length targets then Ok (hits predicted targets)
  else
    match predicted, targets with
    | [p], _ => Ok (hits (repeat p (length targets)) targets)
    | _, [t] => Ok (hits predicted (repeat t (length predicted)))
    | _, _ => Raise RuntimeError
    end.

(** Python's [a / b] on numbers. *)
Definition py_div (a b : Q) : result Q :=
  if Qeq_bool b 0 then Raise ZeroDivisionError else Ok (a / b)%Q.

(** The update of the running sums [(loss sum, correct, total)] that
    [train_epoch] and [evaluate] make for one batch. *)
Definition update_sums (b : batch_result) (acc : Q * nat * nat) : result (Q * nat * nat) :=
  let '(running_loss, correct, total) := acc in
  let running_loss := (running_loss + loss b)%Q in
  let* predicted := max1 (outputs b) in
  let total := total + length (targets b) in
  let* c := count_eq predicted (targets b) in
  Ok (running_loss, correct + c, total).

Fixpoint evaluate_loop (batches : list batch_result) (acc : Q * nat * nat)
  : result (Q * nat * nat) :=
  match batches with
  | [] => Ok acc
  | b :: rest => let* acc := update_sums b acc in evaluate_loop rest acc
  end.

(** [evaluate]: returns [(test_loss / len(test_loader), 100. * correct / total)]. *)
Definition evaluate (batches : list batch_result) : result (Q * Q) :=
  let* acc := evaluate_loop batches (0%Q, 0, 0) in
  let '(test_loss, correct, total) := acc in
  let* avg := py_div test_loss (Torch.Qnat (length batches)) in
  let* accuracy := py_div (100 * Torch.Qnat correct) (Torch.Qnat total) in
  Ok (avg, accuracy).

(** The loop of [train_epoch], for its statistics: after the sums are
    updated the progress bar is given [running_loss / (batch_idx + 1)] and
    [100. * correct / total]. *)
Fixpoint train_epoch_loop (batches : list batch_result) (acc : Q * nat * nat)
  : result (Q * nat * nat) :=
  match batches with
  | [] => Ok acc
  | b :: rest =>
      let* acc := update_sums b acc in
      let* _ := py_div (100 * Torch.Qnat (snd (fst acc))) (Torch.Qnat (snd acc)) in
      train_epoch_loop rest acc
  end.

(** [train_epoch]: returns
    [(running_loss / len(train_loader), 100. * correct / total)]. *)
Definition train_epoch (batches : list batch_result) : result (Q * Q) :=
  let* acc := train_epoch_loop batches (0%Q, 0, 0) in
  let '(running_loss, correct, total) := acc in
  let* avg := py_div running_loss (Torch.Qnat (length batches)) in
  let* accuracy := py_div (100 * Torch.Qnat correct) (Torch.Qnat total) in
  Ok (avg, accuracy).

(** A batch with one non-empty row of scores per target. *)
Definition consistent (b : batch_result) : Prop :=
  length (outputs b) = length (targets b) /\ Forall (fun row => row <> []) (outputs b).

(** The number of targets in all batches. *)
Definition total_targets (batches : list batch_result) : nat :=
  fold_right (fun b n => length (targets b) + n) 0 batches.

(** Two batches of a three-class problem, and a batch without samples. *)
Definition batch_a : batch_result :=
  BatchResult (1 # 2) [[1; 3; 2]; [5; 0; 0]]%Q [1; 2]%Z.

Definition batch_b : batch_result :=
  BatchResult (3 # 2) [[0; 0; 7]]%Q [2]%Z.

Definition batch_empty : batch_result := BatchResult 0 [] [].

(** ** Vocabulary of the further properties of the trainer *)

(** The running sums held by [epoch_metrics]. *)
Definition metric_sums (m : gmap string Q) (t b d c q : Q) : Prop :=
  m !! "total_loss" = Some t /\ m !! "box_loss" = Some b /\ m !! "dfl_loss" = Some d
  /\ m !! "cls_loss" = Some c /\ m !! "quat_loss" = Some q.

(** The number of events of a trace that satisfy a test. *)
Definition count_events (p : event -> bool) (ev : list event) : nat :=
  length (List.filter p ev).

Definition is_backward (e : event) : bool := match e with Backward _ => true | _ => false end.
Definition is_scaler_step (e : event) : bool := match e with ScalerStep => true | _ => false end.
Definition is_scheduler_step (e : event) : bool :=
  match e with SchedulerStep => true | _ => false end.
Definition is_clip (e : event) : bool := match e with ClipGradNorm _ => true | _ => false end.
Definition is_zero_grad (e : event) : bool := match e with ZeroGrad => true | _ => false end.

(** The checkpoint that the best-model file holds: the last one saved
    to it. *)
Definition best_file (d : string) (w : world) : option checkpoint :=
  last (map snd (List.filter (fun pc => String.eqb (fst pc) (Trainer.best_path d)) (saved w))).

(** What the trainer knows about the best epoch after the validations
    that gave [seen], started in the world [w0]: either nothing was better
    than the initial 0.0, or the best-model file holds the checkpoint of
    [best_epoch], the first epoch that reached [best_map]. *)
Definition best_inv (d : string) (w0 w : world) (self : Trainer.t) (seen : list Q) : Prop :=
  exists b e,
    ready self b d
    /\ Trainer.attrs self !! "best_epoch" = Some (VInt e)
    /\ best_so_far b seen
    /\ ((b = 0%Q /\ e = 0%Z /\ best_file d w = best_file d w0)
        \/ ((0 < b)%Q /\ (0 <= e)%Z
            /\ nth_error seen (Z.to_nat e) = Some b
            /\ Forall (fun v => (v < b)%Q) (firstn (Z.to_nat e) seen)
            /\ best_file d w = Some (Checkpoint e b))).

(** ** Vocabulary of the runs of an epoch *)

(** The calls that batch [batch_idx] makes when none of them raises, in
    order, each with the events it leaves: the gradients are clipped only
    when [grad_clip_val > 0], the scheduler is stepped only when there is
    one, and the progress bar is updated at every tenth batch. *)
Definition batch_calls (clip : Q) (sch : value) (batch_idx : nat) (l : losses)
  : list (Trainer.call * list event) :=
  [(Trainer.CEmptyCache, [EmptyCache]); (Trainer.CZeroGrad, [ZeroGrad]); (Trainer.CForward, []);
   (Trainer.CBackward, [Backward (Trainer.total_loss l)])]
    ++ (if Qlt_bool 0 clip
        then [(Trainer.CUnscale, [Unscale]); (Trainer.CClipGradNorm, [ClipGradNorm clip])] else [])
    ++ [(Trainer.CScalerStep, [ScalerStep]); (Trainer.CScalerUpdate, [ScalerUpdate])]
    ++ (match sch with VNone => [] | _ => [(Trainer.CSchedulerStep, [SchedulerStep])] end)
    ++ [(Trainer.CItem, [])]
    ++ (if batch_idx mod 10 =? 0 then [(Trainer.CSetPostfix, [])] else []).

(** The exception that batch [batch_idx] raises: that of the raising call
    of the run, when the batch makes this call. *)
Definition run_exception (clip : Q) (sch : value) (batch_idx : nat) (r : Trainer.batch_run)
  : option exn :=
  match Trainer.run_raises r with
  | Some (c, e) =>
      if existsb (Trainer.call_eqb c) (map fst (batch_calls clip sch batch_idx (Trainer.run_losses r)))
      then Some e else None
  | None => None
  end.

(** None of the batches [runs], numbered from [batch_idx], raises. *)
Fixpoint all_pass (clip : Q) (sch : value) (batch_idx : nat) (runs : list Trainer.batch_run) : bool :=
  match runs with
  | [] => true
  | r :: rest =>
      match run_exception clip sch batch_idx r with
      | None => all_pass clip sch (S batch_idx) rest
      | Some _ => false
      end
  end.

(** The trace of a batch in which no call raises. *)
Definition batch_events (clip : Q) (sch : value) (r : Trainer.batch_run) : list event :=
  [EmptyCache; ZeroGrad; Backward (Trainer.total_loss (Trainer.run_losses r))]
    ++ (if Qlt_bool 0 clip then [Unscale; ClipGradNorm clip] else [])
    ++ [ScalerStep; ScalerUpdate]
    ++ match sch with VNone => [] | _ => [SchedulerStep] end.

(** The calls of a list made one after the other, up to the first one
    that raises. *)
Fixpoint run_calls (r : Trainer.batch_run) (calls : list (Trainer.call * list event)) (m : gmap string Q)
  : result (gmap string Q) * list event :=
  match calls with
  | [] => (Ok m, [])
  | (c, ev) :: rest => Trainer.call_then r c ev (run_calls r rest m)
  end.

(** The losses of a batch. *)
Definition sample_losses : losses := Losses 1 2 3 4.

(** * Properties *)

(** Python's [a < b] as a proposition. *)
Lemma Qlt_bool_iff a b : Qlt_bool a b = true <-> (a < b)%Q.
Proof.
  unfold Qlt_bool. split.
  - intros H. apply Qnot_le_lt. intros Hle. apply Qle_bool_iff in Hle.
    rewrite Hle in H. discriminate H.
  - intros H. destruct (Qle_bool b a) eqn:E; [|reflexivity].
    apply Qle_bool_iff in E. exfalso. exact (Qlt_not_le _ _ H E).
Qed.

(** ** Row-major indexing *)

Section Indexing.
Import Torch.

Lemma nth_map_in {A B} (f : A -> B) (l : list A) n d d' :
  n < length l -> nth n (map f l) d = f (nth n l d').
Proof.
  revert n. induction l as [|a l IH]; simpl; intros n Hn; [lia|].
  destruct n; [reflexivity|]. apply IH. lia.
Qed.

Lemma in_range_length s idx : in_range s idx -> length idx = length s.
Proof. intros H. unfold in_range in H. apply Forall2_length in H. congruence. Qed.

Lemma numel_pos_of_in_range s idx : in_range s idx -> 0 < numel s.
Proof.
  induction 1 as [|d i s idx Hi _ IH]; simpl; [lia|].
  apply Nat.mul_pos_pos; lia.
Qed.

Lemma ravel_lt s idx : in_range s idx -> ravel s idx < numel s.
Proof.
  induction 1 as [|d i s idx Hi _ IH]; simpl; [lia|].
  nia.
Qed.

Lemma unravel_ravel s idx : in_range s idx -> unravel s (ravel s idx) = idx.
Proof.
  induction 1 as [|d i s idx Hi Hr IH]; simpl; [reflexivity|].
  pose proof (ravel_lt _ _ Hr) as Hlt.
  assert (Hn : numel s <> 0) by lia.
  f_equal.
  - rewrite Nat.div_add_l by exact Hn.
    rewrite Nat.div_small by exact Hlt. lia.
  - rewrite Nat.add_comm, Nat.Div0.mod_add.
    rewrite Nat.mod_small by exact Hlt. exact IH.
Qed.

Lemma unravel_in_range s : forall n, n < numel s -> in_range s (unravel s n).
Proof.
  induction s as [|d s IH]; intros n Hn; simpl in *; [constructor|].
  assert (Hs : numel s <> 0) by (intros E; rewrite E in Hn; lia).
  constructor.
  - apply Nat.Div0.div_lt_upper_bound. lia.
  - apply IH, Nat.mod_upper_bound, Hs.
Qed.

Lemma ravel_unravel s : forall n, n < numel s -> ravel s (unravel s n) = n.
Proof.
  induction s as [|d s IH]; intros n Hn; simpl in *; [lia|].
  assert (Hs : numel s <> 0) by (intros E; rewrite E in Hn; lia).
  rewrite IH by (apply Nat.mod_upper_bound, Hs).
  pose proof (Nat.div_mod_eq n (numel s)). lia.
Qed.

Lemma get_tabulate {A} (d : A) s f idx :
  in_range s idx -> get d (tabulate s f) idx = f idx.
Proof.
  intros H. unfold get, tabulate; simpl.
  pose proof (ravel_lt _ _ H) as Hlt.
  rewrite (nth_indep _ d (f (unravel s 0))) by (rewrite length_map, length_seq; exact Hlt).
  rewrite (map_nth (fun n => f (unravel s n))).
  rewrite seq_nth by exact Hlt. simpl.
  now rewrite unravel_ravel.
Qed.

(** Two tabulations agree when their generators agree in range. *)
Lemma tabulate_ext {A} s (f g : list nat -> A) :
  (forall idx, in_range s idx -> f idx = g idx) -> tabulate s f = tabulate s g.
Proof.
  intros H. unfold tabulate. f_equal.
  apply map_ext_in. intros n Hn. apply in_seq in Hn.
  apply H, unravel_in_range. lia.
Qed.

(** Reading a tensor through a second shape with the same offset. *)
Lemma get_restorage {A} (d : A) s s' (t : tensor A) idx idx' :
  shape t = s -> ravel s' idx' = ravel s idx ->
  get d (Tensor s' (storage t)) idx' = get d t idx.
Proof. intros Hs He. unfold get; simpl. now rewrite Hs, He. Qed.

Lemma in_range4_inv a b c d idx :
  in_range [a; b; c; d] idx ->
  exists i j k l, idx = [i; j; k; l] /\ i < a /\ j < b /\ k < c /\ l < d.
Proof.
  intros H.
  inversion H as [|? i ? r1 Hi H1]; subst.
  inversion H1 as [|? j ? r2 Hj H2]; subst.
  inversion H2 as [|? k ? r3 Hk H3]; subst.
  inversion H3 as [|? l ? r4 Hl H4]; subst.
  inversion H4; subst.
  now exists i, j, k, l.
Qed.

Lemma in_range5_inv a b c d e idx :
  in_range [a; b; c; d; e] idx ->
  exists i j k l m, idx = [i; j; k; l; m] /\ i < a /\ j < b /\ k < c /\ l < d /\ m < e.
Proof.
  intros H.
  inversion H as [|? i ? r1 Hi H1]; subst.
  apply in_range4_inv in H1 as (j & k & l & m & -> & ?).
  now exists i, j, k, l, m.
Qed.

Lemma in_range4 a b c d i j k l :
  i < a -> j < b -> k < c -> l < d -> in_range [a; b; c; d] [i; j; k; l].
Proof. intros. repeat constructor; assumption. Qed.

Lemma in_range5 a b c d e i j k l m :
  i < a -> j < b -> k < c -> l < d -> m < e ->
  in_range [a; b; c; d; e] [i; j; k; l; m].
Proof. intros. repeat constructor; assumption. Qed.

End Indexing.


(** ** Pooling acts on every component on its own *)

Section Pooling.
Import Torch.

Lemma reshape_ok {A} (t : tensor A) s :
  numel s = numel (shape t) -> reshape t s = Ok (Tensor s (storage t)).
Proof. intros E. unfold reshape. now rewrite E, Nat.eqb_refl. Qed.

(** The merged tensor [(B * 4, C, H, W)] holds component [k] of batch
    entry [b] at its row [b * 4 + k]. *)
Lemma get_merged (x : tensor Q) B C H W b k c h w :
  shape x = [B; C; 4; H; W] ->
  b < B -> k < 4 -> c < C -> h < H -> w < W ->
  get 0%Q (Tensor [B * 4; C; H; W] (storage (permute 0%Q x [0; 2; 1; 3; 4])))
      [b * 4 + k; c; h; w]
  = get 0%Q x [b; c; k; h; w].
Proof.
  intros Hs Hb Hk Hc Hh Hw.
  rewrite (get_restorage 0%Q [B; 4; C; H; W] _ _ [b; k; c; h; w]).
  - unfold permute. rewrite Hs. cbn [map nth].
    rewrite get_tabulate by (apply in_range5; assumption).
    reflexivity.
  - unfold permute. now rewrite Hs.
  - simpl. ring.
Qed.

Lemma get_select2 (x : tensor Q) B C Qn H W b k c h w :
  shape x = [B; C; Qn; H; W] ->
  b < B -> c < C -> h < H -> w < W ->
  get 0%Q (select 0%Q x 2 k) [b; c; h; w] = get 0%Q x [b; c; k; h; w].
Proof.
  intros Hs Hb Hc Hh Hw. unfold select. rewrite Hs. cbn [firstn skipn app].
  rewrite get_tabulate by (apply in_range4; assumption).
  reflexivity.
Qed.

Lemma shape_permute5 (t : tensor Q) a b c d e :
  shape t = [a; b; c; d; e] ->
  shape (permute 0%Q t [0; 2; 1; 3; 4]) = [a; c; b; d; e].
Proof. intros E. unfold permute. now rewrite E. Qed.

Lemma get_permute5 (t : tensor Q) a b c d e i j k l m :
  shape t = [a; b; c; d; e] ->
  i < a -> j < b -> k < c -> l < d -> m < e ->
  get 0%Q (permute 0%Q t [0; 2; 1; 3; 4]) [i; k; j; l; m] = get 0%Q t [i; j; k; l; m].
Proof.
  intros E Hi Hj Hk Hl Hm. unfold permute. rewrite E. cbn [map nth].
  rewrite get_tabulate by (apply in_range5; assumption).
  reflexivity.
Qed.

Lemma select2_shape5 (t : tensor Q) a b c d e k :
  shape t = [a; b; c; d; e] ->
  select 0%Q t 2 k
  = tabulate [a; b; d; e] (fun idx => get 0%Q t (firstn 2 idx ++ k :: skipn 2 idx)).
Proof. intros E. unfold select. now rewrite E. Qed.

Variable accepts : nat -> nat -> nat -> bool.
Variable out_hw : nat -> nat -> nat * nat.
Variable plane_op : nat -> nat -> list (list Q) -> list (list Q).

(** Whatever the per-plane transform, [pool_components] succeeds on a
    tensor with four components whose sizes the pooling accepts, and
    slicing component [k] out of its result is the transform applied to
    the slice. *)
Lemma pool_components_select (x : tensor Q) B C H W k :
  shape x = [B; C; 4; H; W] -> k < 4 -> accepts C H W = true ->
  exists y,
    pool_components (spatial_pool 0%Q accepts out_hw plane_op) x = Ok y
    /\ shape y = [B; C; 4; fst (out_hw H W); snd (out_hw H W)]
    /\ spatial_pool 0%Q accepts out_hw plane_op (select 0%Q x 2 k) = Ok (select 0%Q y 2 k).
Proof.
  intros Hs Hk Hacc.
  unfold pool_components. rewrite Hs. cbn [Nat.eqb].
  rewrite reshape_ok
    by (rewrite (shape_permute5 x B C 4 H W Hs); simpl; lia).
  cbn [rbind].
  set (xr := Tensor [B * 4; C; H; W] _).
  unfold spatial_pool at 1. change (shape xr) with [B * 4; C; H; W]. cbn iota. rewrite Hacc.
  destruct (out_hw H W) as [Ho Wo] eqn:Ehw. cbn iota. rewrite ?Ehw. cbn [rbind fst snd].
  set (pooled := tabulate [B * 4; C; Ho; Wo] _).
  change (shape pooled) with [B * 4; C; Ho; Wo].
  cbn [last_two rev app]. cbn [rbind].
  unfold view. rewrite reshape_ok by (simpl; lia).
  cbn [rbind].
  set (v := Tensor [B; 4; C; Ho; Wo] _).
  assert (Hy : shape (permute 0%Q v [0; 2; 1; 3; 4]) = [B; C; 4; Ho; Wo])
    by (apply shape_permute5; reflexivity).
  eexists. split; [reflexivity|]. split; [exact Hy|].
  rewrite (select2_shape5 _ _ _ _ _ _ k Hy).
  unfold spatial_pool. rewrite (select2_shape5 _ _ _ _ _ _ k Hs).
  cbn [tabulate shape]. rewrite Hacc, Ehw. f_equal.
  apply tabulate_ext. intros idx Hidx.
  apply in_range4_inv in Hidx as (b & c & i & j & -> & Hb & Hc & Hi & Hj).
  cbn [firstn skipn app].
  rewrite (get_permute5 v B 4 C Ho Wo) by (reflexivity || assumption).
  unfold v.
  rewrite (get_restorage 0%Q [B * 4; C; Ho; Wo] _ pooled [b * 4 + k; c; i; j]);
    [ | reflexivity | simpl; ring ].
  unfold pooled. rewrite get_tabulate by (apply in_range4; lia).
  do 3 f_equal.
  unfold plane.
  apply map_ext_in. intros h Hh. apply in_seq in Hh.
  apply map_ext_in. intros w Hw. apply in_seq in Hw.
  rewrite get_tabulate by (apply in_range4; lia).
  cbn [firstn skipn app].
  symmetry. apply get_merged; (assumption || lia).
Qed.

(** On sizes that the pooling refuses, the pooling of the merged tensor
    and the pooling of a slice raise the same runtime error. *)
Lemma pool_components_refused (x : tensor Q) B C H W k :
  shape x = [B; C; 4; H; W] -> accepts C H W = false ->
  pool_components (spatial_pool 0%Q accepts out_hw plane_op) x = Raise RuntimeError
  /\ spatial_pool 0%Q accepts out_hw plane_op (select 0%Q x 2 k) = Raise RuntimeError.
Proof.
  intros Hs Hacc. split.
  - unfold pool_components. rewrite Hs. cbn [Nat.eqb].
    rewrite reshape_ok
      by (rewrite (shape_permute5 x B C 4 H W Hs); simpl; lia).
    cbn [rbind]. unfold spatial_pool. cbn [shape]. now rewrite Hacc.
  - unfold spatial_pool. rewrite (select2_shape5 _ _ _ _ _ _ k Hs).
    cbn [tabulate shape]. now rewrite Hacc.
Qed.

End Pooling.

(** ** The dropout mask is shared by the four components *)

Section Dropout.
Import Torch.

Lemma broadcast_one d i : i < d -> (if d =? 1 then 0 else i) = i.
Proof. intros H. destruct (Nat.eqb_spec d 1); lia. Qed.

Lemma shape_eqb_refl s : shape_eqb s s = true.
Proof.
  unfold shape_eqb. rewrite Nat.eqb_refl. simpl.
  induction s as [|d s IH]; simpl; [reflexivity|].
  now rewrite Nat.eqb_refl.
Qed.

(** [mask.unsqueeze(2).expand(B, C, 4, H, W)] repeats the entry of the
    mask at [(b, c, h, w)] at every component [q]. *)
Lemma expand_mask (m : tensor bool) B C H W :
  shape m = [B; C; H; W] ->
  exists m5,
    expand false (unsqueeze m 2) [B; C; 4; H; W] = Ok m5
    /\ shape m5 = [B; C; 4; H; W]
    /\ length (storage m5) = numel [B; C; 4; H; W]
    /\ forall b c q h w, b < B -> c < C -> q < 4 -> h < H -> w < W ->
         get false m5 [b; c; q; h; w] = get false m [b; c; h; w].
Proof.
  intros Hm. unfold expand, unsqueeze. rewrite Hm. cbn [firstn skipn app shape].
  replace (expandable [B; C; 1; H; W] [B; C; 4; H; W]) with true
    by (simpl; now rewrite !Nat.eqb_refl).
  eexists. split; [reflexivity|]. split; [reflexivity|]. split.
  - unfold tabulate; cbn [storage]. now rewrite length_map, length_seq.
  - intros b c q h w Hb Hc Hq Hh Hw.
    rewrite get_tabulate by (apply in_range5; assumption).
    cbn [broadcast_index Nat.eqb].
    rewrite !broadcast_one by assumption.
    unfold get. cbn [shape storage]. rewrite Hm. f_equal. simpl. ring.
Qed.

Lemma draw_mask_shape self rnd B C H W :
  shape (QuaternionDropout.draw_mask self rnd B C H W) = [B; C; H; W].
Proof. reflexivity. Qed.

(** In training mode with [p <> 0], on a well-formed input with four
    components, [forward] returns [x * mask / (1 - p)] entry by entry. *)
Lemma dropout_training_entries self rnd (x : tensor Q) B C H W :
  shape x = [B; C; 4; H; W] -> wf x ->
  QuaternionDropout.training self = true ->
  ~ (QuaternionDropout.p self == 0)%Q ->
  exists y,
    QuaternionDropout.forward self rnd x = Ok y
    /\ shape y = [B; C; 4; H; W]
    /\ forall b c q h w, b < B -> c < C -> q < 4 -> h < H -> w < W ->
         get 0%Q y [b; c; q; h; w]
         = (get 0%Q x [b; c; q; h; w]
            * (if get false (QuaternionDropout.draw_mask self rnd B C H W) [b; c; h; w]
               then 1 else 0)
            / (1 - QuaternionDropout.p self))%Q.
Proof.
  intros Hs Hwf Htr Hp.
  unfold QuaternionDropout.forward. rewrite Htr. cbn [negb orb].
  destruct (Qeq_bool (QuaternionDropout.p self) 0) eqn:E;
    [apply Qeq_bool_iff in E; contradiction|].
  rewrite Hs. cbn [Nat.eqb].
  destruct (expand_mask (QuaternionDropout.draw_mask self rnd B C H W) B C H W
              (draw_mask_shape self rnd B C H W))
    as (m5 & -> & Hm5s & Hm5l & Hm5g).
  cbn [rbind]. unfold mul_mask. rewrite Hs, Hm5s, shape_eqb_refl. cbn [rbind].
  eexists. split; [reflexivity|]. split; [reflexivity|].
  intros b c q h w Hb Hc Hq Hh Hw.
  rewrite <- (Hm5g b c q h w) by assumption.
  unfold get, div_scalar. cbn [shape storage]. rewrite Hs, Hm5s.
  assert (Hn : ravel [B; C; 4; H; W] [b; c; q; h; w] < numel [B; C; 4; H; W])
    by (apply ravel_lt, in_range5; assumption).
  set (n := ravel [B; C; 4; H; W] [b; c; q; h; w]) in *.
  unfold wf in Hwf. rewrite Hs in Hwf.
  rewrite (nth_map_in _ _ _ _ 0%Q)
    by (rewrite length_map, length_combine, Hwf, Hm5l; lia).
  f_equal.
  rewrite (nth_map_in _ _ _ _ (0%Q, false))
    by (rewrite length_combine, Hwf, Hm5l; lia).
  rewrite combine_nth by (rewrite Hwf, Hm5l; reflexivity).
  reflexivity.
Qed.

End Dropout.


(** ** The dropout-rate schedule of QResNet34 *)

Section Schedule.

Lemma py_getitem_middle {A} (pre : list A) a post :
  py_getitem (pre ++ a :: post) (length pre) = Ok a.
Proof.
  unfold py_getitem. rewrite nth_error_app2 by lia.
  now rewrite Nat.sub_diag.
Qed.

Lemma insert_middle {A} (pre : list A) a b post :
  <[length pre := b]> (pre ++ a :: post) = pre ++ b :: post.
Proof.
  induction pre as [|x pre IH]; simpl; [reflexivity|].
  now rewrite IH.
Qed.

Lemma bump_rates_from inc : forall post pre,
  fold_left
    (fun acc i =>
       let* rs := acc in
       let* r := py_getitem rs i in
       Ok (<[i := py_min (1 # 2) (r + inc)]> rs))
    (seq (length pre) (length post)) (Ok (pre ++ post))
  = Ok (pre ++ map (fun r => py_min (1 # 2) (r + inc)) post).
Proof.
  induction post as [|a post IH]; intros pre; simpl; [reflexivity|].
  rewrite py_getitem_middle. cbn [rbind].
  rewrite insert_middle.
  specialize (IH (pre ++ [py_min (1 # 2) (a + inc)])).
  rewrite length_app, Nat.add_1_r, <- !app_assoc in IH.
  exact IH.
Qed.

(** The loop over the rates is a map. *)
Lemma bump_rates_map inc rates :
  QResNet34.bump_rates inc rates = Ok (map (fun r => py_min (1 # 2) (r + inc)) rates).
Proof. exact (bump_rates_from inc rates []). Qed.

Lemma py_min_Qmin a b : (py_min a b == Qmin a b)%Q.
Proof.
  unfold py_min, Qlt_bool.
  destruct (Qle_bool a b) eqn:E; cbn [negb].
  - apply Qle_bool_iff in E. symmetry. now apply Q.min_l.
  - assert (H : (b < a)%Q).
    { apply Qnot_le_lt. intros H. apply Qle_bool_iff in H. congruence. }
    symmetry. apply Q.min_r. now apply Qlt_le_weak.
Qed.

Lemma update_block_ok rates r idx : forall block,
  nth_error rates idx = Some r ->
  exists block',
    QResNet34._update_block_dropout rates block idx = Ok block'
    /\ length block' = length block
    /\ Forall (fun l => QuaternionBasicBlock.get_p (QuaternionBasicBlock.dropout1 l) = Some r
                        /\ QuaternionBasicBlock.get_p (QuaternionBasicBlock.dropout2 l) = Some r)
              block'.
Proof.
  intros block Hr. induction block as [|l block (block' & IH & Hlen & Hall)]; simpl.
  - exists []. repeat split. constructor.
  - unfold py_getitem. rewrite Hr. cbn [rbind]. rewrite IH. cbn [rbind].
    eexists. split; [reflexivity|]. split; [simpl; now rewrite Hlen|].
    constructor; [|exact Hall]. cbn.
    split; [destruct (QuaternionBasicBlock.dropout1 l) | destruct (QuaternionBasicBlock.dropout2 l)];
      reflexivity.
Qed.

End Schedule.

Section ScheduleInvariant.

Lemma py_min_le_half x : (py_min (1 # 2) x <= 1 # 2)%Q.
Proof. rewrite py_min_Qmin. apply Q.le_min_l. Qed.

Lemma py_min_step r : (r <= 1 # 2)%Q -> (r <= py_min (1 # 2) (r + (5 # 100)))%Q.
Proof.
  intros H. rewrite py_min_Qmin. apply Q.min_glb; [exact H|].
  rewrite <- (Qplus_0_r r) at 1. apply Qplus_le_r. discriminate.
Qed.

Lemma init_inv num_classes :
  exists m, QResNet34.__init__ num_classes = Ok m /\ schedule_inv m.
Proof.
  eexists. split; [reflexivity|].
  unfold schedule_inv; cbn.
  repeat split; try reflexivity.
  repeat constructor; discriminate.
Qed.

(** One call on a state that satisfies the invariant. *)
Lemma update_step m :
  schedule_inv m ->
  exists m',
    QResNet34.update_dropout_rates m = Ok m'
    /\ schedule_inv m'
    /\ QResNet34.current_rates m'
       = map (fun r => py_min (1 # 2) (r + (5 # 100))%Q) (QResNet34.current_rates m)
    /\ (exists r, nth_error (QResNet34.current_rates m') 0 = Some r
                  /\ stage_has_rate r (QResNet34.conv2_x m'))
    /\ (exists r, nth_error (QResNet34.current_rates m') 1 = Some r
                  /\ stage_has_rate r (QResNet34.conv3_x m'))
    /\ (exists r, nth_error (QResNet34.current_rates m') 2 = Some r
                  /\ stage_has_rate r (QResNet34.conv4_x m'))
    /\ (exists r, nth_error (QResNet34.current_rates m') 3 = Some r
                  /\ stage_has_rate r (QResNet34.conv5_x m'))
    /\ nth_error (QResNet34.current_rates m') 4 = Some (QResNet34.classifier_dropout_p m').
Proof.
  intros (Hlen & Hinc & Hle & H2 & H3 & H4 & H5).
  unfold QResNet34.update_dropout_rates.
  rewrite bump_rates_map, Hinc. cbn [rbind].
  destruct (QResNet34.current_rates m) as [|r0 [|r1 [|r2 [|r3 [|r4 [|]]]]]] eqn:Er;
    try discriminate Hlen.
  set (f := fun r => py_min (1 # 2) (r + (5 # 100))%Q).
  set (rs := map f [r0; r1; r2; r3; r4]).
  destruct (update_block_ok rs (f r0) 0 (QResNet34.conv2_x m) eq_refl) as (c2 & -> & L2 & A2).
  destruct (update_block_ok rs (f r1) 1 (QResNet34.conv3_x m) eq_refl) as (c3 & -> & L3 & A3).
  destruct (update_block_ok rs (f r2) 2 (QResNet34.conv4_x m) eq_refl) as (c4 & -> & L4 & A4).
  destruct (update_block_ok rs (f r3) 3 (QResNet34.conv5_x m) eq_refl) as (c5 & -> & L5 & A5).
  cbn [rbind]. unfold py_getitem. cbn [rs map nth_error rbind].
  eexists. split; [reflexivity|]. cbn.
  split.
  { unfold schedule_inv; cbn. repeat split; try congruence.
    repeat constructor; apply py_min_le_half. }
  split; [reflexivity|].
  repeat split; try (eexists; split; [reflexivity|assumption]).
Qed.

Lemma after_updates_inv num_classes n :
  exists m, after_updates num_classes n = Ok m /\ schedule_inv m.
Proof.
  induction n as [|n (m & Hm & Hinv)]; simpl.
  - apply init_inv.
  - rewrite Hm. cbn [rbind].
    destruct (update_step m Hinv) as (m' & Hu & Hinv' & _).
    now exists m'.
Qed.

End ScheduleInvariant.

(** ** The trainer *)

Section TrainerFacts.

(** A trainer built by [__init__] on which [validate] is assigned
    afterwards. *)
Lemma init_ready model train_dataloader val_dataloader optimizer scheduler scaler
      loss_fn metrics device save_dir grad_clip_val visualize vis_batch_freq validate :
  ready (Trainer.setattr
           (Trainer.__init__ model train_dataloader val_dataloader optimizer scheduler scaler
              loss_fn metrics device save_dir grad_clip_val visualize vis_batch_freq)
           "validate" validate)
        0%Q save_dir.
Proof.
  unfold ready, Trainer.setattr, Trainer.__init__; cbn [Trainer.attrs].
  repeat split; by simplify_map_eq.
Qed.

Lemma init_no_validate model train_dataloader val_dataloader optimizer scheduler scaler
      loss_fn metrics device save_dir grad_clip_val visualize vis_batch_freq :
  Trainer.attrs (Trainer.__init__ model train_dataloader val_dataloader optimizer scheduler
                   scaler loss_fn metrics device save_dir grad_clip_val visualize
                   vis_batch_freq) !! "validate"
  = None.
Proof. unfold Trainer.__init__; cbn [Trainer.attrs]. by simplify_map_eq. Qed.

Lemma save_checkpoint_ready self b d e is_best w :
  ready self b d ->
  Trainer.save_checkpoint self e is_best w
  = Ok (World (csv_files w)
          (saved w ++ (Trainer.checkpoint_path d e, Checkpoint e b)
                   :: (if is_best then [(Trainer.best_path d, Checkpoint e b)] else []))).
Proof.
  intros (Hb & Hd & [? Hm] & [? Ho] & [? Hs] & [? Hc] & _).
  unfold Trainer.save_checkpoint, Trainer.getattr.
  rewrite Hm, Ho, Hs, Hc, Hb, Hd. cbn [rbind Trainer.as_float Trainer.as_str].
  unfold Trainer.torch_save. cbn [csv_files saved].
  destruct is_best; [rewrite <- app_assoc|]; reflexivity.
Qed.

Lemma setattr_best_ready self b d v e :
  ready self b d ->
  ready (Trainer.setattr (Trainer.setattr self "best_map" (VFloat v)) "best_epoch" (VInt e)) v d.
Proof.
  intros (Hb & Hd & Hm & Ho & Hs & Hc & Hv).
  unfold ready, Trainer.setattr; cbn [Trainer.attrs].
  repeat split; by simplify_map_eq.
Qed.

(** One validation: the new state and exactly the saves it makes. *)
Lemma validate_and_save_ready self b d vm v e w :
  ready self b d -> vm !! "map50" = Some v ->
  exists self',
    Trainer.validate_and_save self vm e w
    = Ok (self', World (csv_files w) (saved w ++ expected_saves d b v e))
    /\ ready self' (if Qlt_bool b v then v else b) d.
Proof.
  intros Hr Hv.
  unfold Trainer.validate_and_save, expected_saves.
  destruct (proj2 (proj2 (proj2 (proj2 (proj2 (proj2 Hr)))))) as [fv Hfv].
  unfold Trainer.getattr at 1. rewrite Hfv. cbn [rbind]. rewrite Hv. cbn [rbind].
  destruct Hr as (Hb & Hr'). pose proof (conj Hb Hr') as Hr.
  unfold Trainer.getattr at 1. rewrite Hb. cbn [rbind Trainer.as_float].
  destruct w as [cf sv].
  destruct (Qlt_bool b v) eqn:Hlt.
  - pose proof (setattr_best_ready self b d v e Hr) as Hr2.
    rewrite (save_checkpoint_ready _ v d e true _ Hr2). cbn [rbind].
    destruct (e mod 10 =? 0)%Z.
    + rewrite (save_checkpoint_ready _ v d e false _ Hr2). cbn [rbind csv_files saved].
      eexists. split; [|exact Hr2].
      rewrite <- !app_assoc. reflexivity.
    + eexists. split; [|exact Hr2]. cbn [csv_files saved].
      rewrite app_nil_r. reflexivity.
  - cbn [rbind]. destruct (e mod 10 =? 0)%Z.
    + rewrite (save_checkpoint_ready _ b d e false _ Hr). cbn [rbind].
      eexists. split; [|exact Hr]. reflexivity.
    + eexists. split; [|exact Hr]. cbn [csv_files saved app].
      rewrite app_nil_r. reflexivity.
Qed.

Lemma best_so_far_step b seen v :
  best_so_far b seen -> best_so_far (if Qlt_bool b v then v else b) (seen ++ [v]).
Proof.
  intros (Hin & H0 & Hall). unfold Qlt_bool.
  destruct (Qle_bool v b) eqn:E; cbn [negb].
  - apply Qle_bool_iff in E. repeat split.
    + destruct Hin as [->|Hin]; [now left|right; apply in_or_app; now left].
    + exact H0.
    + apply Forall_app; split; [exact Hall|]. now constructor.
  - assert (Hlt : (b < v)%Q).
    { apply Qnot_le_lt. intros H. apply Qle_bool_iff in H. congruence. }
    repeat split.
    + right. apply in_or_app. right. now left.
    + apply Qle_trans with b; [exact H0|now apply Qlt_le_weak].
    + apply Forall_app; split.
      * eapply List.Forall_impl; [|exact Hall]. intros a Ha.
        apply Qle_trans with b; [exact Ha|now apply Qlt_le_weak].
      * constructor; [apply Qle_refl|constructor].
Qed.

(** Running the validations of a whole sequence keeps the trainer ready,
    its best metric is the best value seen, and its saves are those of
    [expected_run]. *)
Lemma validate_epochs_ready : forall map50s self b d e w seen,
  ready self b d -> best_so_far b seen ->
  exists self' w' b',
    Trainer.validate_epochs self e map50s w = Ok (self', w')
    /\ ready self' b' d /\ best_so_far b' (seen ++ map50s)
    /\ csv_files w' = csv_files w
    /\ saved w' = saved w ++ expected_run d b e map50s.
Proof.
  induction map50s as [|v rest IH]; intros self b d e w seen Hr Hb; simpl.
  - exists self, w, b. rewrite !app_nil_r.
    split; [reflexivity|]. split; [exact Hr|]. split; [exact Hb|]. split; reflexivity.
  - destruct (validate_and_save_ready self b d (<["map50" := v]> ∅) v e w Hr)
      as (self1 & -> & Hr1); [by simplify_map_eq|].
    cbn [rbind fst snd].
    destruct (IH self1 _ d (e + 1)%Z
                (World (csv_files w) (saved w ++ expected_saves d b v e))
                (seen ++ [v]) Hr1 (best_so_far_step b seen v Hb))
      as (self' & w' & b' & -> & Hr' & Hb' & Hc & Hs).
    exists self', w', b'. rewrite <- app_assoc in Hb'.
    split; [reflexivity|]. split; [exact Hr'|]. split; [exact Hb'|]. split; [exact Hc|].
    rewrite Hs. cbn [saved]. now rewrite <- app_assoc.
Qed.

Lemma append_inj_l (p x y : string) : p +:+ x = p +:+ y -> x = y.
Proof. induction p as [|a p IH]; simpl; intros H; [exact H|]. injection H as H. auto. Qed.

Lemma path_join_inj d x y : path_join d x = path_join d y -> x = y.
Proof.
  unfold path_join. destruct (decide (d = EmptyString)); [auto|].
  destruct (String.eqb _ "/"); intros H.
  - now apply append_inj_l in H.
  - apply append_inj_l in H. now apply (append_inj_l "/") in H.
Qed.

(** The file of the best model is none of the per-epoch files. *)
Lemma checkpoint_path_not_best d e : Trainer.checkpoint_path d e <> Trainer.best_path d.
Proof.
  unfold Trainer.checkpoint_path, Trainer.best_path. intros H.
  apply path_join_inj in H. discriminate H.
Qed.

Lemma eqb_checkpoint_best d e :
  String.eqb (Trainer.checkpoint_path d e) (Trainer.best_path d) = false.
Proof. apply String.eqb_neq, checkpoint_path_not_best. Qed.

(** *** train_one_epoch *)

Lemma add_metric_keys k v m :
  has_metric_keys m -> is_Some (m !! k) ->
  exists m', Trainer.add_metric k v m = Ok m' /\ has_metric_keys m'.
Proof.
  intros Hk [a Ha]. unfold Trainer.add_metric. rewrite Ha.
  eexists. split; [reflexivity|].
  destruct Hk as (H1 & H2 & H3 & H4 & H5).
  unfold has_metric_keys. rewrite !lookup_insert_is_Some'. tauto.
Qed.

Lemma update_metrics_keys l m :
  has_metric_keys m -> exists m', Trainer.update_metrics l m = Ok m' /\ has_metric_keys m'.
Proof.
  intros Hk. unfold Trainer.update_metrics.
  destruct (add_metric_keys "total_loss" (Trainer.total_loss l) m Hk) as (m1 & -> & K1);
    [apply Hk|]. cbn [rbind].
  destruct (add_metric_keys "box_loss" (box_loss l) m1 K1) as (m2 & -> & K2);
    [apply K1|]. cbn [rbind].
  destruct (add_metric_keys "dfl_loss" (dfl_loss l) m2 K2) as (m3 & -> & K3);
    [apply K2|]. cbn [rbind].
  destruct (add_metric_keys "cls_loss" (cls_loss l) m3 K3) as (m4 & -> & K4);
    [apply K3|]. cbn [rbind].
  apply add_metric_keys; [exact K4|apply K4].
Qed.

Lemma backward_losses_app ev ev' :
  backward_losses (ev ++ ev') = backward_losses ev ++ backward_losses ev'.
Proof. unfold backward_losses. apply flat_map_app. Qed.

(** With the clipping value and the scheduler set as [__init__] sets
    them, every batch that yields its losses reaches [backward] with
    [total_loss], and no other batch does. *)
Lemma train_batches_backward self clip sch : forall outcomes i m,
  Trainer.attrs self !! "grad_clip_val" = Some (VFloat clip) ->
  Trainer.attrs self !! "scheduler" = Some sch ->
  has_metric_keys m ->
  backward_losses (snd (Trainer.train_batches self i outcomes m))
  = map Trainer.total_loss (ok_prefix outcomes).
Proof.
  induction outcomes as [|o rest IH]; intros i m Hc Hs Hk; [reflexivity|].
  cbn [Trainer.train_batches]. destruct o as [l|e].
  - unfold Trainer.train_batch, Trainer.getattr. rewrite Hc, Hs.
    cbn [rbind Trainer.as_float].
    destruct (update_metrics_keys l m Hk) as (m' & -> & Hk').
    specialize (IH (S i) m' Hc Hs Hk').
    destruct (Trainer.train_batches self (S i) rest m') as [r ev'].
    cbn [snd ok_prefix map] in *.
    rewrite backward_losses_app, IH.
    destruct (Qlt_bool 0 clip), sch; reflexivity.
  - reflexivity.
Qed.

End TrainerFacts.

(** ** Quaternion structural operations: the claims *)

Section DropoutCompletes.
Import Torch.




Lemma avg_forward_select self (x : tensor Q) B C H W k :
  shape x = [B; C; 4; H; W] -> k < 4 -> avg_pool_accepts self C H W = true ->
  exists y,
    QuaternionAvgPool.forward self x = Ok y
    /\ QuaternionAvgPool.pooling self (select 0%Q x 2 k) = Ok (select 0%Q y 2 k).
Proof.
  intros Hs Hk Hacc. unfold QuaternionAvgPool.forward, QuaternionAvgPool.pooling.
  unfold avg_pool_accepts in Hacc.
  destruct (QuaternionAvgPool.kernel_size self) as [ks|].
  - unfold avg_pool2d.
    edestruct pool_components_select as (y & Hy & _ & Hsel); [exact Hs|exact Hk|exact Hacc|].
    exists y. split; [exact Hy|exact Hsel].
  - unfold adaptive_avg_pool2d_1x1.
    edestruct pool_components_select as (y & Hy & _ & Hsel); [exact Hs|exact Hk|exact Hacc|].
    exists y. split; [exact Hy|exact Hsel].
Qed.

Lemma avg_forward_refused self (x : tensor Q) B C H W k :
  shape x = [B; C; 4; H; W] -> avg_pool_accepts self C H W = false ->
  QuaternionAvgPool.forward self x = Raise RuntimeError
  /\ QuaternionAvgPool.pooling self (select 0%Q x 2 k) = Raise RuntimeError.
Proof.
  intros Hs Hacc. unfold QuaternionAvgPool.forward, QuaternionAvgPool.pooling.
  unfold avg_pool_accepts in Hacc.
  destruct (QuaternionAvgPool.kernel_size self) as [ks|].
  - unfold avg_pool2d. now apply (pool_components_refused _ _ _ x B C H W k).
  - unfold adaptive_avg_pool2d_1x1. now apply (pool_components_refused _ _ _ x B C H W k).
Qed.

Lemma max_forward_select self (x : tensor Q) B C H W k :
  shape x = [B; C; 4; H; W] -> k < 4 -> max_pool_accepts self C H W = true ->
  exists y,
    QuaternionMaxPool.forward self x = Ok y
    /\ QuaternionMaxPool.pool self (select 0%Q x 2 k) = Ok (select 0%Q y 2 k).
Proof.
  intros Hs Hk Hacc. unfold QuaternionMaxPool.forward, QuaternionMaxPool.pool, max_pool2d.
  edestruct pool_components_select as (y & Hy & _ & Hsel); [exact Hs|exact Hk|exact Hacc|].
  exists y. split; [exact Hy|exact Hsel].
Qed.

Lemma max_forward_refused self (x : tensor Q) B C H W k :
  shape x = [B; C; 4; H; W] -> max_pool_accepts self C H W = false ->
  QuaternionMaxPool.forward self x = Raise RuntimeError
  /\ QuaternionMaxPool.pool self (select 0%Q x 2 k) = Raise RuntimeError.
Proof.
  intros Hs Hacc. unfold QuaternionMaxPool.forward, QuaternionMaxPool.pool, max_pool2d.
  now apply (pool_components_refused _ _ _ x B C H W k).
Qed.

(** The entry of the keep-mask at a position is the test [u > p] on the
    draw of that position. *)
Lemma draw_mask_entry self rnd B C H W b c h w :
  b < B -> c < C -> h < H -> w < W ->
  get false (QuaternionDropout.draw_mask self rnd B C H W) [b; c; h; w]
  = Qlt_bool (QuaternionDropout.p self) (draw_at rnd B C H W b c h w).
Proof.
  intros Hb Hc Hh Hw.
  assert (Hn : ravel [B; C; H; W] [b; c; h; w] < numel [B; C; H; W])
    by (apply ravel_lt, in_range4; assumption).
  unfold QuaternionDropout.draw_mask, gt_scalar, rand, get, draw_at. cbn [shape storage].
  rewrite (nth_map_in _ _ _ _ 0%Q) by (now rewrite length_map, length_seq).
  f_equal.
  rewrite (nth_map_in _ _ _ _ 0) by (now rewrite length_seq).
  now rewrite seq_nth.
Qed.

End DropoutCompletes.

(** C1. In training mode with [0 < p < 1], on every input of shape
    [(B, C, 4, H, W)], [QuaternionDropout.forward] draws one keep-mask of
    shape [(B, C, H, W)]: the mask keeps position [(b, c, h, w)] exactly
    when the uniform draw of that position, the next draw of
    [torch.rand] in row-major order, is above [p].  The mask is used for
    all four components: at each position either it keeps and all four
    components are the input divided by [1 - p], or it drops and all four
    components are zero.  In evaluation mode, or when [p = 0], the output
    is the input. *)
Theorem quaternion_dropout_shared_mask :
  forall (self : QuaternionDropout.t) (rnd : nat -> Q) (x : Torch.tensor Q) (B C H W : nat),
    Torch.shape x = [B; C; 4; H; W] -> Torch.wf x ->
    (QuaternionDropout.training self = true ->
     (0 < QuaternionDropout.p self)%Q -> (QuaternionDropout.p self < 1)%Q ->
     exists y,
       QuaternionDropout.forward self rnd x = Ok y
       /\ Torch.shape y = [B; C; 4; H; W]
       /\ Torch.shape (QuaternionDropout.draw_mask self rnd B C H W) = [B; C; H; W]
       /\ forall b c h w, b < B -> c < C -> h < H -> w < W ->
            let keep :=
              Torch.get false (QuaternionDropout.draw_mask self rnd B C H W) [b; c; h; w] in
            (keep = true <-> (QuaternionDropout.p self < draw_at rnd B C H W b c h w)%Q)
            /\ ((keep = true
                 /\ forall q, q < 4 ->
                      (Torch.get 0 y [b; c; q; h; w]
                       == Torch.get 0 x [b; c; q; h; w] / (1 - QuaternionDropout.p self))%Q)
                \/ (keep = false
                    /\ forall q, q < 4 -> (Torch.get 0 y [b; c; q; h; w] == 0)%Q)))
    /\ (QuaternionDropout.training self = false \/ (QuaternionDropout.p self == 0)%Q ->
        QuaternionDropout.forward self rnd x = Ok x).
Proof.
  intros self rnd x B C H W Hs Hwf. split.
  - intros Htr Hp0 Hp1.
    assert (Hp : ~ (QuaternionDropout.p self == 0)%Q).
    { intros E. rewrite E in Hp0. discriminate Hp0. }
    destruct (dropout_training_entries self rnd x B C H W Hs Hwf Htr Hp)
      as (y & Hy & Hsy & Hget).
    exists y. split; [exact Hy|]. split; [exact Hsy|]. split; [reflexivity|].
    intros b c h w Hb Hc Hh Hw. cbv zeta. split.
    { rewrite (draw_mask_entry self rnd B C H W b c h w Hb Hc Hh Hw).
      apply Qlt_bool_iff. }
    destruct (Torch.get false (QuaternionDropout.draw_mask self rnd B C H W) [b; c; h; w])
      eqn:Ek; [left|right]; (split; [reflexivity|]); intros q Hq;
      rewrite (Hget b c q h w Hb Hc Hq Hh Hw), Ek.
    + now rewrite Qmult_1_r.
    + unfold Qdiv. now rewrite Qmult_0_r, Qmult_0_l.
  - intros Hmode. unfold QuaternionDropout.forward.
    destruct Hmode as [-> | E]; [reflexivity|].
    apply Qeq_bool_iff in E. rewrite E. now rewrite orb_true_r.
Qed.

Lemma quaternion_dropout_shared_mask_witness :
  exists y,
    QuaternionDropout.forward dropout_half alternating_draws sample_1x1x4x1x2 = Ok y
    /\ Torch.shape y = [1; 1; 4; 1; 2].
Proof.
  destruct (quaternion_dropout_shared_mask dropout_half alternating_draws sample_1x1x4x1x2
              1 1 1 2 eq_refl eq_refl) as [Htrain _].
  destruct (Htrain eq_refl eq_refl eq_refl) as (y & Hy & Hsy & _).
  exists y. split; [exact Hy | exact Hsy].
Defined.

(** C6. For every input of shape [(B, C, 4, H, W)] and every component
    [k < 4], pooling the 5D tensor with [QuaternionAvgPool] or
    [QuaternionMaxPool] and then slicing out component [k] gives what the
    layer's own 2D pooling gives on the 4D slice at component [k]: on
    the sizes the 2D pooling accepts both return and the results are
    equal, and on the sizes it refuses both raise its runtime error. *)
Theorem quaternion_pooling_commutes_with_slicing :
  forall (x : Torch.tensor Q) (B C H W k : nat),
    Torch.shape x = [B; C; 4; H; W] -> k < 4 ->
    (forall self : QuaternionAvgPool.t,
        QuaternionAvgPool.pooling self (Torch.select 0%Q x 2 k)
        = slice_result k (QuaternionAvgPool.forward self x)
        /\ (avg_pool_accepts self C H W = true ->
            exists y,
              QuaternionAvgPool.forward self x = Ok y
              /\ QuaternionAvgPool.pooling self (Torch.select 0%Q x 2 k)
                 = Ok (Torch.select 0%Q y 2 k))
        /\ (avg_pool_accepts self C H W = false ->
            QuaternionAvgPool.forward self x = Raise RuntimeError))
    /\ (forall self : QuaternionMaxPool.t,
           QuaternionMaxPool.pool self (Torch.select 0%Q x 2 k)
           = slice_result k (QuaternionMaxPool.forward self x)
           /\ (max_pool_accepts self C H W = true ->
               exists y,
                 QuaternionMaxPool.forward self x = Ok y
                 /\ QuaternionMaxPool.pool self (Torch.select 0%Q x 2 k)
                    = Ok (Torch.select 0%Q y 2 k))
           /\ (max_pool_accepts self C H W = false ->
               QuaternionMaxPool.forward self x = Raise RuntimeError)).
Proof.
  intros x B C H W k Hs Hk. split; intros self.
  - split; [|split].
    + destruct (avg_pool_accepts self C H W) eqn:Hacc.
      * destruct (avg_forward_select self x B C H W k Hs Hk Hacc) as (y & -> & ->).
        reflexivity.
      * destruct (avg_forward_refused self x B C H W k Hs Hacc) as (-> & ->).
        reflexivity.
    + intros Hacc. exact (avg_forward_select self x B C H W k Hs Hk Hacc).
    + intros Hacc. exact (proj1 (avg_forward_refused self x B C H W k Hs Hacc)).
  - split; [|split].
    + destruct (max_pool_accepts self C H W) eqn:Hacc.
      * destruct (max_forward_select self x B C H W k Hs Hk Hacc) as (y & -> & ->).
        reflexivity.
      * destruct (max_forward_refused self x B C H W k Hs Hacc) as (-> & ->).
        reflexivity.
    + intros Hacc. exact (max_forward_select self x B C H W k Hs Hk Hacc).
    + intros Hacc. exact (proj1 (max_forward_refused self x B C H W k Hs Hacc)).
Qed.

Lemma quaternion_pooling_commutes_with_slicing_witness :
  exists y,
    QuaternionMaxPool.forward (QuaternionMaxPool.Build 2 2 0) sample_1x1x4x2x2 = Ok y
    /\ QuaternionMaxPool.pool (QuaternionMaxPool.Build 2 2 0)
         (Torch.select 0%Q sample_1x1x4x2x2 2 1)
       = Ok (Torch.select 0%Q y 2 1).
Proof.
  destruct (quaternion_pooling_commutes_with_slicing sample_1x1x4x2x2 1 1 2 2 1 eq_refl
              (le_S 2 3 (le_S 2 2 (le_n 2))))
    as [_ Hmax].
  destruct (Hmax (QuaternionMaxPool.Build 2 2 0)) as (_ & Hok & _).
  exact (Hok eq_refl).
Defined.




(** ** Model architectures: the claims *)

Lemma nth_error_bumped rates i r :
  nth_error rates i = Some r ->
  nth_error (map (fun r => py_min (1 # 2) (r + (5 # 100))%Q) rates) i
  = Some (py_min (1 # 2) (r + (5 # 100))%Q).
Proof. intros H. now rewrite nth_error_map, H. Qed.

(** C5. After any number of earlier calls, one more call of
    [update_dropout_rates] succeeds; each of the 5 stored rates becomes the
    old rate plus 0.05, clamped at 0.5, so it does not decrease and does not
    exceed 0.5; every block of the four residual stages carries the new
    rate of its stage in both dropout modules, and the classifier dropout
    carries the fifth. *)
Theorem update_dropout_rates_schedule :
  forall num_classes n : nat,
  exists m m',
    after_updates num_classes n = Ok m
    /\ after_updates num_classes (S n) = Ok m'
    /\ QResNet34.update_dropout_rates m = Ok m'
    /\ length (QResNet34.current_rates m) = 5
    /\ length (QResNet34.current_rates m') = 5
    /\ (forall i r, nth_error (QResNet34.current_rates m) i = Some r ->
          exists r', nth_error (QResNet34.current_rates m') i = Some r'
                     /\ (r' == Qmin (1 # 2) (r + (5 # 100)))%Q
                     /\ (r <= r')%Q /\ (r' <= 1 # 2)%Q)
    /\ (exists r, nth_error (QResNet34.current_rates m') 0 = Some r
                  /\ stage_has_rate r (QResNet34.conv2_x m')
                  /\ length (QResNet34.conv2_x m') = 3)
    /\ (exists r, nth_error (QResNet34.current_rates m') 1 = Some r
                  /\ stage_has_rate r (QResNet34.conv3_x m')
                  /\ length (QResNet34.conv3_x m') = 4)
    /\ (exists r, nth_error (QResNet34.current_rates m') 2 = Some r
                  /\ stage_has_rate r (QResNet34.conv4_x m')
                  /\ length (QResNet34.conv4_x m') = 6)
    /\ (exists r, nth_error (QResNet34.current_rates m') 3 = Some r
                  /\ stage_has_rate r (QResNet34.conv5_x m')
                  /\ length (QResNet34.conv5_x m') = 3)
    /\ nth_error (QResNet34.current_rates m') 4 = Some (QResNet34.classifier_dropout_p m').
Proof.
  intros num_classes n.
  destruct (after_updates_inv num_classes n) as (m & Hm & Hinv).
  destruct (update_step m Hinv)
    as (m' & Hu & Hinv' & Hrates & (q0 & E0 & S0) & (q1 & E1 & S1) & (q2 & E2 & S2)
        & (q3 & E3 & S3) & E4).
  pose proof Hinv as (Hlen & _ & Hle & _).
  pose proof Hinv' as (Hlen' & _ & _ & L2 & L3 & L4 & L5).
  exists m, m'.
  split; [exact Hm|]. split; [simpl; rewrite Hm; exact Hu|]. split; [exact Hu|].
  split; [exact Hlen|]. split; [exact Hlen'|]. split.
  { intros i r Hi. eexists. split; [rewrite Hrates; apply nth_error_bumped, Hi|].
    assert (Hr : (r <= 1 # 2)%Q).
    { rewrite List.Forall_forall in Hle. apply Hle. eapply nth_error_In, Hi. }
    split; [apply py_min_Qmin|]. split; [now apply py_min_step|apply py_min_le_half]. }
  split; [now exists q0|]. split; [now exists q1|]. split; [now exists q2|].
  split; [now exists q3|]. exact E4.
Qed.

Lemma view_mismatch (t : Torch.tensor Q) s :
  Torch.numel s <> Torch.numel (Torch.shape t) -> Torch.view t s = Raise RuntimeError.
Proof.
  intros H. unfold Torch.view, Torch.reshape.
  apply Nat.eqb_neq in H. now rewrite H.
Qed.

(** Whatever the layers, [QResNet34.forward] raises on a non-empty batch
    as soon as the classifier head was built for a number of classes other
    than [NUM_CLASSES]. *)
Lemma QResNet34_forward_other_num_classes layers x out B num_classes :
  layers x = Ok out -> Torch.shape out = [B; num_classes * 4] ->
  0 < B -> num_classes <> NUM_CLASSES ->
  QResNet34.forward layers x = Raise RuntimeError.
Proof.
  intros Hl Hs HB Hn. unfold QResNet34.forward. rewrite Hl. cbn [rbind].
  rewrite Hs. cbn [py_getitem nth_error rbind].
  rewrite view_mismatch; [reflexivity|].
  rewrite Hs. unfold NUM_CLASSES in *. simpl. nia.
Qed.

(** Reading the real component: entry [(b, j)] of [v[:, :, 0]] for a
    view [(B, n, 4)] of a head output [(B, n * 4)] is entry [(b, 4 * j)] of
    the head output. *)
Lemma real_component_of_view (out : Torch.tensor Q) B n b j :
  Torch.shape out = [B; n * 4] -> b < B -> j < n ->
  Torch.get 0%Q (Torch.select 0%Q (Torch.Tensor [B; n; 4] (Torch.storage out)) 2 0) [b; j]
  = Torch.get 0%Q out [b; 4 * j].
Proof.
  intros Hs Hb Hj. unfold Torch.select. cbn [Torch.shape firstn skipn app].
  rewrite get_tabulate by (repeat constructor; assumption).
  cbn [firstn skipn app].
  apply (get_restorage 0%Q [B; n * 4] [B; n; 4] out [b; 4 * j] [b; j; 0] Hs).
  simpl. ring.
Qed.

(** With a head built for [NUM_CLASSES] classes, [QResNet34.forward] and
    [QuaternionCIFAR10.forward] return the real components as logits of
    shape [(B, NUM_CLASSES)]. *)
Lemma forward_real_components layers x out B :
  layers x = Ok out -> Torch.shape out = [B; NUM_CLASSES * 4] ->
  exists y,
    QResNet34.forward layers x = Ok y
    /\ QuaternionCIFAR10.forward layers x = Ok y
    /\ Torch.shape y = [B; NUM_CLASSES]
    /\ forall b j, b < B -> j < NUM_CLASSES ->
         Torch.get 0%Q y [b; j] = Torch.get 0%Q out [b; 4 * j].
Proof.
  intros Hl Hs.
  unfold QResNet34.forward, QuaternionCIFAR10.forward. rewrite Hl. cbn [rbind].
  rewrite Hs. cbn [py_getitem nth_error rbind].
  unfold Torch.view. rewrite reshape_ok by (rewrite Hs; unfold NUM_CLASSES; simpl; lia).
  cbn [rbind]. eexists. split; [reflexivity|]. split; [reflexivity|].
  split; [reflexivity|].
  intros b j Hb Hj. now apply real_component_of_view.
Qed.

(** [QuaternionDenseNet.forward] does so for any number of classes, on a
    non-empty batch. *)
Lemma densenet_real_components layers x out B n :
  layers x = Ok out -> Torch.shape out = [B; n * 4] -> 0 < B ->
  exists y,
    QuaternionDenseNet.forward layers x = Ok y
    /\ Torch.shape y = [B; n]
    /\ forall b j, b < B -> j < n ->
         Torch.get 0%Q y [b; j] = Torch.get 0%Q out [b; 4 * j].
Proof.
  intros Hl Hs HB.
  unfold QuaternionDenseNet.forward. rewrite Hl. cbn [rbind].
  rewrite Hs. cbn [py_getitem nth_error rbind].
  unfold Torch.view_infer. rewrite Hs.
  assert (Hk : Torch.numel [B] * Torch.numel [4] = B * 4) by (simpl; lia).
  assert (Hn : Torch.numel [B; n * 4] = n * (B * 4)) by (simpl; lia).
  rewrite Hk, Hn.
  destruct (Nat.eqb_spec (B * 4) 0) as [E|_]; [lia|].
  rewrite Nat.Div0.mod_mul, Nat.eqb_refl, Nat.div_mul by lia.
  cbn [rbind app]. eexists. split; [reflexivity|]. split; [reflexivity|].
  intros b j Hb Hj. now apply real_component_of_view.
Qed.

(** The last lines of [QuaternionDenseNet.forward] infer the number of
    classes from the head output instead. *)
Lemma QuaternionDenseNet_final_stage x :
  QuaternionDenseNet.forward (zero_head 1 5) x = Ok (Torch.Tensor [1; 5] [0; 0; 0; 0; 0]%Q).
Proof. reflexivity. Qed.

(** C3, at the failing input: a [QResNet34] built for 5 classes has a
    classifier head of 20 outputs, and on a batch of one image its
    [forward] raises at the final reshape instead of returning logits of
    shape [(1, 5)]. *)
Theorem QResNet34_forward_ignores_num_classes :
  exists m,
    QResNet34.__init__ 5 = Ok m
    /\ QResNet34.classifier_out_features m = 20
    /\ forall x, QResNet34.forward (zero_head 1 5) x = Raise RuntimeError.
Proof.
  eexists. split; [reflexivity|]. split; [reflexivity|].
  intros x.
  apply (QResNet34_forward_other_num_classes (zero_head 1 5) x _ 1 5 eq_refl eq_refl).
  - lia.
  - discriminate.
Qed.

(** ** The trainer: the claims *)

Lemma best_in_expected_saves d b v e :
  (exists ck, In (Trainer.best_path d, ck) (expected_saves d b v e)) <-> (b < v)%Q.
Proof.
  unfold expected_saves. rewrite <- Qlt_bool_iff. split.
  - intros [ck Hin]. destruct (Qlt_bool b v); [reflexivity|].
    destruct (e mod 10 =? 0)%Z; simpl in Hin; [|contradiction].
    destruct Hin as [Hin|[]]. injection Hin as Hp _.
    now apply checkpoint_path_not_best in Hp.
  - intros ->. eexists. simpl. right. left. reflexivity.
Qed.

(** When a [validate] has been assigned on a trainer built by
    [__init__], [validate_and_save] behaves as a checkpointing rule: after
    the validation passes of any earlier epochs the best metric [b] held
    by the trainer is the best value seen so far (0.0 at the start);
    [validate_and_save] at epoch [e] with [map50 = v] then makes exactly
    the saves of [expected_saves]: the best model is saved if and only if
    [b < v], and the per-epoch checkpoint is saved once more whenever [e]
    is a multiple of 10.  For the sequence 0.10, 0.25, 0.20, 0.30 over
    epochs 0 to 3 the best model is saved at epochs 0, 1 and 3. *)
Lemma validate_and_save_when_assigned :
  forall (model train_dataloader val_dataloader optimizer scheduler scaler loss_fn metrics
            device validate : value)
         (save_dir : string) (grad_clip_val : Q) (visualize : bool) (vis_batch_freq : Z),
    let self0 :=
      Trainer.setattr
        (Trainer.__init__ model train_dataloader val_dataloader optimizer scheduler scaler
                          loss_fn metrics device save_dir grad_clip_val visualize vis_batch_freq)
        "validate" validate in
    (forall (seen : list Q) (v : Q) (e : Z) (w0 : world),
        exists self w b self' w',
          Trainer.validate_epochs self0 0 seen w0 = Ok (self, w)
          /\ Trainer.getattr self "best_map" = Ok (VFloat b)
          /\ best_so_far b seen
          /\ Trainer.validate_and_save self (<["map50" := v]> ∅) e w = Ok (self', w')
          /\ Trainer.getattr self' "best_map" = Ok (VFloat (if Qlt_bool b v then v else b))
          /\ saved w' = saved w ++ expected_saves save_dir b v e
          /\ ((exists ck, In (Trainer.best_path save_dir, ck) (expected_saves save_dir b v e))
              <-> (b < v)%Q)
          /\ ((e mod 10 = 0)%Z ->
              exists ck, last (expected_saves save_dir b v e)
                         = Some (Trainer.checkpoint_path save_dir e, ck))
          /\ ((e mod 10 <> 0)%Z -> ~ (b < v)%Q -> expected_saves save_dir b v e = []))
    /\ (exists self w,
           Trainer.validate_epochs self0 0 [1 # 10; 25 # 100; 2 # 10; 3 # 10]%Q (World ∅ [])
           = Ok (self, w)
           /\ best_epochs save_dir w = [0; 1; 3]%Z
           /\ checkpoint_epochs save_dir w = [0; 0; 1; 3]%Z).
Proof.
  intros model train_dataloader val_dataloader optimizer scheduler scaler loss_fn metrics
         device validate save_dir grad_clip_val visualize vis_batch_freq self0.
  assert (Hr0 : ready self0 0%Q save_dir) by exact (init_ready _ _ _ _ _ _ _ _ _ _ _ _ _ _).
  assert (Hb0 : best_so_far 0%Q []).
  { split; [now left|]. split; [apply Qle_refl|constructor]. }
  split.
  - intros seen v e w0.
    destruct (validate_epochs_ready seen self0 0%Q save_dir 0%Z w0 [] Hr0 Hb0)
      as (self & w & b & Hrun & Hr & Hb & _ & _).
    destruct (validate_and_save_ready self b save_dir (<["map50" := v]> ∅) v e w Hr)
      as (self' & Hstep & Hr'); [by simplify_map_eq|].
    eexists self, w, b, self', _.
    split; [exact Hrun|].
    split; [unfold Trainer.getattr; now rewrite (proj1 Hr)|].
    split; [exact Hb|]. split; [exact Hstep|].
    split; [unfold Trainer.getattr; now rewrite (proj1 Hr')|].
    split; [reflexivity|]. split; [apply best_in_expected_saves|]. split.
    + intros He. apply Z.eqb_eq in He. unfold expected_saves. rewrite He.
      eexists. apply last_snoc.
    + intros He Hlt. apply Z.eqb_neq in He. unfold expected_saves. rewrite He.
      destruct (Qlt_bool b v) eqn:E; [|reflexivity].
      apply Qlt_bool_iff in E. contradiction.
  - destruct (validate_epochs_ready [1 # 10; 25 # 100; 2 # 10; 3 # 10]%Q self0 0%Q save_dir
                0%Z (World ∅ []) [] Hr0 Hb0)
      as (self & w & b & Hrun & _ & _ & _ & Hs).
    exists self, w. split; [exact Hrun|].
    unfold best_epochs, checkpoint_epochs. rewrite Hs.
    change (saved (World ∅ []) ++ expected_run save_dir 0 0 [1 # 10; 25 # 100; 2 # 10; 3 # 10]%Q)
      with [(Trainer.checkpoint_path save_dir 0, Checkpoint 0 (1 # 10));
            (Trainer.best_path save_dir, Checkpoint 0 (1 # 10));
            (Trainer.checkpoint_path save_dir 0, Checkpoint 0 (1 # 10));
            (Trainer.checkpoint_path save_dir 1, Checkpoint 1 (25 # 100));
            (Trainer.best_path save_dir, Checkpoint 1 (25 # 100));
            (Trainer.checkpoint_path save_dir 3, Checkpoint 3 (3 # 10));
            (Trainer.best_path save_dir, Checkpoint 3 (3 # 10))].
    cbn [List.filter fst snd].
    rewrite !eqb_checkpoint_best, !String.eqb_refl.
    split; reflexivity.
Qed.

(** C4, at the failing input: the class defines no [validate], so on a
    trainer built by [__init__] the call [self.validate()] of
    [validate_and_save] raises an attribute error before any comparison:
    no checkpoint is saved at any epoch, whatever the validation would
    give, and in the scenario 0.10, 0.25, 0.20, 0.30 already epoch 0
    raises. *)
Theorem validate_and_save_raises_attribute_error :
  forall (model train_dataloader val_dataloader optimizer scheduler scaler loss_fn metrics
            device : value)
         (save_dir : string) (grad_clip_val : Q) (visualize : bool) (vis_batch_freq : Z)
         (val_metrics : gmap string Q) (epoch : Z) (w : world),
    let self :=
      Trainer.__init__ model train_dataloader val_dataloader optimizer scheduler scaler
                       loss_fn metrics device save_dir grad_clip_val visualize vis_batch_freq in
    Trainer.attrs self !! "validate" = None
    /\ Trainer.validate_and_save self val_metrics epoch w = Raise AttributeError
    /\ Trainer.validate_epochs self 0 [1 # 10; 25 # 100; 2 # 10; 3 # 10]%Q (World ∅ [])
       = Raise AttributeError.
Proof.
  intros model train_dataloader val_dataloader optimizer scheduler scaler loss_fn metrics
         device save_dir grad_clip_val visualize vis_batch_freq val_metrics epoch w self.
  assert (H : Trainer.attrs self !! "validate" = None)
    by exact (init_no_validate _ _ _ _ _ _ _ _ _ _ _ _ _).
  split; [exact H|].
  assert (Hraise : forall vm e w', Trainer.validate_and_save self vm e w' = Raise AttributeError).
  { intros vm e w'. unfold Trainer.validate_and_save, Trainer.getattr. now rewrite H. }
  split; [apply Hraise|].
  cbn [Trainer.validate_epochs]. now rewrite Hraise.
Qed.

Lemma init_grad_clip_val model train_dataloader val_dataloader optimizer scheduler scaler
      loss_fn metrics device save_dir grad_clip_val visualize vis_batch_freq :
  Trainer.attrs (Trainer.__init__ model train_dataloader val_dataloader optimizer scheduler
                   scaler loss_fn metrics device save_dir grad_clip_val visualize
                   vis_batch_freq) !! "grad_clip_val"
  = Some (VFloat grad_clip_val).
Proof. unfold Trainer.__init__; cbn [Trainer.attrs]. by simplify_map_eq. Qed.

Lemma init_scheduler model train_dataloader val_dataloader optimizer scheduler scaler
      loss_fn metrics device save_dir grad_clip_val visualize vis_batch_freq :
  Trainer.attrs (Trainer.__init__ model train_dataloader val_dataloader optimizer scheduler
                   scaler loss_fn metrics device save_dir grad_clip_val visualize
                   vis_batch_freq) !! "scheduler"
  = Some scheduler.
Proof. unfold Trainer.__init__; cbn [Trainer.attrs]. by simplify_map_eq. Qed.

Lemma zero_metrics_keys : has_metric_keys Trainer.zero_metrics.
Proof. unfold has_metric_keys, Trainer.zero_metrics. repeat split; by simplify_map_eq. Qed.

(** C7. For a trainer built by [__init__], the losses handed to the
    backward pass during [train_one_epoch] are, batch by batch and in
    order, [box_loss + 0.5 * dfl_loss + cls_loss + 0.1 * quat_loss] of every
    batch that was processed (the batches before the first failing one). *)
Theorem train_one_epoch_total_loss :
  forall (model train_dataloader val_dataloader optimizer scheduler scaler loss_fn metrics
            device : value)
         (save_dir : string) (grad_clip_val : Q) (visualize : bool) (vis_batch_freq : Z)
         (outcomes : list (result losses)),
    let self :=
      Trainer.__init__ model train_dataloader val_dataloader optimizer scheduler scaler
                       loss_fn metrics device save_dir grad_clip_val visualize vis_batch_freq in
    Forall2
      (fun (passed : Q) (l : losses) =>
         passed = Trainer.total_loss l
         /\ (passed == 1 * box_loss l + (1 # 2) * dfl_loss l + 1 * cls_loss l
                       + (1 # 10) * quat_loss l)%Q)
      (backward_losses (snd (Trainer.train_one_epoch self outcomes)))
      (ok_prefix outcomes).
Proof.
  intros model train_dataloader val_dataloader optimizer scheduler scaler loss_fn metrics
         device save_dir grad_clip_val visualize vis_batch_freq outcomes self.
  assert (Hbl : backward_losses (snd (Trainer.train_one_epoch self outcomes))
                = map Trainer.total_loss (ok_prefix outcomes)).
  { unfold Trainer.train_one_epoch.
    pose proof (train_batches_backward self grad_clip_val scheduler outcomes 0
                  Trainer.zero_metrics
                  (init_grad_clip_val _ _ _ _ _ _ _ _ _ _ _ _ _)
                  (init_scheduler _ _ _ _ _ _ _ _ _ _ _ _ _)
                  zero_metrics_keys) as H.
    destruct (Trainer.train_batches self 0 outcomes Trainer.zero_metrics) as [[m|e] ev].
    - cbn [snd] in H. destruct (length outcomes =? 0); exact H.
    - exact H. }
  rewrite Hbl. clear Hbl.
  induction (ok_prefix outcomes) as [|l ls IH]; simpl; constructor; [|exact IH].
  split; [reflexivity|]. unfold Trainer.total_loss. ring.
Qed.

(** C10, at the failing input: a trainer built by [__init__] has no
    attribute [csv_file], so [_initialize_csv] and [_log_to_csv] raise an
    attribute error and write nothing. *)
Theorem csv_log_raises_attribute_error :
  forall (model train_dataloader val_dataloader optimizer scheduler scaler loss_fn metrics
            device : value)
         (save_dir : string) (grad_clip_val : Q) (visualize : bool) (vis_batch_freq : Z)
         (w : world) (epoch batch total box dfl quat : value),
    let self :=
      Trainer.__init__ model train_dataloader val_dataloader optimizer scheduler scaler
                       loss_fn metrics device save_dir grad_clip_val visualize vis_batch_freq in
    Trainer.attrs self !! "csv_file" = None
    /\ Trainer._initialize_csv self w = Raise AttributeError
    /\ Trainer._log_to_csv self epoch batch total box dfl quat w = Raise AttributeError.
Proof.
  intros. 
  assert (H : Trainer.attrs self !! "csv_file" = None).
  { unfold self, Trainer.__init__; cbn [Trainer.attrs]. by simplify_map_eq. }
  split; [exact H|].
  unfold Trainer._initialize_csv, Trainer._log_to_csv, Trainer.getattr.
  rewrite H. split; reflexivity.
Qed.

(** Once [csv_file] has been assigned, the two methods behave as a CSV
    log: the header row alone after [_initialize_csv], and one more row
    after the rows already there for every [_log_to_csv]. *)
Lemma csv_log_when_assigned self f w rows epoch batch total box dfl quat :
  Trainer.attrs self !! "csv_file" = Some (VStr f) ->
  (exists w1, Trainer._initialize_csv self w = Ok w1
              /\ csv_files w1 !! f = Some [Trainer.csv_header])
  /\ (csv_files w !! f = Some rows ->
      exists w2, Trainer._log_to_csv self epoch batch total box dfl quat w = Ok w2
                 /\ csv_files w2 !! f = Some (rows ++ [[epoch; batch; total; box; dfl; quat]])).
Proof.
  intros Hf. unfold Trainer._initialize_csv, Trainer._log_to_csv, Trainer.getattr.
  rewrite Hf. cbn [rbind Trainer.as_str]. split.
  - eexists. split; [reflexivity|]. cbn [csv_files]. by simplify_map_eq.
  - intros Hrows. rewrite Hrows. eexists. split; [reflexivity|].
    cbn [csv_files default]. by simplify_map_eq.
Qed.

(** ** The data pipeline: the claims *)

Section DataFacts.

Variable generator : Type.
Variable manual_seed : Z -> generator.
Variable randint : Z -> Z -> generator -> Z * generator.
Variable pil_image : Type.
Variable label : Type.
Variable RandomCrop : pil_image -> generator -> pil_image * generator.
Variable RandomHorizontalFlip : pil_image -> generator -> pil_image * generator.
Variable AutoAugment : pil_image -> generator -> pil_image * generator.
Variable ToTensor : pil_image -> Torch.tensor Q.
Variable Normalize : Torch.tensor Q -> Torch.tensor Q.
Variable rng_shuffle : Z -> list nat -> list nat.

Local Abbreviation getitem :=
  (Data.__getitem__ manual_seed randint RandomCrop RandomHorizontalFlip AutoAugment
                    ToTensor Normalize).

(** The length of a training dataset, and the branch by index alone. *)
Lemma len_training (ds : list (pil_image * label)) k seed :
  Data.__len__ (Data.__init__ rng_shuffle ds k true seed) = length ds * k.
Proof. reflexivity. Qed.

Lemma policy_by_index (self : Data.MultiAugmentDataset pil_image label) index :
  Data.augmentations_per_image self <> 0 ->
  Data.policy_of self index
  = Ok (if (index mod Z.of_nat (Data.augmentations_per_image self) =? 0)%Z
        then Weak else Strong).
Proof.
  intros Hk. unfold Data.policy_of. apply Nat.eqb_neq in Hk. rewrite Hk.
  now destruct (_ =? 0)%Z.
Qed.

Lemma count_occ_repeats b k : forall n start,
  count_occ Nat.eq_dec (flat_map (fun idx => repeat idx k) (seq start n)) b
  = if (start <=? b) && (b <? start + n) then k else 0.
Proof.
  induction n as [|n IH]; intros start; simpl.
  - destruct (Nat.leb_spec start b), (Nat.ltb_spec b (start + 0)); simpl; try reflexivity. lia.
  - rewrite count_occ_app, IH.
    assert (Hrep : count_occ Nat.eq_dec (repeat start k) b = if start =? b then k else 0).
    { destruct (Nat.eqb_spec start b) as [->|Hne].
      - apply count_occ_repeat_eq. reflexivity.
      - apply count_occ_repeat_neq. congruence. }
    rewrite Hrep.
    destruct (Nat.eqb_spec start b), (Nat.leb_spec start b), (Nat.leb_spec (S start) b),
      (Nat.ltb_spec b (S start + n)), (Nat.ltb_spec b (start + S n)); simpl; lia.
Qed.

(** When the shuffle permutes its argument, every base sample occurs
    [augmentations_per_image] times among the indices. *)
Lemma indices_count (ds : list (pil_image * label)) k seed b :
  (forall l, Permutation l (rng_shuffle seed l)) ->
  b < length ds ->
  exists idxs,
    Data.indices (Data.__init__ rng_shuffle ds k true seed) = Some idxs
    /\ length idxs = length ds * k
    /\ count_occ Nat.eq_dec idxs b = k.
Proof.
  intros Hperm Hb. eexists. split; [reflexivity|].
  set (l := flat_map (fun idx => repeat idx k) (seq 0 (length ds))).
  assert (Hc : count_occ Nat.eq_dec l b = k).
  { unfold l. rewrite count_occ_repeats.
    destruct (Nat.leb_spec 0 b), (Nat.ltb_spec b (0 + length ds)); simpl; lia. }
  assert (Hl : length l = length ds * k).
  { unfold l. clear. generalize 0. induction (length ds) as [|n IH]; intros s; simpl.
    - reflexivity.
    - now rewrite length_app, repeat_length, IH. }
  split.
  - rewrite <- (Permutation_length (Hperm l)). exact Hl.
  - rewrite <- Hc. symmetry. now apply Permutation_count_occ.
Qed.

(** [__getitem__] does not look at the generator state it is called
    with: the returned sample is the same, and in training mode so is the
    state left behind. *)
Lemma getitem_ignores_generator
      (self : Data.MultiAugmentDataset pil_image label) (index : Z) (g1 g2 : generator) :
  returned (getitem self index g1) = returned (getitem self index g2)
  /\ (Data.train self = false \/ getitem self index g1 = getitem self index g2).
Proof.
  unfold Data.__getitem__.
  destruct (Data.train self).
  - split; [|right]; reflexivity.
  - split; [|now left].
    destruct (py_getitem_z (Data.dataset self) index) as [[image lbl]|e]; reflexivity.
Qed.

(** C9. For a dataset built from a base dataset, a multiplier, a mode and
    a seed, [__getitem__(index)] returns the same transformed image and
    label (or raises the same exception) whatever the state of the global
    generator at the call, hence on every call and in every run; in
    training mode it also leaves the generator in the same state. *)
Theorem getitem_deterministic :
  forall (base : list (pil_image * label)) (augmentations_per_image : nat) (train : bool)
         (seed index : Z) (g1 g2 : generator),
    let self := Data.__init__ rng_shuffle base augmentations_per_image train seed in
    returned (getitem self index g1) = returned (getitem self index g2)
    /\ (train = false \/ getitem self index g1 = getitem self index g2).
Proof.
  intros base k train seed index g1 g2 self.
  exact (getitem_ignores_generator self index g1 g2).
Qed.

End DataFacts.

(** Two reference values of the library for seed 42: the first 32-bit
    output of the generator, and the shuffle of [range(10)]. *)
Example numpy_first_output :
  fst (NumpyRandom.next_uint32 (NumpyRandom.seed 42)) = 1608637542%Z.
Proof. vm_compute. reflexivity. Qed.

Example numpy_shuffle_range10 :
  numpy_shuffle 42 (seq 0 10) = [8; 1; 5; 0; 7; 2; 9; 4; 3; 6].
Proof. vm_compute. reflexivity. Qed.

(** C2, at the failing input: for a base dataset of two samples wrapped
    with [augmentations_per_image = 2] and the default seed 42, the dataset
    has 4 entries and the shuffled indices are [0, 1, 0, 1]; augmented
    indices 0 and 2 take the weak branch and 1 and 3 the strong one, so both
    occurrences of base sample 0 are weak and both occurrences of base
    sample 1 are strong. *)
Theorem weak_policy_not_per_base_sample :
  let self := Data.__init__ numpy_shuffle two_samples 2 true 42 in
  Data.__len__ self = 4
  /\ Data.indices self = Some [0; 1; 0; 1]
  /\ map (Data.policy_of self) [0; 1; 2; 3]%Z = [Ok Weak; Ok Strong; Ok Weak; Ok Strong]
  /\ policies_of_base self 0 = [Ok Weak; Ok Weak]
  /\ policies_of_base self 1 = [Ok Strong; Ok Strong].
Proof. vm_compute. repeat split; reflexivity. Qed.

(** * Further properties of the code *)

(** ** Cutout *)

Section CutoutFacts.

Variable generator : Type.
Variable randint : Z -> Z -> generator -> Z * generator.

Lemma wf_tabulate {A} s (f : list nat -> A) : Torch.wf (Torch.tabulate s f).
Proof. unfold Torch.wf, Torch.tabulate; simpl. now rewrite length_map, length_seq. Qed.

Lemma in_range2_inv a b idx :
  Torch.in_range [a; b] idx -> exists i j, idx = [i; j] /\ i < a /\ j < b.
Proof.
  intros H.
  inversion H as [|? i ? r1 Hi H1]; subst.
  inversion H1 as [|? j ? r2 Hj H2]; subst.
  inversion H2; subst. now exists i, j.
Qed.

Lemma in_range3 a b c i j k :
  i < a -> j < b -> k < c -> Torch.in_range [a; b; c] [i; j; k].
Proof. intros. repeat constructor; assumption. Qed.

(** [img * mask.expand_as(img)] multiplies every channel by the same
    2D mask. *)
Lemma masked_image (img mask : Torch.tensor Q) C h w :
  Torch.shape img = [C; h; w] -> Torch.wf img ->
  Torch.shape mask = [h; w] -> Torch.wf mask ->
  exists m3 out,
    Torch.expand_as mask img = Ok m3
    /\ Torch.mul img m3 = Ok out
    /\ Torch.shape out = [C; h; w]
    /\ forall c i j, c < C -> i < h -> j < w ->
         Torch.get 0%Q out [c; i; j]
         = (Torch.get 0%Q img [c; i; j] * Torch.get 0%Q mask [i; j])%Q.
Proof.
  intros Hs Hwf Hm Hmwf.
  unfold Torch.expand_as, Torch.expand. rewrite Hs, Hm. cbn [length Nat.sub repeat app Torch.shape].
  replace (Torch.expandable [1; h; w] [C; h; w]) with true
    by (simpl; now rewrite !Nat.eqb_refl, orb_true_r).
  eexists. eexists. split; [reflexivity|].
  unfold Torch.mul. cbn [Torch.shape Torch.tabulate]. rewrite Hs, shape_eqb_refl.
  split; [reflexivity|]. split; [reflexivity|].
  intros c i j Hc Hi Hj.
  set (m3 := Torch.tabulate [C; h; w] _).
  assert (Hl3 : length (Torch.storage m3) = Torch.numel [C; h; w]) by apply wf_tabulate.
  assert (Hn : Torch.ravel [C; h; w] [c; i; j] < Torch.numel [C; h; w])
    by (apply ravel_lt, in_range3; assumption).
  unfold Torch.wf in Hwf. rewrite Hs in Hwf.
  unfold Torch.get at 1. cbn [Torch.shape Torch.storage].
  rewrite (nth_map_in _ _ _ _ (0%Q, 0%Q))
    by (rewrite length_combine, Hwf, Hl3; lia).
  rewrite combine_nth by (rewrite Hwf, Hl3; reflexivity).
  cbn [fst snd]. f_equal.
  - unfold Torch.get. now rewrite Hs.
  - change (nth (Torch.ravel [C; h; w] [c; i; j]) (Torch.storage m3) 0%Q)
      with (Torch.get 0%Q m3 [c; i; j]).
    unfold m3. rewrite get_tabulate by (apply in_range3; assumption).
    cbn [Torch.broadcast_index Nat.eqb].
    rewrite !broadcast_one by assumption.
    unfold Torch.get. cbn [Torch.shape Torch.storage]. rewrite Hm. f_equal; simpl; lia.
Qed.

Lemma zero_patch_get h w y1 y2 x1 x2 mask i j :
  i < h -> j < w ->
  Torch.get 0%Q (Data.zero_patch h w y1 y2 x1 x2 mask) [i; j]
  = if ((y1 <=? Z.of_nat i) && (Z.of_nat i <? y2)
        && (x1 <=? Z.of_nat j) && (Z.of_nat j <? x2))%Z
    then 0%Q else Torch.get 0%Q mask [i; j].
Proof.
  intros Hi Hj. unfold Data.zero_patch.
  now rewrite get_tabulate by (repeat constructor; assumption).
Qed.

Lemma zero_patch_binary h w y1 y2 x1 x2 mask :
  binary_mask h w mask -> binary_mask h w (Data.zero_patch h w y1 y2 x1 x2 mask).
Proof.
  intros (Hs & Hwf & Hb). split; [reflexivity|]. split; [apply wf_tabulate|].
  intros i j Hi Hj. rewrite zero_patch_get by assumption.
  destruct (_ && _)%bool; [now left|now apply Hb].
Qed.

Lemma cut_holes_binary len h w : forall n mask g,
  binary_mask h w mask ->
  binary_mask h w (fst (Data.cut_holes generator randint n len h w mask g)).
Proof.
  induction n as [|n IH]; intros mask g Hb; simpl; [exact Hb|].
  destruct (randint 0 (Z.of_nat h) g) as [y g1].
  destruct (randint 0 (Z.of_nat w) g1) as [x g2].
  apply IH, zero_patch_binary, Hb.
Qed.

Lemma ones_binary h w : binary_mask h w (Torch.tabulate [h; w] (fun _ => 1%Q)).
Proof.
  split; [reflexivity|]. split; [apply wf_tabulate|].
  intros i j Hi Hj. right. now rewrite get_tabulate by (repeat constructor; assumption).
Qed.

(** [Cutout.__call__] through its mask: the call succeeds on a 3D image,
    returns the generator state it was given, and the result is the image
    times the mask that [cut_holes] leaves. *)
Lemma Cutout_call_mask self (img : Torch.tensor Q) g C h w :
  Torch.shape img = [C; h; w] -> Torch.wf img ->
  exists out,
    Data.Cutout_call generator randint self img g = Ok (out, g)
    /\ Torch.shape out = [C; h; w]
    /\ forall c i j, c < C -> i < h -> j < w ->
         Torch.get 0%Q out [c; i; j]
         = (Torch.get 0%Q img [c; i; j]
            * Torch.get 0%Q
                (fst (Data.cut_holes generator randint (Data.n_holes self) (Data.length self)
                        h w (Torch.tabulate [h; w] (fun _ => 1%Q)) g)) [i; j])%Q.
Proof.
  intros Hs Hwf. unfold Data.Cutout_call. rewrite Hs. cbn [py_getitem nth_error rbind].
  pose proof (cut_holes_binary (Data.length self) h w (Data.n_holes self)
                (Torch.tabulate [h; w] (fun _ => 1%Q)) g (ones_binary h w)) as Hb.
  destruct (Data.cut_holes generator randint (Data.n_holes self) (Data.length self) h w
              (Torch.tabulate [h; w] (fun _ => 1%Q)) g) as [mask g'].
  cbn [fst] in *. destruct Hb as (Hm & Hmwf & _).
  destruct (masked_image img mask C h w Hs Hwf Hm Hmwf) as (m3 & out & He & Hmul & Ho & Hg).
  rewrite He. cbn [rbind]. rewrite Hmul. cbn [rbind]. exists out. split; [reflexivity|]. split; [exact Ho|exact Hg].
Qed.

(** Whatever the number of holes, [Cutout] keeps the shape of a 3D image,
    leaves the generator in the state it found it in, and changes no
    entry except to zero it; which positions are zeroed does not depend on
    the channel. *)
Theorem Cutout_zeroes_or_keeps :
  forall (self : Data.Cutout) (img : Torch.tensor Q) (g : generator) (C h w : nat),
    Torch.shape img = [C; h; w] -> Torch.wf img ->
    exists out (keep : nat -> nat -> bool),
      Data.Cutout_call generator randint self img g = Ok (out, g)
      /\ Torch.shape out = [C; h; w]
      /\ forall c i j, c < C -> i < h -> j < w ->
           (Torch.get 0%Q out [c; i; j]
            == if keep i j then Torch.get 0%Q img [c; i; j] else 0)%Q.
Proof.
  intros self img g C h w Hs Hwf.
  destruct (Cutout_call_mask self img g C h w Hs Hwf) as (out & Hc & Ho & Hg).
  pose proof (cut_holes_binary (Data.length self) h w (Data.n_holes self)
                (Torch.tabulate [h; w] (fun _ => 1%Q)) g (ones_binary h w)) as (_ & _ & Hb).
  set (mask := fst (Data.cut_holes generator randint (Data.n_holes self) (Data.length self)
                      h w (Torch.tabulate [h; w] (fun _ => 1%Q)) g)) in *.
  exists out, (fun i j => negb (Qeq_bool (Torch.get 0%Q mask [i; j]) 0)).
  split; [exact Hc|]. split; [exact Ho|].
  intros c i j Hc' Hi Hj. rewrite (Hg c i j Hc' Hi Hj).
  destruct (Hb i j Hi Hj) as [-> | ->]; cbn [Qeq_bool negb]; simpl.
  - apply Qmult_0_r.
  - apply Qmult_1_r.
Qed.

(** With one hole, the zeroed entries are exactly those of the rectangle
    [[y1, y2) x [x1, x2)] around the drawn centre [(y, x)], clamped to the
    image, and the rectangle has at most [length] rows and columns. *)
Theorem Cutout_single_hole :
  forall (len : Z) (img : Torch.tensor Q) (g : generator) (C h w : nat),
    Torch.shape img = [C; h; w] -> Torch.wf img -> (0 <= len)%Z ->
    let y := fst (randint 0 (Z.of_nat h) g) in
    let x := fst (randint 0 (Z.of_nat w) (snd (randint 0 (Z.of_nat h) g))) in
    let y1 := Data.clamp (y - len / 2) 0 (Z.of_nat h) in
    let y2 := Data.clamp (y + len / 2) 0 (Z.of_nat h) in
    let x1 := Data.clamp (x - len / 2) 0 (Z.of_nat w) in
    let x2 := Data.clamp (x + len / 2) 0 (Z.of_nat w) in
    exists out,
      Data.Cutout_call generator randint (Data.BuildCutout 1 len) img g = Ok (out, g)
      /\ (forall c i j, c < C -> i < h -> j < w ->
            (Torch.get 0%Q out [c; i; j]
             == if ((y1 <=? Z.of_nat i) && (Z.of_nat i <? y2)
                    && (x1 <=? Z.of_nat j) && (Z.of_nat j <? x2))%Z
                then 0 else Torch.get 0%Q img [c; i; j])%Q)
      /\ (y2 - y1 <= len)%Z /\ (x2 - x1 <= len)%Z.
Proof.
  intros len img g C h w Hs Hwf Hlen y x y1 y2 x1 x2.
  destruct (Cutout_call_mask (Data.BuildCutout 1 len) img g C h w Hs Hwf)
    as (out & Hc & _ & Hg).
  exists out. split; [exact Hc|]. split.
  - intros c i j Hc' Hi Hj. rewrite (Hg c i j Hc' Hi Hj).
    cbn [Data.n_holes Data.length Data.cut_holes].
    subst y x y1 y2 x1 x2.
    destruct (randint 0 (Z.of_nat h) g) as [y g1]. cbn [fst snd].
    destruct (randint 0 (Z.of_nat w) g1) as [x g2].
    cbn [fst snd]. rewrite zero_patch_get by assumption.
    match goal with |- context [if ?b then _ else _] => destruct b end.
    + apply Qmult_0_r.
    + rewrite get_tabulate by (repeat constructor; assumption). apply Qmult_1_r.
  - pose proof (Z.div_pos len 2 Hlen ltac:(lia)) as Hd.
    pose proof (Z.mul_div_le len 2 ltac:(lia)) as Hm.
    subst y1 y2 x1 x2. unfold Data.clamp. split; lia.
Qed.

End CutoutFacts.

Lemma Cutout_zeroes_or_keeps_witness :
  exists out (keep : nat -> nat -> bool),
    Data.Cutout_call nat lowest_draw (Data.BuildCutout 3 16) sample_image 0 = Ok (out, 0)
    /\ Torch.shape out = [1; 2; 2]
    /\ forall c i j, c < 1 -> i < 2 -> j < 2 ->
         (Torch.get 0%Q out [c; i; j]
          == if keep i j then Torch.get 0%Q sample_image [c; i; j] else 0)%Q.
Proof.
  apply (Cutout_zeroes_or_keeps nat lowest_draw (Data.BuildCutout 3 16) sample_image 0 1 2 2);
    reflexivity.
Defined.

Lemma Cutout_single_hole_witness :
  let y := fst (lowest_draw 0 (Z.of_nat 2) 0) in
  let x := fst (lowest_draw 0 (Z.of_nat 2) (snd (lowest_draw 0 (Z.of_nat 2) 0))) in
  let y1 := Data.clamp (y - 2 / 2) 0 (Z.of_nat 2) in
  let y2 := Data.clamp (y + 2 / 2) 0 (Z.of_nat 2) in
  let x1 := Data.clamp (x - 2 / 2) 0 (Z.of_nat 2) in
  let x2 := Data.clamp (x + 2 / 2) 0 (Z.of_nat 2) in
  exists out,
    Data.Cutout_call nat lowest_draw (Data.BuildCutout 1 2) sample_image 0 = Ok (out, 0)
    /\ (forall c i j, c < 1 -> i < 2 -> j < 2 ->
          (Torch.get 0%Q out [c; i; j]
           == if ((y1 <=? Z.of_nat i) && (Z.of_nat i <? y2)
                  && (x1 <=? Z.of_nat j) && (Z.of_nat j <? x2))%Z
              then 0 else Torch.get 0%Q sample_image [c; i; j])%Q)
    /\ (y2 - y1 <= 2)%Z /\ (x2 - x1 <= 2)%Z.
Proof.
  apply (Cutout_single_hole nat lowest_draw 2%Z sample_image 0 1 2 2);
    [reflexivity | reflexivity | lia].
Defined.

(** ** The shuffle and the valid indices of the dataset *)

Section ShuffleFacts.
Import NumpyRandom.

Lemma mask_of_nonneg max : (0 <= mask_of max)%Z.
Proof.
  unfold mask_of. rewrite Z.ones_equiv.
  pose proof (Z.log2_nonneg max).
  assert (0 < 2 ^ (Z.log2 max + 1))%Z by (apply Z.pow_pos_nonneg; lia). lia.
Qed.

Lemma random_interval_bound : forall fuel max st j st',
  (0 <= max)%Z -> random_interval fuel max st = Some (j, st') -> (0 <= j <= max)%Z.
Proof.
  induction fuel as [|fuel IH]; intros max st j st' Hmax; cbn [random_interval].
  - destruct (Z.eqb_spec max 0) as [->|]; [|discriminate]. intros [= <- _]. lia.
  - destruct (Z.eqb_spec max 0) as [->|Hne]; [intros [= <- _]; lia|].
    destruct (next_uint32 st) as [r st1].
    destruct (Z.leb_spec (Z.land r (mask_of max)) max) as [Hle|Hgt].
    + intros [= <- _]. split; [|exact Hle].
      apply Z.land_nonneg. right. apply mask_of_nonneg.
    + apply IH. exact Hmax.
Qed.

Lemma swap_permutation (x : list nat) i j :
  i < length x -> j < length x ->
  Permutation x (<[j := nth i x 0]> (<[i := nth j x 0]> x)).
Proof.
  intros Hi Hj. apply Permutation_inj. split; [now rewrite !length_insert|].
  exists (fun k => if decide (k = i) then j else if decide (k = j) then i else k).
  split.
  - intros a b. repeat case_decide; subst; congruence.
  - intros k. rewrite !nth_lookup.
    destruct (lookup_lt_is_Some_2 x i Hi) as [xi Exi].
    destruct (lookup_lt_is_Some_2 x j Hj) as [xj Exj].
    rewrite Exi, Exj. cbn [default].
    repeat case_decide; subst.
    + rewrite list_lookup_insert_eq by (now rewrite length_insert). exact Exi.
    + destruct (decide (i = j)) as [->|Hne].
      * rewrite list_lookup_insert_eq by (now rewrite length_insert). congruence.
      * rewrite list_lookup_insert_ne by congruence.
        rewrite list_lookup_insert_eq by assumption. exact Exj.
    + rewrite !list_lookup_insert_ne by congruence. reflexivity.
Qed.

Lemma shuffle_from_permutation : forall i x st x',
  i < length x -> shuffle_from i x st = Some x' -> Permutation x x'.
Proof.
  induction i as [|i IH]; intros x st x' Hi; cbn [shuffle_from].
  - intros [= <-]. reflexivity.
  - destruct (random_interval 64 (Z.of_nat (S i)) st) as [[j st']|] eqn:E; [|discriminate].
    apply random_interval_bound in E; [|lia].
    intros H. apply IH in H; [|rewrite !length_insert; lia].
    etransitivity; [|exact H]. apply swap_permutation; lia.
Qed.

End ShuffleFacts.

Lemma numpy_shuffle_permutes seed l : Permutation l (numpy_shuffle seed l).
Proof.
  unfold numpy_shuffle, NumpyRandom.shuffle.
  destruct (NumpyRandom.shuffle_from _ _ _) as [l'|] eqn:E; [|reflexivity].
  destruct l as [|a l]; [cbn in E; now injection E as <-|].
  eapply shuffle_from_permutation; [|exact E]. cbn. lia.
Qed.

(** For a seed that the numerical library accepts, the shuffled index
    list of a training dataset has [__len__] entries and holds every base
    index exactly [augmentations_per_image] times, and nothing else. *)
Theorem shuffled_indices_count :
  forall (pil_image label : Type) (base : list (pil_image * label)) (k : nat) (seed : Z),
    (0 <= seed < 2 ^ 32)%Z ->
    exists idxs,
      Data.indices (Data.__init__ numpy_shuffle base k true seed) = Some idxs
      /\ length idxs = Data.__len__ (Data.__init__ numpy_shuffle base k true seed)
      /\ forall b, count_occ Nat.eq_dec idxs b = if b <? length base then k else 0.
Proof.
  intros pil_image label base k seed _.
  set (L := flat_map (fun idx => repeat idx k) (seq 0 (length base))).
  pose proof (numpy_shuffle_permutes seed L) as Hperm.
  exists (numpy_shuffle seed L). split; [reflexivity|]. split.
  - rewrite <- (Permutation_length Hperm). unfold Data.__len__.
    cbn [Data.train Data.__init__ Data.dataset Data.augmentations_per_image].
    unfold L. clear.
    generalize 0. induction (length base) as [|m IH]; intros s; simpl; [reflexivity|].
    now rewrite length_app, repeat_length, IH.
  - intros b.
    rewrite <- (proj1 (Permutation_count_occ Nat.eq_dec L (numpy_shuffle seed L)) Hperm b).
    unfold L. rewrite count_occ_repeats. now rewrite Nat.add_0_l.
Qed.

Lemma shuffled_indices_count_witness :
  exists idxs,
    Data.indices (Data.__init__ numpy_shuffle two_samples 2 true 42) = Some idxs
    /\ length idxs = Data.__len__ (Data.__init__ numpy_shuffle two_samples 2 true 42)
    /\ forall b, count_occ Nat.eq_dec idxs b = if b <? length two_samples then 2 else 0.
Proof. apply (shuffled_indices_count nat nat two_samples 2 42). lia. Defined.

Section DatasetFacts.

Variable generator : Type.
Variable manual_seed : Z -> generator.
Variable randint : Z -> Z -> generator -> Z * generator.
Variable pil_image : Type.
Variable label : Type.
Variable RandomCrop : pil_image -> generator -> pil_image * generator.
Variable RandomHorizontalFlip : pil_image -> generator -> pil_image * generator.
Variable AutoAugment : pil_image -> generator -> pil_image * generator.
Variable ToTensor : pil_image -> Torch.tensor Q.
Variable Normalize : Torch.tensor Q -> Torch.tensor Q.

Lemma repeats_below k : forall n start,
  Forall (fun i => i < start + n) (flat_map (fun idx => repeat idx k) (seq start n)).
Proof.
  induction n as [|n IH]; intros start; cbn [seq flat_map]; [constructor|].
  apply Forall_app. split.
  - apply List.Forall_forall. intros i Hi. apply repeat_spec in Hi. lia.
  - eapply List.Forall_impl; [|apply (IH (S start))]. cbn beta. intros; lia.
Qed.

Lemma py_getitem_z_range {A} (l : list A) (i : Z) :
  let n := Z.of_nat (length l) in
  ((- n <= i < n)%Z ->
   exists a, py_getitem_z l i = Ok a /\ nth_error l (Z.to_nat (i mod n)) = Some a)
  /\ (~ (- n <= i < n)%Z -> py_getitem_z l i = Raise IndexError).
Proof.
  intros n. unfold py_getitem_z, py_getitem. fold n. split.
  - intros Hi. destruct (Z.leb_spec 0 i) as [H0|H0].
    + rewrite Z.mod_small by lia.
      destruct (nth_error l (Z.to_nat i)) as [a|] eqn:E; [now exists a|].
      apply nth_error_None in E. lia.
    + destruct (Z.leb_spec (- n) i) as [H1|H1]; [|lia].
      replace (i mod n)%Z with (n + i)%Z.
      2:{ apply Z.mod_unique with (-1)%Z; lia. }
      destruct (nth_error l (Z.to_nat (n + i))) as [a|] eqn:E; [now exists a|].
      apply nth_error_None in E. lia.
  - intros Hi. destruct (Z.leb_spec 0 i) as [H0|H0].
    + destruct (nth_error l (Z.to_nat i)) as [a|] eqn:E; [|reflexivity].
      assert (Z.to_nat i < length l) by (apply nth_error_Some; congruence). lia.
    + destruct (Z.leb_spec (- n) i) as [H1|H1]; [lia|reflexivity].
Qed.


Local Abbreviation getitem :=
  (Data.__getitem__ manual_seed randint RandomCrop RandomHorizontalFlip AutoAugment
                    ToTensor Normalize).

Hypothesis image_3d :
  forall image, exists C h w,
    Torch.shape (Normalize (ToTensor image)) = [C; h; w]
    /\ Torch.wf (Normalize (ToTensor image)).

Lemma transforms_ok pol image g :
  exists t g',
    match pol with
    | Weak => Data.weak_transform generator pil_image RandomCrop RandomHorizontalFlip
                ToTensor Normalize image g
    | Strong => Data.strong_transform generator randint pil_image RandomCrop
                  RandomHorizontalFlip AutoAugment ToTensor Normalize image g
    end = Ok (t, g').
Proof.
  destruct pol.
  - unfold Data.weak_transform.
    destruct (RandomCrop image g) as [i1 g1]. destruct (RandomHorizontalFlip i1 g1) as [i2 g2].
    eexists. eexists. reflexivity.
  - unfold Data.strong_transform.
    destruct (RandomCrop image g) as [i1 g1]. destruct (RandomHorizontalFlip i1 g1) as [i2 g2].
    destruct (AutoAugment i2 g2) as [i3 g3].
    destruct (image_3d i3) as (C & h & w & Hs & Hwf).
    destruct (Cutout_call_mask generator randint (Data.BuildCutout 1 16) _ g3 C h w Hs Hwf)
      as (out & E & _).
    eexists. eexists. exact E.
Qed.

(** The valid indices of a dataset are those of a Python sequence of
    [__len__] entries, in both modes: for an index from [-len] to [len - 1]
    [__getitem__] returns a transformed image with the label of a base
    sample (in test mode the sample at that index, untransformed by any
    random draw), and for any other index it raises an index error. *)
Theorem getitem_valid_indices :
  forall (base : list (pil_image * label)) (k : nat) (train : bool) (seed index : Z)
         (g : generator),
    k <> 0 -> (0 <= seed < 2 ^ 32)%Z ->
    let self := Data.__init__ numpy_shuffle base k train seed in
    let n := Z.of_nat (Data.__len__ self) in
    ((- n <= index < n)%Z ->
     exists t lbl g' real_idx image,
       getitem self index g = Ok ((t, lbl), g')
       /\ nth_error base real_idx = Some (image, lbl)
       /\ (train = true ->
           exists idxs, Data.indices self = Some idxs
                        /\ nth_error idxs (Z.to_nat (index mod n)) = Some real_idx)
       /\ (train = false ->
           real_idx = Z.to_nat (index mod n)
           /\ t = Data.test_transform pil_image ToTensor Normalize image /\ g' = g))
    /\ (~ (- n <= index < n)%Z -> getitem self index g = Raise IndexError).
Proof.
  intros base k train seed index g Hk Hseed self n.
  unfold Data.__getitem__. subst self n. unfold Data.__len__.
  cbn [Data.train Data.indices Data.dataset Data.augmentations_per_image Data.__init__].
  destruct train.
  - set (L := flat_map (fun idx => repeat idx k) (seq 0 (length base))).
    pose proof (numpy_shuffle_permutes seed L) as Hperm.
    assert (Hlen : length (numpy_shuffle seed L) = length base * k).
    { rewrite <- (Permutation_length Hperm). unfold L. clear.
      generalize 0. induction (length base) as [|m IH]; intros s; simpl; [reflexivity|].
      now rewrite length_app, repeat_length, IH. }
    destruct (py_getitem_z_range (numpy_shuffle seed L) index) as [Hin Hout].
    rewrite Hlen in Hin, Hout. cbn [rbind]. split.
    + intros Hi. destruct (Hin Hi) as (real_idx & E & Hnth). rewrite E. cbn [rbind].
      assert (Hreal : real_idx < length base).
      { pose proof (repeats_below k (length base) 0) as Hall. fold L in Hall.
        eapply Permutation_Forall in Hall; [|exact Hperm].
        rewrite List.Forall_forall in Hall. apply Hall.
        eapply nth_error_In. exact Hnth. }
      unfold py_getitem.
      destruct (nth_error base real_idx) as [[image lbl]|] eqn:Eb;
        [|apply nth_error_None in Eb; lia].
      cbn [rbind]. unfold Data.policy_of.
      cbn [Data.augmentations_per_image Data.__init__].
      apply Nat.eqb_neq in Hk. rewrite Hk.
      set (pol := if (index mod Z.of_nat k =? 0)%Z then Weak else Strong).
      replace (if (index mod Z.of_nat k =? 0)%Z then Ok Weak else Ok Strong)
        with (Ok (A := policy) pol) by (unfold pol; now destruct (_ =? 0)%Z).
      cbn [rbind].
      destruct (transforms_ok pol image (manual_seed index)) as (t & g' & Et).
      rewrite Et. cbn [rbind fst snd].
      exists t, lbl, g', real_idx, image.
      split; [reflexivity|]. split; [exact Eb|]. split; [|discriminate].
      intros _. eexists. split; [reflexivity|exact Hnth].
    + intros Hi. now rewrite (Hout Hi).
  - destruct (py_getitem_z_range base index) as [Hin Hout]. split.
    + intros Hi. destruct (Hin Hi) as ([image lbl] & E & Hnth). rewrite E. cbn [rbind].
      eexists _, lbl, g, _, image.
      split; [reflexivity|]. split; [exact Hnth|]. split; [discriminate|].
      intros _. repeat split; reflexivity.
    + intros Hi. now rewrite (Hout Hi).
Qed.

End DatasetFacts.

Lemma getitem_valid_indices_witness :
  let self := Data.__init__ numpy_shuffle two_samples 2 true 42 in
  let n := Z.of_nat (Data.__len__ self) in
  ((- n <= -1 < n)%Z ->
   exists t lbl g' real_idx image,
     Data.__getitem__ Z.to_nat lowest_draw pair pair pair constant_image (fun t => t)
                      self (-1) 0
     = Ok ((t, lbl), g')
     /\ nth_error two_samples real_idx = Some (image, lbl)
     /\ (true = true ->
         exists idxs, Data.indices self = Some idxs
                      /\ nth_error idxs (Z.to_nat (-1 mod n)) = Some real_idx)
     /\ (true = false ->
         real_idx = Z.to_nat (-1 mod n)
         /\ t = Data.test_transform nat constant_image (fun t => t) image /\ g' = 0))
  /\ (~ (- n <= -1 < n)%Z ->
      Data.__getitem__ Z.to_nat lowest_draw pair pair pair constant_image (fun t => t)
                       self (-1) 0
      = Raise IndexError).
Proof.
  apply (getitem_valid_indices nat Z.to_nat lowest_draw nat nat pair pair pair
           constant_image (fun t => t)).
  - intros image. exists 1, 2, 2. split; reflexivity.
  - lia.
  - lia.
Defined.

(** ** MetricsLogger *)

Section MetricsFacts.

Lemma assoc_not_in {V} (k : string) (items : list (string * V)) :
  ~ In k (map fst items) -> assoc k items = None.
Proof.
  induction items as [|[k' v] rest IH]; simpl; intros Hn; [reflexivity|].
  destruct (String.eqb_spec k' k) as [->|Hne]; [exfalso; apply Hn; now left|].
  apply IH. intros H. apply Hn. now right.
Qed.

Lemma update_save_dir self items :
  MetricsLogger.save_dir (MetricsLogger.update self items) = MetricsLogger.save_dir self.
Proof.
  revert self. induction items as [|kv rest IH]; intros self; [reflexivity|].
  unfold MetricsLogger.update in *. cbn [fold_left]. rewrite IH.
  now destruct (MetricsLogger.metrics self !! fst kv).
Qed.

Lemma update_lookup_items (items : list (string * Q)) (k : string) :
  forall self : MetricsLogger.t,
    List.NoDup (map fst items) ->
    MetricsLogger.metrics (MetricsLogger.update self items) !! k
    = match MetricsLogger.metrics self !! k with
      | None => None
      | Some l => Some (match assoc k items with
                        | Some v => l ++ [v]
                        | None => l
                        end)
      end.
Proof.
  induction items as [|[k0 v0] rest IH]; intros self Hnd.
  - cbn. now destruct (MetricsLogger.metrics self !! k).
  - inversion Hnd as [|? ? Hnotin Hnd']; subst.
    unfold MetricsLogger.update in *. cbn [fold_left fst snd].
    rewrite IH by exact Hnd'. cbn [assoc].
    destruct (String.eqb_spec k0 k) as [->|Hne].
    + rewrite (assoc_not_in k rest Hnotin).
      destruct (MetricsLogger.metrics self !! k) as [l|] eqn:E; cbn [MetricsLogger.metrics].
      * now rewrite lookup_insert_eq.
      * now rewrite E.
    + destruct (MetricsLogger.metrics self !! k0) as [l0|] eqn:E0; cbn [MetricsLogger.metrics].
      * now rewrite lookup_insert_ne by exact Hne.
      * reflexivity.
Qed.

(** [update] never adds or removes a metric; a metric that the
    dictionary mentions gets its value appended, every other one is left
    as it is. *)
Theorem MetricsLogger_update_lookup :
  forall (self : MetricsLogger.t) (epoch_metrics : list (string * Q)) (k : string),
    List.NoDup (map fst epoch_metrics) ->
    MetricsLogger.metrics (MetricsLogger.update self epoch_metrics) !! k
    = match MetricsLogger.metrics self !! k with
      | None => None
      | Some l => Some (match assoc k epoch_metrics with
                        | Some v => l ++ [v]
                        | None => l
                        end)
      end.
Proof. intros self items k Hnd. exact (update_lookup_items items k self Hnd). Qed.

Lemma MetricsLogger_update_lookup_witness :
  MetricsLogger.metrics
    (MetricsLogger.update (MetricsLogger.__init__ "out") [("train_acc", 1 # 2); ("lr", 1 # 10)])
    !! "train_acc"
  = match MetricsLogger.metrics (MetricsLogger.__init__ "out") !! "train_acc" with
    | None => None
    | Some l => Some (match assoc "train_acc" [("train_acc", 1 # 2); ("lr", 1 # 10)] with
                      | Some v => l ++ [v]
                      | None => l
                      end)
    end.
Proof.
  apply (MetricsLogger_update_lookup (MetricsLogger.__init__ "out")
           [("train_acc", 1 # 2); ("lr", 1 # 10)] "train_acc").
  repeat constructor; simpl; intuition discriminate.
Defined.

Lemma main_epoch_metrics_nodup r : List.NoDup (map fst (main_epoch_metrics r)).
Proof.
  destruct r as [[[a b] c] d]. cbn.
  repeat constructor; simpl; intuition discriminate.
Qed.

Lemma logger_steps dir : forall history lg l1 l2 l3 l4 l5 l6,
  MetricsLogger.save_dir lg = dir ->
  MetricsLogger.metrics lg !! "train_acc" = Some l1 ->
  MetricsLogger.metrics lg !! "test_acc" = Some l2 ->
  MetricsLogger.metrics lg !! "train_loss" = Some l3 ->
  MetricsLogger.metrics lg !! "test_loss" = Some l4 ->
  MetricsLogger.metrics lg !! "train_reg_loss" = Some l5 ->
  MetricsLogger.metrics lg !! "test_reg_loss" = Some l6 ->
  let lg' := fold_left (fun lg r => MetricsLogger.update lg (main_epoch_metrics r)) history lg in
  MetricsLogger.metrics lg' !! "train_acc" = Some (l1 ++ map (fun r => fst (fst (fst r))) history)
  /\ MetricsLogger.metrics lg' !! "test_acc" = Some (l2 ++ map (fun r => snd (fst (fst r))) history)
  /\ MetricsLogger.metrics lg' !! "train_loss" = Some (l3 ++ map (fun r => snd (fst r)) history)
  /\ MetricsLogger.metrics lg' !! "test_loss" = Some (l4 ++ map (fun r => snd r) history)
  /\ MetricsLogger.metrics lg' !! "train_reg_loss" = Some l5
  /\ MetricsLogger.metrics lg' !! "test_reg_loss" = Some l6.
Proof.
  induction history as [|r rest IH]; intros lg l1 l2 l3 l4 l5 l6 Hd H1 H2 H3 H4 H5 H6.
  - cbn. rewrite !app_nil_r. now repeat split.
  - cbn [fold_left map].
    pose proof (main_epoch_metrics_nodup r) as Hnd.
    specialize (IH (MetricsLogger.update lg (main_epoch_metrics r))
                   (l1 ++ [fst (fst (fst r))]) (l2 ++ [snd (fst (fst r))])
                   (l3 ++ [snd (fst r)]) (l4 ++ [snd r]) l5 l6).
    rewrite <- !app_assoc in IH. cbn [app] in IH.
    apply IH; clear IH;
      try (rewrite update_lookup_items by exact Hnd);
      try (rewrite update_save_dir; exact Hd);
      destruct r as [[[a b] c] d];
      rewrite ?H1, ?H2, ?H3, ?H4, ?H5, ?H6; reflexivity.
Qed.

(** After any number of epochs of [main], the four plotted series hold
    the results of the epochs in order, the two regularisation series are
    still empty, and [plot] goes through with one point per epoch. *)
Theorem main_metrics_history :
  forall (save_dir : string) (history : list (Q * Q * Q * Q)),
    let lg := logger_after save_dir history in
    MetricsLogger.metrics lg !! "train_acc" = Some (map (fun r => fst (fst (fst r))) history)
    /\ MetricsLogger.metrics lg !! "test_acc" = Some (map (fun r => snd (fst (fst r))) history)
    /\ MetricsLogger.metrics lg !! "train_loss" = Some (map (fun r => snd (fst r)) history)
    /\ MetricsLogger.metrics lg !! "test_loss" = Some (map (fun r => snd r) history)
    /\ MetricsLogger.metrics lg !! "train_reg_loss" = Some []
    /\ MetricsLogger.metrics lg !! "test_reg_loss" = Some []
    /\ MetricsLogger.plot lg = Ok (length history).
Proof.
  intros save_dir history lg.
  destruct (logger_steps save_dir history (MetricsLogger.__init__ save_dir) [] [] [] [] [] []
              eq_refl eq_refl eq_refl eq_refl eq_refl eq_refl eq_refl)
    as (H1 & H2 & H3 & H4 & H5 & H6).
  cbn [app] in *. fold (logger_after save_dir history) in *. fold lg in H1, H2, H3, H4, H5, H6.
  repeat (split; [assumption|]).
  unfold MetricsLogger.plot. rewrite H1, H2, H3, H4. cbn [rbind].
  rewrite !length_map, Nat.eqb_refl. reflexivity.
Qed.

End MetricsFacts.

(** ** L1 regularisation *)

Section L1Facts.

Lemma Qsum_abs_nonneg (l : list Q) : (0 <= Torch.Qsum (map Qabs l))%Q.
Proof.
  induction l as [|a l IH]; simpl; [apply Qle_refl|].
  rewrite <- (Qplus_0_r 0). apply Qplus_le_compat; [apply Qabs_nonneg|exact IH].
Qed.

Lemma l1_fold_nonneg : forall ps acc,
  (0 <= acc)%Q ->
  (0 <= fold_left
          (fun l1_reg np =>
             if negb (contains "bias" (fst np))
             then (l1_reg + L1Regularization.abs_sum (snd np))%Q else l1_reg)
          ps acc)%Q.
Proof.
  induction ps as [|np ps IH]; intros acc Hacc; simpl; [exact Hacc|].
  apply IH. destruct (negb _); [|exact Hacc].
  rewrite <- (Qplus_0_r 0). apply Qplus_le_compat; [exact Hacc|apply Qsum_abs_nonneg].
Qed.

(** A parameter whose name contains "bias" adds nothing to the penalty,
    wherever it stands among the parameters and whatever its values. *)
Theorem L1_skips_bias :
  forall (self : L1Regularization.t) (before after : list (string * Torch.tensor Q))
         (name : string) (param : Torch.tensor Q),
    contains "bias" name = true ->
    L1Regularization.__call__ self (before ++ (name, param) :: after)
    = L1Regularization.__call__ self (before ++ after).
Proof.
  intros self before after name param Hb. unfold L1Regularization.__call__.
  rewrite !fold_left_app. cbn [fold_left fst snd]. now rewrite Hb.
Qed.

Lemma L1_skips_bias_witness :
  L1Regularization.__call__ (L1Regularization.Build (1 # 100000))
    ([("conv1.weight", Torch.Tensor [2] [1; -2]%Q)]
       ++ ("conv1.bias", Torch.Tensor [1] [5]%Q) :: [("fc.weight", Torch.Tensor [1] [-3]%Q)])
  = L1Regularization.__call__ (L1Regularization.Build (1 # 100000))
      ([("conv1.weight", Torch.Tensor [2] [1; -2]%Q)] ++ [("fc.weight", Torch.Tensor [1] [-3]%Q)]).
Proof. apply L1_skips_bias. reflexivity. Defined.

(** With a non-negative coefficient the penalty is never negative. *)
Theorem L1_nonneg :
  forall (self : L1Regularization.t) (named_parameters : list (string * Torch.tensor Q)),
    (0 <= L1Regularization.l1_lambda self)%Q ->
    (0 <= L1Regularization.__call__ self named_parameters)%Q.
Proof.
  intros self ps Hl. unfold L1Regularization.__call__.
  apply Qmult_le_0_compat; [exact Hl|]. apply l1_fold_nonneg, Qle_refl.
Qed.

Lemma L1_nonneg_witness :
  (0 <= L1Regularization.__call__ (L1Regularization.Build (1 # 100000))
          [("conv1.weight", Torch.Tensor [2%nat] [1; -2])])%Q.
Proof. apply L1_nonneg. discriminate. Defined.

End L1Facts.

(** ** Seeding *)

(** [seed_worker] succeeds for every initial seed and gives the three
    generators the same seed, which lies in [[0, 2^32)]; [set_random_seeds]
    passes its seed on unchanged and so succeeds exactly for the seeds in
    that range: any other seed is refused by the numerical library with a
    value error, or already by the tensor library with a runtime error. *)
Theorem seed_worker_in_range :
  forall initial_seed : Z,
    (exists sd,
        seed_worker initial_seed = Ok sd
        /\ random_seed sd = (initial_seed mod 2 ^ 32)%Z
        /\ torch_seed sd = random_seed sd
        /\ np_state sd = NumpyRandom.seed (random_seed sd)
        /\ (0 <= random_seed sd < 2 ^ 32)%Z)
    /\ ((exists sd, set_random_seeds initial_seed = Ok sd) <-> (0 <= initial_seed < 2 ^ 32)%Z)
    /\ (~ (0 <= initial_seed < 2 ^ 32)%Z ->
        set_random_seeds initial_seed
        = Raise (if torch_seed_in_range initial_seed then ValueError else RuntimeError)).
Proof.
  intros s.
  assert (Hr : (0 <= s mod 2 ^ 32 < 2 ^ 32)%Z) by (apply Z.mod_pos_bound; reflexivity).
  assert (Hin : (0 <= s < 2 ^ 32)%Z -> torch_seed_in_range s = true).
  { intros H. unfold torch_seed_in_range.
    apply andb_true_intro; split; [apply Z.leb_le|apply Z.ltb_lt]; lia. }
  assert (Hnp : forall z, (0 <= z < 2 ^ 32)%Z <-> ((0 <=? z)%Z && (z <? 2 ^ 32)%Z) = true).
  { intros z. rewrite andb_true_iff, Z.leb_le, Z.ltb_lt. reflexivity. }
  split; [|split].
  - unfold seed_worker, NumpyRandom.checked_seed.
    rewrite (proj1 (Hnp _) Hr).
    eexists. split; [reflexivity|]. cbn [random_seed torch_seed np_state].
    repeat split; lia.
  - unfold set_random_seeds, NumpyRandom.checked_seed. split.
    + intros [sd H]. apply Hnp.
      destruct (torch_seed_in_range s); [|discriminate H]. cbn [negb] in H.
      destruct ((0 <=? s)%Z && (s <? 2 ^ 32)%Z); [reflexivity|discriminate H].
    + intros H. rewrite (Hin H), (proj1 (Hnp _) H). eexists. reflexivity.
  - intros H. unfold set_random_seeds, NumpyRandom.checked_seed.
    destruct (torch_seed_in_range s); [|reflexivity]. cbn [negb].
    destruct ((0 <=? s)%Z && (s <? 2 ^ 32)%Z) eqn:E; [|reflexivity].
    apply Hnp in E. contradiction.
Qed.

(** ** The interrupt handler *)

Section InterruptFacts.

Import Interrupt.

(** Whatever is bound and whatever raises, the handler ends with
    [sys.exit(0)] and exits nowhere else; it tries to close the writer
    exactly when the writer is bound, and to save the checkpoint exactly
    when model and optimizer are bound, however the earlier blocks went;
    but when closing [pbar] raises, the two other progress bars of the same
    block are not closed. *)
Theorem interrupt_cleanup_guards :
  forall (globals : gset string) (raises : action -> bool),
    let ev := handle_keyboard_interrupt globals raises in
    (exists pre, ev = pre ++ [SysExit 0] /\ forall c, ~ In (SysExit c) pre)
    /\ (In (Attempt CloseWriter) ev <-> "writer" ∈ globals)
    /\ (In (Attempt SaveCheckpoint) ev <-> "model" ∈ globals /\ "optimizer" ∈ globals)
    /\ ("pbar" ∈ globals -> raises ClosePbar = true ->
        ~ In (Attempt CloseTrainPbar) ev /\ ~ In (Attempt CloseTestPbar) ev).
Proof.
  intros globals raises ev. subst ev. unfold handle_keyboard_interrupt, guarded.
  repeat (cbn [negb andb app fst snd];
          first [ case_bool_decide
                | match goal with
                  | |- context [if negb (negb (raises ?a)) then _ else _] =>
                      destruct (raises a) eqn:?
                  | |- context [if negb (raises ?a) then _ else _] =>
                      destruct (raises a) eqn:?
                  end ]);
    cbn [negb andb app fst snd];
    (split;
     [ match goal with
       | |- exists pre, ?l = pre ++ _ /\ _ => exists (removelast l)
       end;
       split; [reflexivity | cbn; intros c Hin; intuition discriminate]
     | cbn; intuition (discriminate || congruence || auto) ]).
Qed.

End InterruptFacts.

(** ** The plain ResNet34 *)

Section ResNetFacts.

Lemma chain_identity_blocks c n start :
  chain c (map (fun _ => BasicBlock.__init__ c c 1) (seq start n)) = Some c.
Proof.
  revert start. induction n as [|n IH]; intros start; simpl; [reflexivity|].
  now rewrite Nat.eqb_refl.
Qed.

(** [_make_layer] always builds at least one block; the blocks fit
    together, from [in_channels] to [out_channels]; only the first block
    has a projection shortcut, and it has one exactly when it changes the
    stride or the number of channels.  The four stages of the network fit
    together as well and end with the 512 channels the linear layer
    expects. *)
Theorem ResNet34_layers_fit :
  forall in_channels out_channels blocks stride : nat,
    let layer := ResNet34._make_layer in_channels out_channels blocks stride in
    length layer = Nat.max 1 blocks
    /\ chain in_channels layer = Some out_channels
    /\ Forall (fun b => BasicBlock.shortcut b = BasicBlock.IdentityShortcut
                        /\ BasicBlock.stride b = 1)
              (tl layer)
    /\ (BasicBlock.shortcut (hd (BasicBlock.__init__ 0 0 1) layer) = BasicBlock.IdentityShortcut
        <-> stride = 1 /\ in_channels = out_channels)
    /\ chain 64 (ResNet34.layer1 ResNet34.__init__ ++ ResNet34.layer2 ResNet34.__init__
                 ++ ResNet34.layer3 ResNet34.__init__ ++ ResNet34.layer4 ResNet34.__init__)
       = Some (ResNet34.fc_in_features ResNet34.__init__).
Proof.
  intros i o blocks stride layer. subst layer. unfold ResNet34._make_layer.
  split; [cbn [length]; rewrite length_map, length_seq; lia|].
  split; [cbn [chain BasicBlock.__init__ BasicBlock.in_channels BasicBlock.out_channels];
          rewrite Nat.eqb_refl; apply chain_identity_blocks|].
  split.
  { cbn [tl]. apply List.Forall_forall. intros b Hb. apply in_map_iff in Hb as (? & <- & _).
    unfold BasicBlock.__init__. cbn. now rewrite Nat.eqb_refl. }
  split; [|reflexivity].
  cbn [hd]. unfold BasicBlock.__init__. cbn [BasicBlock.shortcut].
  destruct (Nat.eqb_spec stride 1), (Nat.eqb_spec i o); cbn; split;
    try discriminate; intuition congruence.
Qed.

End ResNetFacts.

(** ** The classification loop *)

Section EvaluateFacts.

Lemma max1_ok rows :
  Forall (fun row => row <> []) rows ->
  exists ps, max1 rows = Ok ps /\ length ps = length rows.
Proof.
  induction 1 as [|row rest Hrow _ IH]; [now exists []|].
  destruct IH as (ps & E & Hl). destruct row as [|a row]; [contradiction|].
  cbn [max1 argmax rbind]. rewrite E. cbn [rbind].
  eexists. split; [reflexivity|]. cbn [length]. now rewrite Hl.
Qed.

Lemma hits_le ps ts : hits ps ts <= length ts.
Proof.
  unfold hits. etransitivity; [apply List.filter_length_le|].
  rewrite length_combine. lia.
Qed.

Lemma update_sums_ok b L c t :
  consistent b -> c <= t ->
  exists c',
    update_sums b (L, c, t) = Ok ((L + loss b)%Q, c', t + length (targets b))
    /\ c' <= t + length (targets b).
Proof.
  intros [Hlen Hrows] Hc. unfold update_sums.
  destruct (max1_ok _ Hrows) as (ps & E & Hl). rewrite E. cbn [rbind].
  unfold count_eq. rewrite Hl, Hlen, Nat.eqb_refl. cbn [rbind].
  eexists. split; [reflexivity|].
  pose proof (hits_le ps (targets b)). lia.
Qed.

Lemma evaluate_loop_sums : forall batches L c t,
  Forall consistent batches -> c <= t ->
  exists L' c',
    evaluate_loop batches (L, c, t) = Ok (L', c', t + total_targets batches)
    /\ c' <= t + total_targets batches
    /\ (L' == L + Torch.Qsum (map loss batches))%Q.
Proof.
  induction batches as [|b rest IH]; intros L c t Hall Hc.
  - exists L, c. cbn. rewrite Nat.add_0_r. split; [reflexivity|]. split; [exact Hc|].
    unfold Torch.Qsum; cbn. now rewrite Qplus_0_r.
  - inversion Hall as [|? ? Hb Hrest]; subst.
    destruct (update_sums_ok b L c t Hb Hc) as (cb & Ecb & Hcb).
    cbn [evaluate_loop]. rewrite Ecb. cbn [rbind].
    destruct (IH (L + loss b)%Q cb (t + length (targets b)) Hrest Hcb)
      as (L' & c' & E & Hc' & HL).
    exists L', c'. cbn [total_targets fold_right]. fold (total_targets rest).
    rewrite Nat.add_assoc. split; [exact E|]. split; [exact Hc'|].
    rewrite HL. unfold Torch.Qsum. cbn [map fold_right]. ring.
Qed.

Lemma Qnat_pos n : 0 < n -> (0 < Torch.Qnat n)%Q.
Proof.
  intros H. unfold Torch.Qnat. change 0%Q with (inject_Z 0).
  rewrite <- Zlt_Qlt. lia.
Qed.

Lemma Qnat_le a b : a <= b -> (Torch.Qnat a <= Torch.Qnat b)%Q.
Proof. intros H. unfold Torch.Qnat. rewrite <- Zle_Qle. lia. Qed.

Lemma py_div_pos a b : (0 < b)%Q -> py_div a b = Ok (a / b)%Q.
Proof.
  intros H. unfold py_div. destruct (Qeq_bool b 0) eqn:E; [|reflexivity].
  apply Qeq_bool_iff in E. rewrite E in H. discriminate H.
Qed.

Lemma evaluate_returns batches :
  Forall consistent batches -> 0 < total_targets batches ->
  exists r, evaluate batches = Ok r.
Proof.
  intros Hall Htot.
  destruct (evaluate_loop_sums batches 0%Q 0 0 Hall (le_n 0)) as (L & c & E & _).
  cbn [Nat.add] in *.
  assert (Hlen : 0 < length batches).
  { destruct batches; [cbn in Htot; lia|cbn; lia]. }
  unfold evaluate. rewrite E. cbn [rbind].
  rewrite (py_div_pos _ _ (Qnat_pos _ Hlen)). cbn [rbind].
  rewrite (py_div_pos _ _ (Qnat_pos _ Htot)). cbn [rbind].
  eexists. reflexivity.
Qed.

(** On a loader with at least one target, whose batches have one
    non-empty row of scores per target, [evaluate] returns the mean loss
    per batch and an accuracy between 0 and 100. *)
Theorem evaluate_mean_and_accuracy :
  forall batches : list batch_result,
    Forall consistent batches -> 0 < total_targets batches ->
    exists avg accuracy,
      evaluate batches = Ok (avg, accuracy)
      /\ (avg == Torch.Qsum (map loss batches) / Torch.Qnat (length batches))%Q
      /\ (0 <= accuracy)%Q /\ (accuracy <= 100)%Q.
Proof.
  intros batches Hall Htot.
  destruct (evaluate_loop_sums batches 0%Q 0 0 Hall (le_n 0)) as (L & c & E & Hc & HL).
  cbn [Nat.add] in *.
  assert (Hlen : 0 < length batches).
  { destruct batches; [cbn in Htot; lia|cbn; lia]. }
  unfold evaluate. rewrite E. cbn [rbind].
  rewrite (py_div_pos _ _ (Qnat_pos _ Hlen)). cbn [rbind].
  rewrite (py_div_pos _ _ (Qnat_pos _ Htot)). cbn [rbind].
  eexists. eexists. split; [reflexivity|].
  pose proof (Qnat_pos _ Htot) as Hpos.
  split; [|split].
  - rewrite HL. now rewrite Qplus_0_l.
  - apply Qle_shift_div_l; [exact Hpos|]. rewrite Qmult_0_l.
    apply Qmult_le_0_compat; [discriminate|].
    change 0%Q with (Torch.Qnat 0). apply Qnat_le. lia.
  - apply Qle_shift_div_r; [exact Hpos|].
    apply Qmult_le_l; [reflexivity|]. now apply Qnat_le.
Qed.

Lemma evaluate_mean_and_accuracy_witness :
  exists avg accuracy,
    evaluate [batch_a; batch_empty; batch_b] = Ok (avg, accuracy)
    /\ (avg == Torch.Qsum (map loss [batch_a; batch_empty; batch_b])
               / Torch.Qnat (length [batch_a; batch_empty; batch_b]))%Q
    /\ (0 <= accuracy)%Q /\ (accuracy <= 100)%Q.
Proof.
  apply (evaluate_mean_and_accuracy [batch_a; batch_empty; batch_b]).
  - repeat constructor; try reflexivity; discriminate.
  - cbn. lia.
Defined.

(** Without any target (an empty loader, or only empty batches)
    [evaluate] raises a division by zero. *)
Theorem evaluate_no_targets :
  forall batches : list batch_result,
    Forall consistent batches -> total_targets batches = 0 ->
    evaluate batches = Raise ZeroDivisionError.
Proof.
  intros batches Hall Htot.
  destruct (evaluate_loop_sums batches 0%Q 0 0 Hall (le_n 0)) as (L & c & E & Hc & HL).
  cbn [Nat.add] in *. rewrite Htot in *.
  unfold evaluate. rewrite E. cbn [rbind].
  unfold py_div at 1. destruct (Qeq_bool (Torch.Qnat (length batches)) 0); reflexivity.
Qed.

Lemma evaluate_no_targets_witness :
  evaluate [batch_empty; batch_empty] = Raise ZeroDivisionError.
Proof.
  apply (evaluate_no_targets [batch_empty; batch_empty]).
  - repeat constructor.
  - reflexivity.
Defined.

Lemma train_epoch_loop_sums : forall batches L c t,
  Forall consistent batches -> Forall (fun b => targets b <> []) batches ->
  train_epoch_loop batches (L, c, t) = evaluate_loop batches (L, c, t).
Proof.
  induction batches as [|b rest IH]; intros L c t Hall Hne; [reflexivity|].
  inversion Hall as [|? ? Hb Hrest]; subst. inversion Hne as [|? ? Hnb Hnrest]; subst.
  cbn [train_epoch_loop evaluate_loop].
  destruct (update_sums b (L, c, t)) as [[[L' c'] t']|e] eqn:E; [|reflexivity].
  cbn [rbind fst snd].
  assert (Ht : 0 < t').
  { unfold update_sums in E.
    destruct (max1 (outputs b)) as [ps|]; [|discriminate E]. cbn [rbind] in E.
    destruct (count_eq ps (targets b)); [|discriminate E]. cbn [rbind] in E.
    injection E as _ _ <-. destruct (targets b); [contradiction|cbn; lia]. }
  rewrite (py_div_pos _ _ (Qnat_pos _ Ht)). cbn [rbind]. now apply IH.
Qed.

(** On a loader whose batches all have at least one target, [train_epoch]
    returns the statistics that [evaluate] returns for the same batch
    results. *)
Theorem train_epoch_agrees_with_evaluate :
  forall batches : list batch_result,
    Forall consistent batches -> Forall (fun b => targets b <> []) batches ->
    train_epoch batches = evaluate batches.
Proof.
  intros batches Hall Hne. unfold train_epoch, evaluate.
  now rewrite train_epoch_loop_sums.
Qed.

Lemma train_epoch_agrees_with_evaluate_witness :
  train_epoch [batch_a; batch_b] = evaluate [batch_a; batch_b].
Proof.
  apply (train_epoch_agrees_with_evaluate [batch_a; batch_b]).
  - repeat constructor; try reflexivity; discriminate.
  - repeat constructor; discriminate.
Defined.

(** A first batch without samples makes [train_epoch] raise a division by
    zero inside the loop, whatever follows; [evaluate] divides only after
    the loop and so still returns when a later batch has targets. *)
Theorem train_epoch_empty_first_batch :
  forall (b : batch_result) (rest : list batch_result),
    consistent b -> targets b = [] ->
    train_epoch (b :: rest) = Raise ZeroDivisionError
    /\ (Forall consistent rest -> 0 < total_targets rest ->
        exists r, evaluate (b :: rest) = Ok r).
Proof.
  intros b rest Hb Hnil. split.
  - unfold train_epoch. cbn [train_epoch_loop].
    destruct (update_sums_ok b 0%Q 0 0 Hb (le_n 0)) as (c & E & Hc).
    rewrite E. cbn [rbind fst snd]. rewrite Hnil. cbn [length Nat.add].
    reflexivity.
  - intros Hrest Htot.
    apply evaluate_returns.
    + now constructor.
    + cbn [total_targets fold_right]. fold (total_targets rest). lia.
Qed.

Lemma train_epoch_empty_first_batch_witness :
  train_epoch (batch_empty :: [batch_a]) = Raise ZeroDivisionError
  /\ (Forall consistent [batch_a] -> 0 < total_targets [batch_a] ->
      exists r, evaluate (batch_empty :: [batch_a]) = Ok r).
Proof.
  apply (train_epoch_empty_first_batch batch_empty [batch_a]).
  - split; [reflexivity|constructor].
  - reflexivity.
Defined.

End EvaluateFacts.

(** ** The trainer: checkpoint files, epochs and the best model *)

Section CheckpointFacts.

Lemma append_length (s t : string) : String.length (s +:+ t) = String.length s + String.length t.
Proof. induction s as [|a s IH]; simpl; [reflexivity|]. now rewrite IH. Qed.

Lemma append_inj_r (t : string) : forall x y : string, x +:+ t = y +:+ t -> x = y.
Proof.
  induction x as [|a x IH]; intros [|b y] H.
  - reflexivity.
  - apply (f_equal String.length) in H.
    change (String b y +:+ t) with (String b (y +:+ t)) in H.
    cbn [String.length] in H. rewrite !append_length in H. cbn [String.length] in H. lia.
  - apply (f_equal String.length) in H.
    change (String a x +:+ t) with (String a (x +:+ t)) in H.
    cbn [String.length] in H. rewrite !append_length in H. cbn [String.length] in H. lia.
  - cbn in H. injection H as -> H. f_equal. now apply IH.
Qed.

(** The per-epoch checkpoint files of different epochs are different
    files, so no epoch overwrites the checkpoint of another one, and none
    of them is the file of the best model. *)
Theorem checkpoint_paths_distinct :
  forall (save_dir : string) (e1 e2 : Z),
    e1 <> e2 ->
    Trainer.checkpoint_path save_dir e1 <> Trainer.checkpoint_path save_dir e2
    /\ Trainer.checkpoint_path save_dir e1 <> Trainer.best_path save_dir.
Proof.
  intros d e1 e2 Hne. split; [|apply checkpoint_path_not_best].
  unfold Trainer.checkpoint_path. intros H.
  apply path_join_inj in H. apply (append_inj_l "checkpoint_epoch_") in H.
  apply append_inj_r in H. apply Hne. exact (pretty_Z_inj _ _ H).
Qed.

End CheckpointFacts.

Lemma checkpoint_paths_distinct_witness :
  Trainer.checkpoint_path "runs" 10 <> Trainer.checkpoint_path "runs" 20
  /\ Trainer.checkpoint_path "runs" 10 <> Trainer.best_path "runs".
Proof. apply (checkpoint_paths_distinct "runs" 10 20). lia. Defined.

Section EpochFacts.

Variables (self : Trainer.t) (clip : Q) (sch : value).
Hypothesis Hclip : Trainer.attrs self !! "grad_clip_val" = Some (VFloat clip).
Hypothesis Hsch : Trainer.attrs self !! "scheduler" = Some sch.

Lemma update_metrics_sums l m t b d c q :
  metric_sums m t b d c q ->
  exists m', Trainer.update_metrics l m = Ok m'
             /\ metric_sums m' (t + Trainer.total_loss l) (b + box_loss l) (d + dfl_loss l)
                               (c + cls_loss l) (q + quat_loss l).
Proof.
  intros (Ht & Hb & Hd & Hc & Hq).
  unfold Trainer.update_metrics, Trainer.add_metric.
  rewrite Ht. cbn [rbind].
  rewrite lookup_insert_ne by discriminate. rewrite Hb. cbn [rbind].
  rewrite !lookup_insert_ne by discriminate. rewrite Hd. cbn [rbind].
  rewrite !lookup_insert_ne by discriminate. rewrite Hc. cbn [rbind].
  rewrite !lookup_insert_ne by discriminate. rewrite Hq.
  eexists. split; [reflexivity|].
  unfold metric_sums. repeat split; by simplify_map_eq.
Qed.

Lemma train_batch_ok l m :
  Trainer.train_batch self (Ok l) m
  = (Trainer.update_metrics l m,
     [EmptyCache; ZeroGrad; Backward (Trainer.total_loss l)]
       ++ (if Qlt_bool 0 clip then [Unscale; ClipGradNorm clip] else [])
       ++ [ScalerStep; ScalerUpdate]
       ++ match sch with VNone => [] | _ => [SchedulerStep] end).
Proof.
  unfold Trainer.train_batch, Trainer.getattr. rewrite Hclip, Hsch.
  cbn [rbind Trainer.as_float]. reflexivity.
Qed.

Lemma train_batches_sums : forall ls i m t b d c q,
  metric_sums m t b d c q ->
  exists m' ev t' b' d' c' q',
    Trainer.train_batches self i (map Ok ls) m = (Ok m', ev)
    /\ metric_sums m' t' b' d' c' q'
    /\ (t' == t + Torch.Qsum (map Trainer.total_loss ls))%Q
    /\ (b' == b + Torch.Qsum (map box_loss ls))%Q
    /\ (d' == d + Torch.Qsum (map dfl_loss ls))%Q
    /\ (c' == c + Torch.Qsum (map cls_loss ls))%Q
    /\ (q' == q + Torch.Qsum (map quat_loss ls))%Q.
Proof.
  induction ls as [|l ls IH]; intros i m t b d c q Hm.
  - exists m, [], t, b, d, c, q. split; [reflexivity|]. split; [exact Hm|].
    unfold Torch.Qsum. cbn. rewrite !Qplus_0_r. repeat split; reflexivity.
  - cbn [map Trainer.train_batches]. rewrite train_batch_ok.
    destruct (update_metrics_sums l m t b d c q Hm) as (m1 & -> & Hm1).
    destruct (IH (S i) m1 _ _ _ _ _ Hm1)
      as (m' & ev & t' & b' & d' & c' & q' & -> & Hm' & Ht & Hb & Hd & Hc & Hq).
    eexists m', _, t', b', d', c', q'. split; [reflexivity|]. split; [exact Hm'|].
    unfold Torch.Qsum in *. cbn [map fold_right].
    rewrite Ht, Hb, Hd, Hc, Hq. repeat split; ring.
Qed.

Lemma zero_metric_sums : metric_sums Trainer.zero_metrics 0 0 0 0 0.
Proof. unfold metric_sums, Trainer.zero_metrics. repeat split; by simplify_map_eq. Qed.

Lemma Qsum_total ls :
  (Torch.Qsum (map Trainer.total_loss ls)
   == Torch.Qsum (map box_loss ls) + (1 # 2) * Torch.Qsum (map dfl_loss ls)
      + Torch.Qsum (map cls_loss ls) + (1 # 10) * Torch.Qsum (map quat_loss ls))%Q.
Proof.
  unfold Torch.Qsum. induction ls as [|l ls IH]; cbn [map fold_right]; [reflexivity|].
  rewrite IH. unfold Trainer.total_loss. ring.
Qed.

Lemma count_events_app p ev ev' :
  count_events p (ev ++ ev') = count_events p ev + count_events p ev'.
Proof. unfold count_events. now rewrite List.filter_app, length_app. Qed.

End EpochFacts.

Section EpochOfInit.

Variables model train_dataloader val_dataloader optimizer scheduler scaler loss_fn metrics
          device : value.
Variables (save_dir : string) (grad_clip_val : Q) (visualize : bool) (vis_batch_freq : Z).

Local Abbreviation self0 :=
  (Trainer.__init__ model train_dataloader val_dataloader optimizer scheduler scaler
                    loss_fn metrics device save_dir grad_clip_val visualize vis_batch_freq).

(** When every batch of a non-empty loader yields its losses,
    [train_one_epoch] returns the five sums divided by the number of
    batches, and the returned total is the weighted sum of the returned
    components; on an empty loader it raises a division by zero. *)
Theorem train_one_epoch_averages :
  forall (l : losses) (ls : list losses),
    let batches := l :: ls in
    let n := Torch.Qnat (length batches) in
    (exists m t b d c q,
        fst (Trainer.train_one_epoch self0 (map Ok batches)) = Ok m
        /\ metric_sums m t b d c q
        /\ (t == Torch.Qsum (map Trainer.total_loss batches) / n)%Q
        /\ (b == Torch.Qsum (map box_loss batches) / n)%Q
        /\ (d == Torch.Qsum (map dfl_loss batches) / n)%Q
        /\ (c == Torch.Qsum (map cls_loss batches) / n)%Q
        /\ (q == Torch.Qsum (map quat_loss batches) / n)%Q
        /\ (t == b + (1 # 2) * d + c + (1 # 10) * q)%Q)
    /\ Trainer.train_one_epoch self0 [] = (Raise ZeroDivisionError, []).
Proof.
  intros l ls batches n. split; [|reflexivity].
  destruct (train_batches_sums self0 grad_clip_val scheduler
              (init_grad_clip_val _ _ _ _ _ _ _ _ _ _ _ _ _)
              (init_scheduler _ _ _ _ _ _ _ _ _ _ _ _ _)
              batches 0 Trainer.zero_metrics 0 0 0 0 0 zero_metric_sums)
    as (m & ev & t & b & d & c & q & E & (Ht & Hb & Hd & Hc & Hq) & St & Sb & Sd & Sc & Sq).
  unfold Trainer.train_one_epoch. rewrite E. rewrite length_map.
  cbn [length Nat.eqb snd].
  change (inject_Z (Z.of_nat (S (length ls)))) with n.
  exists ((fun v => (v / n)%Q) <$> m), (t / n)%Q, (b / n)%Q, (d / n)%Q, (c / n)%Q, (q / n)%Q.
  split; [reflexivity|]. split.
  { unfold metric_sums. rewrite !lookup_fmap, Ht, Hb, Hd, Hc, Hq. repeat split; reflexivity. }
  rewrite Qplus_0_l in St, Sb, Sd, Sc, Sq.
  assert (Hn : ~ (n == 0)%Q).
  { unfold n, Torch.Qnat. intros H. apply (Qeq_bool_iff _ _) in H. discriminate H. }
  rewrite St, Sb, Sd, Sc, Sq. repeat (split; [reflexivity|]).
  rewrite Qsum_total. field. exact Hn.
Qed.

End EpochOfInit.

(** ** An epoch in which any call of the try block may raise *)

Section RunFacts.

Variables (self : Trainer.t) (clip : Q) (sch : value).
Hypothesis Hclip : Trainer.attrs self !! "grad_clip_val" = Some (VFloat clip).
Hypothesis Hsch : Trainer.attrs self !! "scheduler" = Some sch.

(** [train_batch] is [train_batch_run] on the runs in which no call
    other than the forward pass and the loss function raises. *)
Lemma train_batch_as_run l0 idx o m :
  Trainer.train_batch_run self idx (Trainer.run_of l0 o) m = Trainer.train_batch self o m.
Proof.
  unfold Trainer.train_batch_run, Trainer.train_batch, Trainer.getattr.
  rewrite Hclip, Hsch. cbn [rbind Trainer.as_float].
  destruct o as [l|e]; [|reflexivity].
  unfold Trainer.call_then, Trainer.raises_at. cbn [Trainer.run_of Trainer.run_raises Trainer.run_losses fst snd app].
  destruct (Qlt_bool 0 clip), sch, (Trainer.update_metrics l m), (idx mod 10 =? 0);
    reflexivity.
Qed.

Lemma train_batches_as_run l0 : forall outcomes idx m,
  Trainer.train_batches_run self idx (map (Trainer.run_of l0) outcomes) m
  = Trainer.train_batches self idx outcomes m.
Proof.
  induction outcomes as [|o rest IH]; intros idx m; [reflexivity|].
  cbn [map Trainer.train_batches_run Trainer.train_batches].
  rewrite train_batch_as_run.
  destruct (Trainer.train_batch self o m) as [[m'|e] ev]; [|reflexivity].
  now rewrite IH.
Qed.

(** With the running sums in place, the [try] block is the list of
    calls of [batch_calls] made in order. *)
Lemma train_batch_run_calls idx r m m' :
  Trainer.update_metrics (Trainer.run_losses r) m = Ok m' ->
  Trainer.train_batch_run self idx r m
  = run_calls r (batch_calls clip sch idx (Trainer.run_losses r)) m'.
Proof.
  intros Hm'. unfold Trainer.train_batch_run, Trainer.getattr, batch_calls.
  rewrite Hclip, Hsch, Hm'. cbn [rbind Trainer.as_float].
  destruct (Qlt_bool 0 clip), sch, (idx mod 10 =? 0); reflexivity.
Qed.

Lemma batch_calls_events idx r :
  concat (map snd (batch_calls clip sch idx (Trainer.run_losses r))) = batch_events clip sch r.
Proof.
  unfold batch_calls, batch_events.
  destruct (Qlt_bool 0 clip), sch, (idx mod 10 =? 0); reflexivity.
Qed.

Lemma call_eqb_eq a b : Trainer.call_eqb a b = true <-> a = b.
Proof. destruct a, b; cbn; split; congruence. Qed.

Lemma run_calls_pass r m : forall calls,
  (forall c, In c (map fst calls) -> Trainer.raises_at r c = None) ->
  run_calls r calls m = (Ok m, concat (map snd calls)).
Proof.
  induction calls as [|[c ev] rest IH]; intros Hno; [reflexivity|].
  cbn [run_calls map concat snd]. unfold Trainer.call_then.
  rewrite (Hno c) by (now left).
  rewrite IH by (intros c' Hc'; apply Hno; now right). reflexivity.
Qed.


(** A batch in which no call raises leaves the whole trace of a batch
    and the updated sums. *)
Lemma train_batch_run_pass idx r m :
  has_metric_keys m -> run_exception clip sch idx r = None ->
  exists m',
    Trainer.train_batch_run self idx r m = (Ok m', batch_events clip sch r)
    /\ has_metric_keys m'.
Proof.
  intros Hk Hnone.
  destruct (update_metrics_keys (Trainer.run_losses r) m Hk) as (m' & Hm' & Hk').
  exists m'. split; [|exact Hk'].
  rewrite (train_batch_run_calls idx r m m' Hm'), <- (batch_calls_events idx r).
  apply run_calls_pass. intros c Hc. unfold Trainer.raises_at.
  unfold run_exception in Hnone.
  destruct (Trainer.run_raises r) as [[c0 e]|]; [|reflexivity].
  destruct (Trainer.call_eqb c c0) eqn:Ec; [|reflexivity].
  apply call_eqb_eq in Ec. subst c0.
  assert (Hex : existsb (Trainer.call_eqb c)
                  (map fst (batch_calls clip sch idx (Trainer.run_losses r))) = true).
  { apply existsb_exists. exists c. split; [exact Hc|now apply call_eqb_eq]. }
  rewrite Hex in Hnone. discriminate Hnone.
Qed.


Lemma train_batches_run_pass : forall runs idx m,
  has_metric_keys m -> all_pass clip sch idx runs = true ->
  exists m',
    Trainer.train_batches_run self idx runs m = (Ok m', concat (map (batch_events clip sch) runs))
    /\ has_metric_keys m'.
Proof.
  induction runs as [|r rest IH]; intros idx m Hk Hall.
  - exists m. split; [reflexivity|exact Hk].
  - cbn [all_pass] in Hall.
    destruct (run_exception clip sch idx r) eqn:Er; [discriminate Hall|].
    destruct (train_batch_run_pass idx r m Hk Er) as (m1 & E1 & Hk1).
    destruct (IH (S idx) m1 Hk1 Hall) as (m' & E & Hk').
    exists m'. split; [|exact Hk'].
    cbn [Trainer.train_batches_run map concat]. now rewrite E1, E.
Qed.


End RunFacts.

Section RunOfInit.

Variables model train_dataloader val_dataloader optimizer scheduler scaler loss_fn metrics
          device : value.
Variables (save_dir : string) (grad_clip_val : Q) (visualize : bool) (vis_batch_freq : Z).

Local Abbreviation self0 :=
  (Trainer.__init__ model train_dataloader val_dataloader optimizer scheduler scaler
                    loss_fn metrics device save_dir grad_clip_val visualize vis_batch_freq).

(** [train_one_epoch] on the outcomes of the forward passes is
    [train_one_epoch_run] on the runs in which no other call raises. *)
Lemma train_one_epoch_as_run (l0 : losses) (outcomes : list (result losses)) :
  Trainer.train_one_epoch_run self0 (map (Trainer.run_of l0) outcomes)
  = Trainer.train_one_epoch self0 outcomes.
Proof.
  unfold Trainer.train_one_epoch_run, Trainer.train_one_epoch.
  rewrite (train_batches_as_run self0 grad_clip_val scheduler
             (init_grad_clip_val _ _ _ _ _ _ _ _ _ _ _ _ _)
             (init_scheduler _ _ _ _ _ _ _ _ _ _ _ _ _)).
  now rewrite length_map.
Qed.


(** In an epoch in which no call raises, every batch leaves its whole
    trace: the loss is handed to [backward] and the optimizer is stepped
    once per batch, the gradients are clipped once per batch when
    [grad_clip_val > 0] and never otherwise, and the scheduler is stepped
    once per batch unless it is [None]. *)
Theorem train_one_epoch_steps :
  forall runs : list Trainer.batch_run,
    all_pass grad_clip_val scheduler 0 runs = true ->
    let ev := snd (Trainer.train_one_epoch_run self0 runs) in
    let n := length runs in
    ev = concat (map (batch_events grad_clip_val scheduler) runs)
    /\ backward_losses ev = map (fun r => Trainer.total_loss (Trainer.run_losses r)) runs
    /\ count_events is_backward ev = n
    /\ count_events is_scaler_step ev = n
    /\ count_events is_zero_grad ev = n
    /\ count_events is_clip ev = (if Qlt_bool 0 grad_clip_val then n else 0)
    /\ count_events is_scheduler_step ev = match scheduler with VNone => 0 | _ => n end.
Proof.
  intros runs Hall ev n.
  destruct (train_batches_run_pass self0 grad_clip_val scheduler
              (init_grad_clip_val _ _ _ _ _ _ _ _ _ _ _ _ _)
              (init_scheduler _ _ _ _ _ _ _ _ _ _ _ _ _)
              runs 0 Trainer.zero_metrics zero_metrics_keys Hall)
    as (m' & E & _).
  assert (Hev : ev = concat (map (batch_events grad_clip_val scheduler) runs)).
  { subst ev. unfold Trainer.train_one_epoch_run. rewrite E.
    now destruct (length runs =? 0). }
  split; [exact Hev|]. rewrite Hev. subst n. clear.
  induction runs as [|r runs (I0 & I1 & I2 & I3 & I4 & I5)];
    [now destruct (Qlt_bool 0 grad_clip_val), scheduler|].
  cbn [map concat length].
  rewrite backward_losses_app, !count_events_app, I0, I1, I2, I3, I4, I5.
  unfold batch_events.
  destruct (Qlt_bool 0 grad_clip_val), scheduler; cbn; repeat split; reflexivity.
Qed.

End RunOfInit.


Lemma train_one_epoch_steps_witness :
  let runs := [Trainer.BatchRun sample_losses None; Trainer.BatchRun sample_losses None] in
  let ev :=
    snd (Trainer.train_one_epoch_run
           (Trainer.__init__ (VObject "model") (VObject "train") (VObject "val") (VObject "opt")
              VNone (VObject "scaler") (VObject "loss") (VObject "metrics") (VStr "cpu")
              "runs" (1 # 2) true 100)
           runs) in
  let n := length runs in
  ev = concat (map (batch_events (1 # 2) VNone) runs)
  /\ backward_losses ev = map (fun r => Trainer.total_loss (Trainer.run_losses r)) runs
  /\ count_events is_backward ev = n
  /\ count_events is_scaler_step ev = n
  /\ count_events is_zero_grad ev = n
  /\ count_events is_clip ev = (if Qlt_bool 0 (1 # 2) then n else 0)
  /\ count_events is_scheduler_step ev = match VNone with VNone => 0 | _ => n end.
Proof.
  apply (train_one_epoch_steps
           (VObject "model") (VObject "train") (VObject "val") (VObject "opt")
           VNone (VObject "scaler") (VObject "loss") (VObject "metrics") (VStr "cpu")
           "runs" (1 # 2) true 100
           [Trainer.BatchRun sample_losses None; Trainer.BatchRun sample_losses None]).
  reflexivity.
Defined.

Section BestEpochFacts.

Lemma validate_and_save_best_epoch self b d e0 v e w :
  ready self b d -> Trainer.attrs self !! "best_epoch" = Some (VInt e0) ->
  exists self',
    Trainer.validate_and_save self (<["map50" := v]> ∅) e w
    = Ok (self', World (csv_files w) (saved w ++ expected_saves d b v e))
    /\ ready self' (if Qlt_bool b v then v else b) d
    /\ Trainer.attrs self' !! "best_epoch" = Some (VInt (if Qlt_bool b v then e else e0)).
Proof.
  intros Hr He0.
  unfold Trainer.validate_and_save, expected_saves.
  destruct (proj2 (proj2 (proj2 (proj2 (proj2 (proj2 Hr)))))) as [fv Hfv].
  unfold Trainer.getattr at 1. rewrite Hfv. cbn [rbind].
  rewrite lookup_insert_eq. cbn [rbind].
  destruct Hr as (Hb & Hr'). pose proof (conj Hb Hr') as Hr.
  unfold Trainer.getattr at 1. rewrite Hb. cbn [rbind Trainer.as_float].
  destruct w as [cf sv].
  destruct (Qlt_bool b v) eqn:Hlt.
  - pose proof (setattr_best_ready self b d v e Hr) as Hr2.
    rewrite (save_checkpoint_ready _ v d e true _ Hr2). cbn [rbind].
    destruct (e mod 10 =? 0)%Z.
    + rewrite (save_checkpoint_ready _ v d e false _ Hr2). cbn [rbind csv_files saved].
      eexists. split; [|split; [exact Hr2|]].
      * rewrite <- !app_assoc. reflexivity.
      * unfold Trainer.setattr. cbn [Trainer.attrs]. now rewrite lookup_insert_eq.
    + eexists. split; [|split; [exact Hr2|]].
      * cbn [csv_files saved]. rewrite app_nil_r. reflexivity.
      * unfold Trainer.setattr. cbn [Trainer.attrs]. now rewrite lookup_insert_eq.
  - cbn [rbind]. destruct (e mod 10 =? 0)%Z.
    + rewrite (save_checkpoint_ready _ b d e false _ Hr). cbn [rbind].
      eexists. split; [|split; [exact Hr|exact He0]]. reflexivity.
    + eexists. split; [|split; [exact Hr|exact He0]]. cbn [csv_files saved app].
      rewrite app_nil_r. reflexivity.
Qed.

Lemma best_file_step d cf sv b v e :
  best_file d (World cf (sv ++ expected_saves d b v e))
  = if Qlt_bool b v then Some (Checkpoint e v) else best_file d (World cf sv).
Proof.
  unfold best_file, expected_saves. cbn [saved].
  rewrite !List.filter_app.
  destruct (Qlt_bool b v), (e mod 10 =? 0)%Z; cbn [List.filter fst snd app];
    rewrite ?eqb_checkpoint_best, ?String.eqb_refl; cbn [app];
    rewrite ?app_nil_r; try reflexivity.
  - rewrite map_app. cbn [map snd]. apply last_snoc.
  - rewrite map_app. cbn [map snd]. apply last_snoc.
Qed.

Lemma best_inv_step d w0 w self seen v :
  best_inv d w0 w self seen ->
  exists self' w',
    Trainer.validate_and_save self (<["map50" := v]> ∅) (Z.of_nat (length seen)) w
    = Ok (self', w')
    /\ best_inv d w0 w' self' (seen ++ [v]).
Proof.
  intros (b & e0 & Hr & He0 & Hbest & Hcase).
  destruct (validate_and_save_best_epoch self b d e0 v (Z.of_nat (length seen)) w Hr He0)
    as (self' & E & Hr' & He').
  eexists self', _. split; [exact E|].
  exists (if Qlt_bool b v then v else b), (if Qlt_bool b v then Z.of_nat (length seen) else e0).
  split; [exact Hr'|]. split; [exact He'|].
  split; [now apply best_so_far_step|].
  destruct w as [cf sv]. cbn [csv_files saved]. rewrite best_file_step.
  destruct (Qlt_bool b v) eqn:Hlt.
  - right. apply Qlt_bool_iff in Hlt.
    destruct Hbest as (_ & H0 & Hall).
    split; [apply Qle_lt_trans with b; assumption|]. split; [lia|].
    rewrite Nat2Z.id. split; [|split; [|reflexivity]].
    + rewrite nth_error_app2 by lia. now rewrite Nat.sub_diag.
    + rewrite firstn_app, Nat.sub_diag, firstn_all. cbn [firstn]. rewrite app_nil_r.
      eapply List.Forall_impl; [|exact Hall]. intros a Ha.
      apply Qle_lt_trans with b; assumption.
  - destruct Hcase as [(-> & -> & Hf)|(Hpos & He & Hnth & Hlt' & Hf)].
    + left. repeat split; assumption.
    + right. split; [exact Hpos|]. split; [exact He|].
      assert (Hlen : Z.to_nat e0 < length seen) by (apply nth_error_Some; congruence).
      split; [|split; [|exact Hf]].
      * rewrite nth_error_app1 by exact Hlen. exact Hnth.
      * rewrite firstn_app. replace (Z.to_nat e0 - length seen) with 0 by lia.
        cbn [firstn]. now rewrite app_nil_r.
Qed.

Lemma best_inv_run d w0 : forall map50s self w seen,
  best_inv d w0 w self seen ->
  exists self' w',
    Trainer.validate_epochs self (Z.of_nat (length seen)) map50s w = Ok (self', w')
    /\ best_inv d w0 w' self' (seen ++ map50s).
Proof.
  induction map50s as [|v rest IH]; intros self w seen Hinv.
  - exists self, w. rewrite app_nil_r. split; [reflexivity|exact Hinv].
  - cbn [Trainer.validate_epochs].
    destruct (best_inv_step d w0 w self seen v Hinv) as (self1 & w1 & -> & Hinv1).
    cbn [rbind fst snd].
    destruct (IH self1 w1 (seen ++ [v]) Hinv1) as (self' & w' & E & Hinv').
    rewrite length_app in E. cbn [length] in E.
    replace (Z.of_nat (length seen) + 1)%Z with (Z.of_nat (length seen + 1)) by lia.
    rewrite E. exists self', w'. split; [reflexivity|].
    now rewrite <- app_assoc in Hinv'.
Qed.

End BestEpochFacts.

Section BestOfInit.

Variables model train_dataloader val_dataloader optimizer scheduler scaler loss_fn metrics
          device validate : value.
Variables (save_dir : string) (grad_clip_val : Q) (visualize : bool) (vis_batch_freq : Z).

Local Abbreviation self0 :=
  (Trainer.setattr
     (Trainer.__init__ model train_dataloader val_dataloader optimizer scheduler scaler
                       loss_fn metrics device save_dir grad_clip_val visualize vis_batch_freq)
     "validate" validate).

(** On a fresh trainer to which a [validate] has been assigned (the class
    has none), after the validations of the epochs 0, 1, ... either no
    [map50] was above the initial 0.0, the best-model file is untouched and
    [best_epoch] is still 0; or the best-model file holds the checkpoint of
    [best_epoch] with [best_map], and [best_epoch] is the first epoch whose
    [map50] reached [best_map], the largest value of all. *)
Theorem best_model_file_tracks_best_epoch :
  forall (map50s : list Q) (w0 : world),
    exists self w b e,
      Trainer.validate_epochs self0 0 map50s w0 = Ok (self, w)
      /\ Trainer.getattr self "best_map" = Ok (VFloat b)
      /\ Trainer.getattr self "best_epoch" = Ok (VInt e)
      /\ Forall (fun v => (v <= b)%Q) map50s
      /\ if Qlt_bool 0 b
         then best_file save_dir w = Some (Checkpoint e b)
              /\ (0 <= e)%Z
              /\ nth_error map50s (Z.to_nat e) = Some b
              /\ Forall (fun v => (v < b)%Q) (firstn (Z.to_nat e) map50s)
         else best_file save_dir w = best_file save_dir w0 /\ e = 0%Z.
Proof.
  intros map50s w0.
  assert (Hinit : best_inv save_dir w0 w0 self0 []).
  { exists 0%Q, 0%Z. split; [exact (init_ready _ _ _ _ _ _ _ _ _ _ _ _ _ _)|].
    split; [unfold Trainer.setattr, Trainer.__init__; cbn [Trainer.attrs];
            by simplify_map_eq|].
    split; [split; [now left|split; [apply Qle_refl|constructor]]|].
    left. repeat split; reflexivity. }
  destruct (best_inv_run save_dir w0 map50s self0 w0 [] Hinit)
    as (self & w & E & b & e & Hr & He & Hbest & Hcase).
  cbn [length app Z.of_nat] in *.
  exists self, w, b, e. split; [exact E|].
  split; [unfold Trainer.getattr; now rewrite (proj1 Hr)|].
  split; [unfold Trainer.getattr; now rewrite He|].
  split; [apply Hbest|].
  destruct Hcase as [(-> & -> & Hf)|(Hpos & He0 & Hnth & Hlt & Hf)].
  - cbn. split; [exact Hf|reflexivity].
  - apply Qlt_bool_iff in Hpos. rewrite Hpos. repeat split; assumption.
Qed.

End BestOfInit.

(** ** The saturation of the dropout schedule *)

Section ScheduleClosedForm.

Lemma Qnat_succ n : (Torch.Qnat (S n) == Torch.Qnat n + 1)%Q.
Proof.
  unfold Torch.Qnat. rewrite Nat2Z.inj_succ. unfold Z.succ. now rewrite inject_Z_plus.
Qed.

Lemma bump_closed r r0 n :
  (r == Qmin (1 # 2) (r0 + Torch.Qnat n * (5 # 100)))%Q ->
  (py_min (1 # 2) (r + (5 # 100)) == Qmin (1 # 2) (r0 + Torch.Qnat (S n) * (5 # 100)))%Q.
Proof.
  intros H. rewrite py_min_Qmin, H, Qnat_succ.
  destruct (Q.min_spec (1 # 2) (r0 + Torch.Qnat n * (5 # 100))) as [[H1 ->]|[H1 ->]];
    destruct (Q.min_spec (1 # 2) (r0 + (Torch.Qnat n + 1) * (5 # 100))) as [[H2 ->]|[H2 ->]].
  - rewrite Q.min_l by lra. reflexivity.
  - lra.
  - rewrite Q.min_l by lra. reflexivity.
  - rewrite Q.min_r by lra. ring.
Qed.

Lemma Forall2_bump n : forall rs inits,
  Forall2 (fun r r0 => (r == Qmin (1 # 2) (r0 + Torch.Qnat n * (5 # 100)))%Q) rs inits ->
  Forall2 (fun r r0 => (r == Qmin (1 # 2) (r0 + Torch.Qnat (S n) * (5 # 100)))%Q)
          (map (fun r => py_min (1 # 2) (r + (5 # 100))%Q) rs) inits.
Proof.
  induction 1 as [|r r0 rs inits Hr _ IH]; cbn [map]; constructor; [|exact IH].
  now apply bump_closed.
Qed.

(** In the exact arithmetic of the model: after [n] calls of
    [update_dropout_rates] on a fresh network every rate is
    [min(1/2, initial + n * 5/100)], and the dropout of the classifier,
    built with 3/10, follows the fifth rate from the first call on. *)
Lemma rates_closed_form (num_classes n : nat) :
  exists m,
    after_updates num_classes n = Ok m /\ schedule_inv m
    /\ Forall2 (fun r r0 => (r == Qmin (1 # 2) (r0 + Torch.Qnat n * (5 # 100)))%Q)
               (QResNet34.current_rates m) QResNet34.initial_rates
    /\ (QResNet34.classifier_dropout_p m
        == if n <=? 1 then 3 # 10
           else Qmin (1 # 2) ((25 # 100) + Torch.Qnat n * (5 # 100)))%Q.
Proof.
  induction n as [|n (m & Hm & Hinv & Hrates & Hcls)].
  - destruct (init_inv num_classes) as (m & Hm & Hinv).
    exists m. split; [exact Hm|]. split; [exact Hinv|].
    cbn in Hm. injection Hm as <-. cbn.
    split; [|reflexivity].
    repeat constructor; symmetry; apply Q.min_r; discriminate.
  - cbn [after_updates]. rewrite Hm. cbn [rbind].
    destruct (update_step m Hinv) as (m' & Hu & Hinv' & Hr' & _ & _ & _ & _ & H4).
    exists m'. split; [exact Hu|]. split; [exact Hinv'|].
    pose proof (Forall2_bump n _ _ Hrates) as Hnew. rewrite <- Hr' in Hnew.
    split; [exact Hnew|].
    unfold QResNet34.initial_rates in Hnew.
    destruct (QResNet34.current_rates m') as [|a0 [|a1 [|a2 [|a3 [|a4 rest]]]]];
      try (exfalso; repeat match goal with H : Forall2 _ _ _ |- _ => inversion H; clear H; subst end; fail).
    cbn in H4. injection H4 as <-.
    assert (Ha4 : (a4 == Qmin (1 # 2) ((25 # 100) + Torch.Qnat (S n) * (5 # 100)))%Q).
    { repeat match goal with H : Forall2 _ (_ :: _) _ |- _ => inversion H; clear H; subst end.
      assumption. }
    rewrite Ha4. destruct n as [|n]; [|reflexivity].
    cbn [Nat.leb]. change (Torch.Qnat 1) with 1%Q.
    rewrite Q.min_r by lra. lra.
Qed.

(** The schedule saturates: after nine or more calls of
    [update_dropout_rates] on a fresh network every rate and the dropout of
    the classifier are 0.5, and stay there; during the first seven calls
    the first rate is still below 0.5; and the dropout of the classifier,
    built with 0.3 while its rate starts at 0.25, is not changed by the
    first call. *)
Theorem dropout_schedule_saturates :
  forall num_classes n : nat,
    exists m,
      after_updates num_classes n = Ok m
      /\ (9 <= n ->
          Forall (fun r => (r == 1 # 2)%Q) (QResNet34.current_rates m)
          /\ (QResNet34.classifier_dropout_p m == 1 # 2)%Q)
      /\ (n < 8 ->
          exists r, nth_error (QResNet34.current_rates m) 0 = Some r /\ (r < 1 # 2)%Q)
      /\ (n <= 1 -> (QResNet34.classifier_dropout_p m == 3 # 10)%Q).
Proof.
  intros num_classes n.
  destruct (rates_closed_form num_classes n) as (m & Hm & _ & Hrates & Hcls).
  exists m. split; [exact Hm|].
  unfold QResNet34.initial_rates in Hrates.
  split; [|split].
  - intros Hn.
    assert (Hq : (9 <= Torch.Qnat n)%Q).
    { change 9%Q with (Torch.Qnat 9). now apply Qnat_le. }
    split.
    + repeat match goal with H : Forall2 _ _ (_ :: _) |- _ => inversion H; clear H; subst end.
      match goal with H : Forall2 _ _ [] |- _ => inversion H; clear H; subst end.
      repeat constructor;
        match goal with H : (?r == _)%Q |- (?r == _)%Q => rewrite H end;
        apply Q.min_l; lra.
    + rewrite Hcls. destruct (Nat.leb_spec n 1) as [H1|H1]; [lia|].
      apply Q.min_l. lra.
  - intros Hn.
    assert (Hq : (Torch.Qnat n <= 7)%Q).
    { change 7%Q with (Torch.Qnat 7). apply Qnat_le. lia. }
    inversion Hrates as [|r r0 rs inits Hr Hrest]; subst.
    exists r. split; [reflexivity|]. rewrite Hr.
    destruct (Q.min_spec (1 # 2) ((1 # 10) + Torch.Qnat n * (5 # 100))) as [[H1 ->]|[H1 ->]]; lra.
  - intros Hn. rewrite Hcls. destruct (Nat.leb_spec n 1) as [H1|H1]; [reflexivity|lia].
Qed.

End ScheduleClosedForm.

(** ** Shapes and values of the pooling layers *)

Section PoolingShapes.
Import Torch.

Lemma Ok_inj {A} (a b : A) : Ok a = Ok b -> a = b.
Proof. now intros [= ->]. Qed.

(** The global pooling of [QuaternionAvgPool()] (as [gap] of [QResNet34]
    and [global_pool] of [QuaternionDenseNet]) returns a tensor of shape
    [(B, C, 4, 1, 1)] whose entry for batch entry [b], channel [c] and
    component [k] is the mean of that component over the [H x W] positions
    of that channel alone. *)
Theorem global_avg_pool_means :
  forall (stride : option nat) (x : tensor Q) (B C H W : nat),
    shape x = [B; C; 4; H; W] -> 0 < C -> 0 < H -> 0 < W ->
    exists y,
      QuaternionAvgPool.forward (QuaternionAvgPool.Build None stride) x = Ok y
      /\ shape y = [B; C; 4; 1; 1]
      /\ forall b c k, b < B -> c < C -> k < 4 ->
           get 0%Q y [b; c; k; 0; 0]
           = (Qsum (concat (map (fun h => map (fun w => get 0%Q x [b; c; k; h; w]) (seq 0 W))
                                (seq 0 H)))
              / Qnat (H * W))%Q.
Proof.
  intros stride x B C H W Hs HC HH HW.
  unfold QuaternionAvgPool.forward, QuaternionAvgPool.pooling.
  cbn [QuaternionAvgPool.kernel_size]. unfold adaptive_avg_pool2d_1x1.
  assert (Hacc : nonempty_planes C H W = true).
  { unfold nonempty_planes. rewrite !andb_true_iff, !Nat.ltb_lt. lia. }
  destruct (pool_components_select nonempty_planes (fun _ _ => (1, 1)) adaptive_avg_1x1
              x B C H W 0 Hs ltac:(lia) Hacc) as (y & Hy & Hsy & _).
  exists y. split; [exact Hy|]. split; [exact Hsy|].
  intros b c k Hb Hc Hk.
  destruct (pool_components_select nonempty_planes (fun _ _ => (1, 1)) adaptive_avg_1x1
              x B C H W k Hs Hk Hacc)
    as (y' & Hy' & _ & Hsel).
  rewrite Hy in Hy'. injection Hy' as <-.
  cbn [fst snd] in Hsy.
  pose proof (get_select2 y B C 4 1 1 b k c 0 0 Hsy Hb Hc ltac:(lia) ltac:(lia)) as G.
  rewrite <- G. clear G.
  unfold spatial_pool in Hsel. rewrite (select2_shape5 x B C 4 H W k Hs) in Hsel.
  cbn [shape tabulate] in Hsel. rewrite Hacc in Hsel. apply Ok_inj in Hsel. rewrite <- Hsel.
  rewrite get_tabulate by (apply in_range4; lia).
  unfold adaptive_avg_1x1. cbn [nth]. do 3 f_equal.
  unfold plane. apply map_ext_in. intros h Hh. apply in_seq in Hh.
  apply map_ext_in. intros w Hw. apply in_seq in Hw.
  change (Tensor [B; C; H; W] _) with
    (tabulate [B; C; H; W] (fun idx => get 0%Q x (firstn 2 idx ++ k :: skipn 2 idx))).
  rewrite get_tabulate by (apply in_range4; lia). reflexivity.
Qed.

(** [pool_spatial_only] (window 2, stride 2, padding 1) turns
    [(B, C, 4, H, W)] into [(B, C, 4, H // 2 + 1, W // 2 + 1)]. *)
Theorem pool_spatial_only_shape :
  forall (x : tensor Q) (B C H W : nat),
    shape x = [B; C; 4; H; W] -> 0 < C -> 0 < H -> 0 < W ->
    exists y,
      QuaternionCIFAR10.pool_spatial_only x = Ok y
      /\ shape y = [B; C; 4; H / 2 + 1; W / 2 + 1].
Proof.
  intros x B C H W Hs HC HH HW. unfold QuaternionCIFAR10.pool_spatial_only, max_pool2d.
  assert (Hacc : window_fits 2 2 1 C H W = true).
  { unfold window_fits, nonempty_planes.
    rewrite !andb_true_iff, !Nat.ltb_lt, !Nat.leb_le. cbn. lia. }
  edestruct pool_components_select as (y & Hy & Hsy & _);
    [exact Hs|exact (Nat.lt_0_succ 3)|exact Hacc|].
  exists y. split; [exact Hy|]. rewrite Hsy. cbn [fst snd]. unfold pool_out.
  now replace (H + 2 * 1 - 2) with H by lia; replace (W + 2 * 1 - 2) with W by lia.
Qed.

End PoolingShapes.

Lemma global_avg_pool_means_witness :
  exists y,
    QuaternionAvgPool.forward (QuaternionAvgPool.Build None None) sample_1x1x4x2x2 = Ok y
    /\ Torch.shape y = [1; 1; 4; 1; 1]
    /\ forall b c k, b < 1 -> c < 1 -> k < 4 ->
         Torch.get 0%Q y [b; c; k; 0; 0]
         = (Torch.Qsum
              (concat (map (fun h => map (fun w => Torch.get 0%Q sample_1x1x4x2x2 [b; c; k; h; w])
                                         (seq 0 2))
                           (seq 0 2)))
            / Torch.Qnat (2 * 2))%Q.
Proof.
  apply (global_avg_pool_means None sample_1x1x4x2x2 1 1 2 2); [reflexivity | lia | lia | lia].
Defined.

Lemma pool_spatial_only_shape_witness :
  exists y,
    QuaternionCIFAR10.pool_spatial_only sample_1x1x4x2x2 = Ok y
    /\ Torch.shape y = [1; 1; 4; 2 / 2 + 1; 2 / 2 + 1].
Proof.
  apply (pool_spatial_only_shape sample_1x1x4x2x2 1 1 2 2); [reflexivity | lia | lia | lia].
Defined.
